(** * Pull-request comment resolver: the comment-resolution pipeline

    A shallow embedding of [main.ts] (context extraction, [processComment],
    the batch loop of [main]), of [AzureOpenAiLlmService.generateSuggestion]
    and of the operations of the GitHub and GitLab adapters, followed by
    the properties of the specification that were checked against them.

    JavaScript strings are modelled as [string] (8-bit code units), numbers
    that hold line numbers and ids as [Z], the number [parseInt] reads as
    a double that holds an integer, optional fields as [option], promises
    as state-passing computations that either resolve or reject. A thrown
    value is [null], [undefined], or a value with the [message] it has,
    if any: every [catch] block of the program reads [error.message]. *)

From Stdlib Require Import ZArith List String Ascii Bool Lia DecimalString.
Import ListNotations.

Open Scope string_scope.
Open Scope Z_scope.

(** ** JavaScript primitives used by the program *)

Module Js.

(** The line feed, written [\n] in the source. *)
Definition LF : ascii := "010"%char.
Definition nl : string := String LF "".

(** Truthiness of a string, of an optional string and of an optional
    number: [undefined], the empty string and [0] are falsy. *)
Definition truthy (s : string) : bool :=
  match s with "" => false | String _ _ => true end.

Definition truthy_opt (o : option string) : bool :=
  match o with Some s => truthy s | None => false end.

Definition truthy_num (o : option Z) : bool :=
  match o with Some z => negb (z =? 0) | None => false end.

(** Every object is truthy. *)
Definition truthy_obj {A : Type} (_ : A) : bool := true.

(** [s.startsWith(p)]. *)
Fixpoint startsWith (s p : string) {struct p} : bool :=
  match p with
  | "" => true
  | String c p' =>
      match s with
      | "" => false
      | String d s' => Ascii.eqb d c && startsWith s' p'
      end
  end.

(** [s.includes(p)]. *)
Fixpoint includes (s p : string) : bool :=
  startsWith s p ||
  match s with
  | "" => false
  | String _ s' => includes s' p
  end.

(** [s.substring(n)]: [s] without its first [n] code units. *)
Fixpoint drop (n : nat) (s : string) : string :=
  match n, s with
  | O, _ => s
  | S _, "" => ""
  | S n', String _ s' => drop n' s'
  end.

(** The text before the first occurrence of [p] in [s] and the text after
    it; [None] if [p] does not occur ([s.indexOf(p) === -1]). *)
Fixpoint cut (s p : string) : option (string * string) :=
  if startsWith s p then Some ("", drop (String.length p) s)
  else
    match s with
    | "" => None
    | String c s' =>
        match cut s' p with
        | Some (before, after) => Some (String c before, after)
        | None => None
        end
    end.

(** [s.split(sep)] for a separator of one code unit. The result is never
    empty: the empty string splits into one empty piece. *)
Fixpoint split (sep : ascii) (s : string) : list string :=
  match s with
  | "" => [""]
  | String c s' =>
      if Ascii.eqb c sep then "" :: split sep s'
      else
        match split sep s' with
        | [] => [String c ""]
        | l :: ls => String c l :: ls
        end
  end.

(** [a.join(sep)]. *)
Fixpoint join (sep : string) (a : list string) : string :=
  match a with
  | [] => ""
  | x :: xs =>
      match xs with
      | [] => x
      | _ :: _ => x ++ sep ++ join sep xs
      end
  end.

(** [a.slice(start, end)]: a negative index counts from the end of the
    array, both indices are clamped to the array, and an empty range gives
    the empty array. *)
Definition slice {A : Type} (a : list A) (start end_ : Z) : list A :=
  let len := Z.of_nat (List.length a) in
  let k := if start <? 0 then Z.max (len + start) 0 else Z.min start len in
  let final := if end_ <? 0 then Z.max (len + end_) 0 else Z.min end_ len in
  firstn (Z.to_nat (final - k)) (skipn (Z.to_nat k) a).

(** White space removed by [trim], among the 8-bit code units: tab, line
    feed, vertical tab, form feed, carriage return, space and the
    no-break space. *)
Definition isWhiteSpace (c : ascii) : bool :=
  let n := nat_of_ascii c in
  ((9 <=? n) && (n <=? 13) || (n =? 32) || (n =? 160))%nat.

Fixpoint trimStart (s : string) : string :=
  match s with
  | "" => ""
  | String c s' => if isWhiteSpace c then trimStart s' else s
  end.

Fixpoint trimEnd (s : string) : string :=
  match s with
  | "" => ""
  | String c s' =>
      match trimEnd s' with
      | "" => if isWhiteSpace c then "" else String c ""
      | t => String c t
      end
  end.

Definition trim (s : string) : string := trimEnd (trimStart s).

(** Line terminators, which the regular-expression dot does not match. *)
Definition isLineTerminator (c : ascii) : bool :=
  let n := nat_of_ascii c in ((n =? 10) || (n =? 13))%nat.

(** The longest prefix a greedy run of dots matches. *)
Fixpoint dotStar (s : string) : string :=
  match s with
  | "" => ""
  | String c s' => if isLineTerminator c then "" else String c (dotStar s')
  end.

(** [a[i]]: [undefined] outside the array. *)
Definition at_ {A : Type} (a : list A) (i : Z) : option A :=
  if i <? 0 then None else nth_error a (Z.to_nat i).

(** [a.indexOf(x)] on an array of strings: the first index at which [x]
    stands, or [-1]. *)
Fixpoint indexOf (a : list string) (x : string) : Z :=
  match a with
  | [] => -1
  | y :: ys =>
      if String.eqb y x then 0
      else
        let i := indexOf ys x in
        if i <? 0 then -1 else i + 1
  end.

(** The value of a decimal digit. *)
Definition digitValue (c : ascii) : option Z :=
  let n := nat_of_ascii c in
  if ((48 <=? n) && (n <=? 57))%nat then Some (Z.of_nat (n - 48)) else None.

(** The value of the longest run of decimal digits at the head of [s],
    read after the digits of value [acc]; [None] when there is no digit
    at all ([seen] tells whether one was read). *)
Fixpoint parseDigits (s : string) (acc : Z) (seen : bool) : option Z :=
  match s with
  | "" => if seen then Some acc else None
  | String c s' =>
      match digitValue c with
      | Some d => parseDigits s' (10 * acc + d) true
      | None => if seen then Some acc else None
      end
  end.

(** A number that [parseInt] can return: an integer that a double holds,
    an infinity, or [NaN]. The model has one zero. *)
Inductive Number : Type :=
| NaN
| Finite (z : Z)
| Infinite (negative : bool).

(** Truthiness of a number: zero and [NaN] are falsy. *)
Definition truthy_number (n : Number) : bool :=
  match n with
  | NaN => false
  | Finite z => negb (z =? 0)
  | Infinite _ => true
  end.

(** The double nearest to an integer, ties going to the even significand:
    an integer below 2^53 in magnitude is itself; a larger one keeps its
    53 leading bits, rounded; from 2^1024 on the double is an infinity. *)
Definition roundToDouble (z : Z) : Number :=
  let a := Z.abs z in
  if a <? 2 ^ 53 then Finite z
  else
    let e := Z.log2 a - 52 in
    let q := Z.shiftr a e in
    let r := a - Z.shiftl q e in
    let half := Z.shiftl 1 (e - 1) in
    let q' := if (half <? r) || ((r =? half) && Z.odd q) then q + 1 else q in
    let v := Z.shiftl q' e in
    if 2 ^ 1024 <=? v then Infinite (z <? 0) else Finite (Z.sgn z * v).

(** [parseInt(s, 10)]: leading white space is skipped, one sign is read,
    then the longest run of digits; without a digit the result is [NaN],
    otherwise the double nearest to the integer the digits denote. *)
Definition parseInt (s : string) : Number :=
  match trimStart s with
  | String "-" s' =>
      match parseDigits s' 0 false with
      | Some v => roundToDouble (- v)
      | None => NaN
      end
  | String "+" s' =>
      match parseDigits s' 0 false with
      | Some v => roundToDouble v
      | None => NaN
      end
  | s' =>
      match parseDigits s' 0 false with
      | Some v => roundToDouble v
      | None => NaN
      end
  end.

(** [a || b] on optional strings and on optional numbers. *)
Definition or_string (a b : option string) : option string :=
  if truthy_opt a then a else b.

Definition or_num (a b : option Z) : option Z :=
  if truthy_num a then a else b.

End Js.

(** ** main.ts: the code context extractor *)

(** Number of lines before and after a commented line to fetch for context. *)
Definition MAX_CONTEXT_LINES : Z := 20.

Definition getCodeContext (fileContent : string) (lineNumber maxLines : Z)
  : string :=
  if negb (Js.truthy fileContent) || (lineNumber <=? 0) then ""
  else
    let lines := Js.split Js.LF fileContent in
    let len := Z.of_nat (List.length lines) in
    let targetLineIndex := lineNumber - 1 in
    if (targetLineIndex <? 0) || (targetLineIndex >=? len) then ""
    else
      let startLine := Z.max 0 (targetLineIndex - maxLines) in
      let endLine := Z.min (len - 1) (targetLineIndex + maxLines) in
      Js.join Js.nl (Js.slice lines startLine (endLine + 1)).

Definition getOriginalCode (startLine endLine : Z) (fileContent : string)
  : string :=
  let lines := Js.split Js.LF fileContent in
  let len := Z.of_nat (List.length lines) in
  let startLineIndex := startLine - 1 in
  let endLineIndex := endLine - 1 in
  if (startLineIndex <? 0) || (endLineIndex >=? len) then ""
  else Js.join Js.nl (Js.slice lines startLineIndex (endLineIndex + 1)).

(** ** services/VersionControlService.ts and services/LlmService.ts: data *)

(** A comment id is a number on both platforms; the interface also admits
    a string. *)
Inductive CommentId : Type :=
| IdNumber (n : Z)
| IdString (s : string).

(** The id as a template literal prints it. *)
Definition CommentId_toString (i : CommentId) : string :=
  match i with
  | IdNumber n => NilEmpty.string_of_int (Z.to_int n)
  | IdString s => s
  end.

Module Comment.
Record t : Type := mk {
  id : CommentId;
  body : string;
  filePath : option string;
  endLineNumber : option Z;
  startLineNumber : option Z
}.
End Comment.

Module PullRequestDetails.
Record t : Type := mk {
  owner : string;
  repo : string;
  pullNumber : Z;
  headRef : option string;
  baseRef : option string
}.
End PullRequestDetails.

Inductive Encoding : Type := base64 | utf8.

Module FileContent.
Record t : Type := mk {
  path : string;
  content : string;
  encoding : option Encoding
}.
End FileContent.

Module LlmPromptPayload.
Record t : Type := mk {
  reviewerComment : string;
  codeContext : string;
  filePath : option string;
  originalCode : string;
  language : option string;
  projectRules : option string
}.
End LlmPromptPayload.

Module LlmSuggestion.
Record t : Type := mk {
  suggestionMarkdown : string;
  rationale : option string;
  error : option string
}.
End LlmSuggestion.

(** The identifier [main] hands to [getPullRequestDetails]. *)
Inductive PrIdentifier : Type :=
| IdentUrl (url : string)
| IdentNumber (n : Z)
| IdentRecord (owner repo : string) (pullNumber : Z).

(** ** Promises: computations over a state that resolve or reject *)

(** A thrown value: [null], [undefined], or any other value, of which the
    model keeps what reading its [message] gives. *)
Inductive JsError : Type :=
| mkError (message : option string)
| ThrownNull
| ThrownUndefined.

(** The message of a thrown value that has one. Reading [error.message]
    itself is [readMessage] below: off [null] and [undefined] it throws. *)
Definition message (error : JsError) : option string :=
  match error with
  | mkError m => m
  | ThrownNull => None
  | ThrownUndefined => None
  end.

(** A thrown value that is [null] or [undefined]. *)
Definition nullish (error : JsError) : bool :=
  match error with
  | mkError _ => false
  | ThrownNull => true
  | ThrownUndefined => true
  end.

Definition Error (msg : string) : JsError := mkError (Some msg).

Inductive Completion (A : Type) : Type :=
| Resolved (a : A)
| Rejected (e : JsError).
Arguments Resolved {A} a.
Arguments Rejected {A} e.

Definition Async (S A : Type) : Type := S -> Completion A * S.

Definition ret {S A : Type} (a : A) : Async S A :=
  fun s => (Resolved a, s).

Definition throw {S A : Type} (e : JsError) : Async S A :=
  fun s => (Rejected e, s).

Definition bind {S A B : Type} (m : Async S A) (k : A -> Async S B)
  : Async S B :=
  fun s =>
    match m s with
    | (Resolved a, s') => k a s'
    | (Rejected e, s') => (Rejected e, s')
    end.

(** [try { body } catch (error) { handler }]: what the body did to the
    state before it threw stays done. *)
Definition try_catch {S A : Type} (body : Async S A)
  (handler : JsError -> Async S A) : Async S A :=
  fun s =>
    match body s with
    | (Resolved a, s') => (Resolved a, s')
    | (Rejected e, s') => handler e s'
    end.

Notation "x <- m ;; k" := (bind m (fun x => k))
  (at level 61, m at next level, right associativity).
Notation "m ;;; k" := (bind m (fun _ => k))
  (at level 61, right associativity).

(** [error.message], as every [catch] block of the program evaluates it
    before anything else: a [TypeError] when [error] is [null] or
    [undefined]. *)
Definition readMessage {S : Type} (error : JsError) : Async S (option string) :=
  match error with
  | mkError m => ret m
  | ThrownNull =>
      throw (Error "Cannot read properties of null (reading 'message')")
  | ThrownUndefined =>
      throw (Error "Cannot read properties of undefined (reading 'message')")
  end.

(** ** The two adapter interfaces *)

Section Interfaces.

Variable W : Type.

Record VersionControlService : Type := {
  getPullRequestDetails : PrIdentifier -> Async W PullRequestDetails.t;
  getPullRequestComments : PullRequestDetails.t -> Async W (list Comment.t);
  (** The declared result is a [FileContent]; [processComment] still tests
      it for [null], so the model lets the promise resolve to [None]. *)
  getFileContent :
    PullRequestDetails.t -> string -> option string ->
    Async W (option FileContent.t);
  postSuggestionComment :
    PullRequestDetails.t -> CommentId -> string -> option string ->
    Async W unit
}.

Record LlmService : Type := {
  generateSuggestion : LlmPromptPayload.t -> Async W LlmSuggestion.t
}.

End Interfaces.

Arguments getPullRequestDetails {W} _ _ _.
Arguments getPullRequestComments {W} _ _ _.
Arguments getFileContent {W} _ _ _ _ _.
Arguments postSuggestionComment {W} _ _ _ _ _ _.
Arguments generateSuggestion {W} _ _ _.

(** ** implementations/AzureOpenAiLlmService.ts *)

Module AzureOpenAiLlmService.

Definition backticks : string := "```".
Definition dquote : string := String "034"%char "".

(** The marker [processComment] looks for. *)
Definition suggestionMarker : string := backticks ++ "suggestion".

(** The opening and the closing fence of the pattern
    [/```suggestion\n([\s\S]*?)\n```/]. *)
Definition openingFence : string := suggestionMarker ++ Js.nl.
Definition closingFence : string := Js.nl ++ backticks.

(** [responseText.match(/```suggestion\n([\s\S]*?)\n```/)]: the whole match
    (element 0) and the captured group (element 1). The leftmost opening
    fence is taken; the lazy group stops at the first closing fence that
    begins after the opening fence has ended. When no closing fence follows
    the leftmost opening fence, none follows a later one either, so the
    match fails. *)
Definition matchSuggestion (responseText : string)
  : option (string * string) :=
  match Js.cut responseText openingFence with
  | None => None
  | Some (_, rest) =>
      match Js.cut rest closingFence with
      | None => None
      | Some (code, _) => Some (openingFence ++ code ++ closingFence, code)
      end
  end.

(** The match of the pattern [Rationale: ] followed by a captured run of
    characters other than line terminators: the captured group. *)
Definition matchRationale (responseText : string) : option string :=
  match Js.cut responseText "Rationale: " with
  | None => None
  | Some (_, rest) => Some (Js.dotStar rest)
  end.

Definition systemPrompt : string :=
  Js.join Js.nl
    [ "You are an expert software developer assisting with code reviews. Your task is to provide a code suggestion to address a reviewer's comment.";
      "Respond ONLY with a GitHub commit suggestion markdown block and a one-line rationale for the change.";
      "";
      "The suggestion block should look like:";
      backticks ++ "suggestion";
      "<new_code_here>";
      backticks;
      "Rationale: <Your one-line rationale here>";
      "";
      "If you cannot provide a suggestion or the request is unclear, respond with:";
      backticks ++ "suggestion";
      "// No suggestion could be generated for this comment.";
      backticks;
      "Rationale: <Brief reason why no suggestion could be made>";
      "" ].

Definition humanPromptContent (payload : LlmPromptPayload.t) : string :=
  let h :=
    "A reviewer has made the following comment:" ++ Js.nl ++
    dquote ++ LlmPromptPayload.reviewerComment payload ++ dquote ++ Js.nl ++
    Js.nl ++ "Here is the relevant code context" in
  let h :=
    match LlmPromptPayload.filePath payload with
    | Some p => if Js.truthy p then h ++ " from file `" ++ p ++ "`" else h
    | None => h
    end in
  let h :=
    match LlmPromptPayload.language payload with
    | Some l => if Js.truthy l then h ++ " (language: " ++ l ++ ")" else h
    | None => h
    end in
  let h :=
    h ++ ":" ++ Js.nl ++
    "--- start of extended code context ---" ++ Js.nl ++
    LlmPromptPayload.codeContext payload ++ Js.nl ++
    "--- end of extended code context ---" ++ Js.nl ++
    "Here is the original code:" ++ Js.nl ++
    "--- start of exact original code lines ---" ++ Js.nl ++
    LlmPromptPayload.originalCode payload ++ Js.nl ++
    "--- end of exact original code lines ---" ++ Js.nl in
  let h :=
    match LlmPromptPayload.projectRules payload with
    | Some r =>
        if Js.truthy r then
          h ++ Js.nl ++
          "Please ensure your suggestion complies with the following project rules:"
          ++ Js.nl ++ r ++ Js.nl
        else h
    | None => h
    end in
  h ++ Js.nl ++
  "Based on the comment and the code, please provide a GitHub commit suggestion markdown block and a one-line rationale.".

(** The prompt sent to the model. *)
Definition fullPrompt (payload : LlmPromptPayload.t) : string :=
  systemPrompt ++ Js.nl ++ Js.nl ++ humanPromptContent payload.

(** The result returned when the response holds no suggestion block. *)
Definition parsingFailed : LlmSuggestion.t :=
  LlmSuggestion.mk
    (openingFence ++ "// LLM response was not in the expected format."
       ++ closingFence)
    (Some "Could not parse suggestion from LLM response.")
    (Some "LLM response parsing failed.").

(** The body of the [try] block after the response has arrived. *)
Definition parseResponse (responseText : string) : LlmSuggestion.t :=
  let suggestionMatch := matchSuggestion responseText in
  let rationaleMatch := matchRationale responseText in
  match suggestionMatch with
  | Some (whole, _) =>
      if Js.truthy whole then
        LlmSuggestion.mk whole
          (match rationaleMatch with
           | Some group => Some (Js.trim group)
           | None => Some "No rationale provided."
           end)
          None
      else parsingFailed
  | None => parsingFailed
  end.

(** The result the [catch] block returns. *)
Definition generationFailed (error : JsError) : LlmSuggestion.t :=
  LlmSuggestion.mk
    (openingFence ++ "// Error occurred while generating suggestion."
       ++ closingFence)
    (Some "Failed to generate suggestion due to an internal error.")
    (Some
       (match message error with
        | Some m =>
            if Js.truthy m then m
            else "Unknown error during LLM suggestion generation."
        | None => "Unknown error during LLM suggestion generation."
        end)).

Section Service.

Variable W : Type.

(** [this.llm.invoke(fullPrompt)] followed by reading [response.content]:
    the transport, which may reject. A response whose content is not a
    string makes the pattern match throw inside the [try] block; the
    model counts it as a rejection of the transport. *)
Variable invoke : string -> Async W string.

Definition generateSuggestion (payload : LlmPromptPayload.t)
  : Async W LlmSuggestion.t :=
  try_catch
    (let fullPrompt := fullPrompt payload in
     responseText <- invoke fullPrompt ;;
     ret (parseResponse responseText))
    (fun error =>
       readMessage error ;;;
       ret (generationFailed error)).

Definition service : LlmService W :=
  Build_LlmService W generateSuggestion.

End Service.

End AzureOpenAiLlmService.

(** ** implementations/GitHubService.ts: posting a reply *)

Module GitHubService.

(** The body of the reply: the suggestion, after the explanation and a
    line feed when there is an explanation. *)
Definition replyBody (suggestion : string) (explanation : option string)
  : string :=
  let body := suggestion in
  match explanation with
  | Some e => if Js.truthy e then e ++ Js.nl ++ suggestion else body
  | None => body
  end.

Section Service.

Variable W : Type.

(** [octokit.pulls.createReplyForReviewComment] with its fields [owner],
    [repo], [pull_number], [comment_id] and [body]. The conversion
    [Number(replyToCommentId)] is left to the client. *)
Variable createReplyForReviewComment :
  string -> string -> Z -> CommentId -> string -> Async W unit.

Definition postSuggestionComment (prDetails : PullRequestDetails.t)
  (replyToCommentId : CommentId) (suggestion : string)
  (explanation : option string) : Async W unit :=
  try_catch
    (let body := replyBody suggestion explanation in
     createReplyForReviewComment
       (PullRequestDetails.owner prDetails)
       (PullRequestDetails.repo prDetails)
       (PullRequestDetails.pullNumber prDetails)
       replyToCommentId
       body)
    (fun error => readMessage error ;;; throw error).

End Service.

(** A review comment as [octokit.pulls.listReviewComments] returns it. *)
Module ReviewComment.
Record t : Type := mk {
  id : Z;
  body : string;
  path : string;
  line : option Z;
  original_line : option Z;
  start_line : option Z
}.
End ReviewComment.

(** The mapping of [getPullRequestComments]. *)
Definition toComment (comment : ReviewComment.t) : Comment.t :=
  Comment.mk
    (IdNumber (ReviewComment.id comment))
    (ReviewComment.body comment)
    (Some (ReviewComment.path comment))
    (Js.or_num (ReviewComment.line comment)
       (ReviewComment.original_line comment))
    (ReviewComment.start_line comment).

(** What [octokit.repos.getContent] returns: the listing of a directory
    (an array) or one item with its type. *)
Inductive ContentData : Type :=
| ContentArray
| ContentItem (type path content encoding : string).

Section Reading.

Variable W : Type.

(** [octokit.pulls.listReviewComments] with [owner], [repo] and
    [pull_number]. *)
Variable listReviewComments :
  string -> string -> Z -> Async W (list ReviewComment.t).

(** [octokit.repos.getContent] with [owner], [repo], [path] and [ref]. *)
Variable getContent : string -> string -> string -> string -> Async W ContentData.

(** [Buffer.from(content, encoding).toString("utf-8")], which throws for
    an encoding it does not know. *)
Variable decode : string -> string -> JsError + string.

Definition getPullRequestComments (prDetails : PullRequestDetails.t)
  : Async W (list Comment.t) :=
  try_catch
    (reviewComments <-
       listReviewComments
         (PullRequestDetails.owner prDetails)
         (PullRequestDetails.repo prDetails)
         (PullRequestDetails.pullNumber prDetails) ;;
     ret (map toComment reviewComments))
    (fun error => readMessage error ;;; throw error).

Definition getFileContent (prDetails : PullRequestDetails.t)
  (filePath : string) (ref : option string) : Async W FileContent.t :=
  try_catch
    (let fileRef := Js.or_string ref (PullRequestDetails.headRef prDetails) in
     match fileRef with
     | Some fileRef =>
         if negb (Js.truthy fileRef) then
           throw
             (Error
                "Cannot determine file reference (branch/commit SHA) for getFileContent.")
         else
           contentData <-
             getContent
               (PullRequestDetails.owner prDetails)
               (PullRequestDetails.repo prDetails)
               filePath fileRef ;;
           match contentData with
           | ContentArray =>
               throw
                 (Error
                    ("Path " ++ filePath
                       ++ " is a directory or not a file type (e.g., symlink, submodule)."))
           | ContentItem type path content encoding =>
               if negb (String.eqb type "file") then
                 throw
                   (Error
                      ("Path " ++ filePath
                         ++ " is a directory or not a file type (e.g., symlink, submodule)."))
               else
                 match decode content encoding with
                 | inr text => ret (FileContent.mk path text (Some utf8))
                 | inl thrown => throw thrown
                 end
           end
     | None =>
         throw
           (Error
              "Cannot determine file reference (branch/commit SHA) for getFileContent.")
     end)
    (fun error => readMessage error ;;; throw error).

End Reading.

(** The platform as [processComment] uses it: the operations above over
    one client, with some way to fetch the details of the request. *)
Definition service (W : Type)
  (createReplyForReviewComment :
     string -> string -> Z -> CommentId -> string -> Async W unit)
  (listReviewComments : string -> string -> Z -> Async W (list ReviewComment.t))
  (getContent : string -> string -> string -> string -> Async W ContentData)
  (decode : string -> string -> JsError + string)
  (getPullRequestDetails : PrIdentifier -> Async W PullRequestDetails.t)
  : VersionControlService W :=
  Build_VersionControlService W
    getPullRequestDetails
    (getPullRequestComments W listReviewComments)
    (fun prDetails filePath ref =>
       fileContent <- getFileContent W getContent decode prDetails filePath ref ;;
       ret (Some fileContent))
    (postSuggestionComment W createReplyForReviewComment).

End GitHubService.

(** ** implementations/GitLabService.ts: posting a discussion *)

Module GitLabService.

(** The position of a note on a diff. *)
Record Position : Type := mkPosition {
  new_path : option string;
  old_path : option string;
  new_line : option Z;
  old_line : option Z
}.

Module DiscussionNote.
Record t : Type := mk {
  id : Z;
  body : string;
  position : option Position
}.
End DiscussionNote.

Record Discussion : Type := mkDiscussion {
  notes : option (list DiscussionNote.t)
}.

(** What [MergeRequestDiscussions.create] receives. *)
Record CreatedDiscussion : Type := mkCreated {
  created_project : string;
  created_mr : Z;
  created_body : string;
  created_position : option Position
}.

Section Service.

Variable W : Type.

(** [gitlab.MergeRequestDiscussions.show] and [.create]. *)
Variable MergeRequestDiscussions_show :
  string -> Z -> string -> Async W Discussion.
Variable MergeRequestDiscussions_create :
  string -> Z -> string -> option Position -> Async W unit.

Definition postSuggestionComment (prDetails : PullRequestDetails.t)
  (replyToCommentId : CommentId) (suggestion : string)
  (explanation : option string) : Async W unit :=
  let discussionBody := suggestion in
  let discussionBody :=
    match explanation with
    | Some e => if Js.truthy e then e ++ Js.nl ++ suggestion else discussionBody
    | None => discussionBody
    end in
  try_catch
    (originalDiscussionThread <-
       MergeRequestDiscussions_show
         (PullRequestDetails.repo prDetails)
         (PullRequestDetails.pullNumber prDetails)
         ("" ++ CommentId_toString replyToCommentId) ;;
     (* originalDiscussionThread.notes && originalDiscussionThread.notes[0] *)
     let firstThreadNote :=
       match notes originalDiscussionThread with
       | Some (n :: _) => Some n
       | Some [] => None
       | None => None
       end in
     match firstThreadNote with
     | None =>
         throw
           (Error
              ("No original discussion thread found for comment ID "
                 ++ CommentId_toString replyToCommentId ++ "."))
     | Some firstThreadNote =>
         (* newDiscussionNote = { ...firstThreadNote } *)
         let newDiscussionNote := firstThreadNote in
         let newDiscussionNote :=
           if Js.truthy_obj originalDiscussionThread then
             DiscussionNote.mk
               (DiscussionNote.id newDiscussionNote)
               (DiscussionNote.body newDiscussionNote)
               (DiscussionNote.position firstThreadNote)
           else
             DiscussionNote.mk
               (DiscussionNote.id newDiscussionNote)
               ("Replying to (or inspired by) comment ID "
                  ++ CommentId_toString replyToCommentId ++ ":" ++ Js.nl
                  ++ discussionBody)
               (DiscussionNote.position newDiscussionNote) in
         MergeRequestDiscussions_create
           (PullRequestDetails.repo prDetails)
           (PullRequestDetails.pullNumber prDetails)
           (DiscussionNote.body newDiscussionNote)
           (DiscussionNote.position firstThreadNote)
     end)
    (fun error => readMessage error ;;; throw error).

End Service.

(** A note as [gitlab.MergeRequestNotes.all] returns it. *)
Module Note.
Record t : Type := mk {
  id : Z;
  body : string;
  type : option string;
  resolvable : bool;
  position : option Position
}.
End Note.

(** The filter of [getPullRequestComments]. *)
Definition isResolvableDiffNote (note : Note.t) : bool :=
  match Note.type note with
  | Some t => String.eqb t "DiffNote"
  | None => false
  end && Note.resolvable note.

(** The mapping of [getPullRequestComments]. *)
Definition toComment (note : Note.t) : Comment.t :=
  let filePath : option string := None in
  let lineNumber : option Z := None in
  let located :=
    match Note.position note with
    | Some position =>
        (Js.or_string (new_path position) (old_path position),
         Js.or_num (new_line position) (old_line position))
    | None => (filePath, lineNumber)
    end in
  Comment.mk (IdNumber (Note.id note)) (Note.body note)
    (fst located) (snd located) None.

(** A merge request as [gitlab.MergeRequests.show] returns it. *)
Record MergeRequest : Type := mkMergeRequest {
  iid : Z;
  source_branch : string;
  target_branch : string
}.

(** A file as [gitlab.RepositoryFiles.show] returns it; a content that is
    not a string is [None]. *)
Record FileData : Type := mkFileData {
  file_content : option string;
  file_encoding : option string;
  file_path : option string
}.

Definition SLASH : ascii := "/"%char.

Section Reading.

Variable W : Type.

(** [new URL(urlString).pathname]; [None] when the constructor throws. *)
Variable pathnameOf : string -> option string.

(** [process.env.GITLAB_PROJECT_PATH]. *)
Variable GITLAB_PROJECT_PATH : option string.

(** [gitlab.MergeRequests.show], [gitlab.MergeRequestNotes.all] and
    [gitlab.RepositoryFiles.show]. *)
Variable MergeRequests_show : string -> Js.Number -> Async W MergeRequest.
Variable MergeRequestNotes_all : string -> Z -> Async W (list Note.t).
Variable RepositoryFiles_show : string -> string -> string -> Async W FileData.

(** [Buffer.from(content, "base64").toString("utf-8")]. *)
Variable decodeBase64 : string -> string.

Definition parseGitLabMrUrl (urlString : string)
  : option (string * Js.Number) :=
  match pathnameOf urlString with
  | Some pathname =>
      let pathParts :=
        filter (fun part => (0 <? String.length part)%nat)
          (Js.split SLASH pathname) in
      let mrIndex := Js.indexOf pathParts "merge_requests" in
      if (mrIndex >? 1)
         && match Js.at_ pathParts (mrIndex - 1) with
            | Some part => String.eqb part "-"
            | None => false
            end
         && (Z.of_nat (List.length pathParts) >? mrIndex + 1)
      then
        let projectPath :=
          Js.join "/" (Js.slice pathParts 0 (mrIndex - 1)) in
        let mrIid :=
          match Js.at_ pathParts (mrIndex + 1) with
          | Some text => Js.parseInt text
          | None => Js.NaN
          end in
        match mrIid with
        | Js.NaN => None
        | mrIid =>
            if Js.truthy projectPath then Some (projectPath, mrIid) else None
        end
      else None
  | None => None
  end.

Definition getPullRequestDetails (prIdentifier : PrIdentifier)
  : Async W PullRequestDetails.t :=
  resolved <-
    match prIdentifier with
    | IdentRecord _ repo pullNumber => ret (repo, Js.Finite pullNumber)
    | IdentNumber n =>
        let projectPath :=
          match GITLAB_PROJECT_PATH with
          | Some p => if Js.truthy p then p else ""
          | None => ""
          end in
        if negb (Js.truthy projectPath) then
          throw
            (Error
               "GITLAB_PROJECT_PATH env must be set if only MR IID (pullNumber) is provided.")
        else ret (projectPath, Js.Finite n)
    | IdentUrl url =>
        match parseGitLabMrUrl url with
        | None =>
            throw
              (Error
                 "Invalid GitLab MR URL format. Expected format: https://gitlab.com/group/project/-/merge_requests/iid")
        | Some parsed => ret parsed
        end
    end ;;
  let projectPath : string := fst resolved in
  let merge_request_iid : Js.Number := snd resolved in
  if negb (Js.truthy projectPath) || negb (Js.truthy_number merge_request_iid)
  then
    throw
      (Error
         "Could not determine projectPath or merge_request_iid from prIdentifier.")
  else
    try_catch
      (mr <- MergeRequests_show projectPath merge_request_iid ;;
       ret
         (PullRequestDetails.mk
            (match Js.split SLASH projectPath with
             | first :: _ => first
             | [] => ""
             end)
            projectPath
            (iid mr)
            (Some (source_branch mr))
            (Some (target_branch mr))))
      (fun error => readMessage error ;;; throw error).

Definition getPullRequestComments (prDetails : PullRequestDetails.t)
  : Async W (list Comment.t) :=
  try_catch
    (notes <-
       MergeRequestNotes_all
         (PullRequestDetails.repo prDetails)
         (PullRequestDetails.pullNumber prDetails) ;;
     ret (map toComment (filter isResolvableDiffNote notes)))
    (fun error => readMessage error ;;; throw error).

Definition getFileContent (prDetails : PullRequestDetails.t)
  (filePath : string) (ref : option string) : Async W FileContent.t :=
  try_catch
    (let fileRef := Js.or_string ref (PullRequestDetails.headRef prDetails) in
     match fileRef with
     | Some fileRef =>
         if negb (Js.truthy fileRef) then
           throw
             (Error
                "Cannot determine file reference (branch/commit SHA) for getFileContent.")
         else
           fileData <-
             RepositoryFiles_show (PullRequestDetails.repo prDetails)
               filePath fileRef ;;
           match file_content fileData, file_encoding fileData with
           | Some content, Some encoding =>
               if String.eqb encoding "base64" then
                 ret
                   (FileContent.mk
                      (match file_path fileData with
                       | Some p => if Js.truthy p then p else filePath
                       | None => filePath
                       end)
                      (decodeBase64 content) (Some utf8))
               else if negb (Js.truthy encoding) then
                 ret (FileContent.mk filePath content (Some utf8))
               else
                 throw
                   (Error
                      ("File content for " ++ filePath
                         ++ " is not in expected base64 format or is unavailable."))
           | Some content, None =>
               ret (FileContent.mk filePath content (Some utf8))
           | None, _ =>
               throw
                 (Error
                    ("File content for " ++ filePath
                       ++ " is not in expected base64 format or is unavailable."))
           end
     | None =>
         throw
           (Error
              "Cannot determine file reference (branch/commit SHA) for getFileContent.")
     end)
    (fun error => readMessage error ;;; throw error).

End Reading.

End GitLabService.

(** ** main.ts: the pipeline *)

(** The terminal state of one comment: which [return] of [processComment]
    (or which branch of the loop of [main]) was taken. *)
Inductive Outcome : Type := Skipped | Posted | Failed.

(** The calls [processComment] makes to its two adapters, each with what
    the adapter answered. *)
Inductive AdapterCall : Type :=
| CallGetFileContent (filePath : string) (ref : option string)
    (answer : Completion (option FileContent.t))
| CallGenerateSuggestion (payload : LlmPromptPayload.t)
    (answer : Completion LlmSuggestion.t)
| CallPostSuggestionComment (replyToCommentId : CommentId)
    (suggestion : string) (explanation : option string)
    (answer : Completion unit).

Definition isPost (c : AdapterCall) : bool :=
  match c with
  | CallPostSuggestionComment _ _ _ _ => true
  | _ => false
  end.

Definition isFetch (c : AdapterCall) : bool :=
  match c with
  | CallGetFileContent _ _ _ => true
  | _ => false
  end.

Definition isGenerate (c : AdapterCall) : bool :=
  match c with
  | CallGenerateSuggestion _ _ => true
  | _ => false
  end.

(** A call of [postSuggestionComment] that the platform accepted. *)
Definition isAcceptedPost (c : AdapterCall) : bool :=
  match c with
  | CallPostSuggestionComment _ _ _ (Resolved _) => true
  | _ => false
  end.

Definition isPosted (o : Outcome) : bool :=
  match o with
  | Posted => true
  | _ => false
  end.

(** The number of elements of a list that pass a test. *)
Definition countIf {A : Type} (f : A -> bool) (l : list A) : nat :=
  List.length (filter f l).

Section Pipeline.

Variable W : Type.

(** The state of a run: the outside world (hosting platform, model
    endpoint) and the adapter calls made so far. *)
Record St : Type := mkSt { world : W; calls : list AdapterCall }.

(** An adapter operation run from the pipeline, entered in the log. *)
Definition call {R : Type} (entry : Completion R -> AdapterCall)
  (op : Async W R) : Async St R :=
  fun st =>
    let (answer, w') := op (world st) in
    (answer, mkSt w' (calls st ++ [entry answer])).

Variable vcsService : VersionControlService W.
Variable llmService : LlmService W.

(** The test that guards the post. *)
Definition unusable (suggestionResult : LlmSuggestion.t) : bool :=
  Js.truthy_opt (LlmSuggestion.error suggestionResult) ||
  negb (Js.includes (LlmSuggestion.suggestionMarkdown suggestionResult)
          AzureOpenAiLlmService.suggestionMarker).

(** The explanation handed to [postSuggestionComment]. *)
Definition explanationOf (suggestionResult : LlmSuggestion.t)
  : option string :=
  if Js.truthy_opt (LlmSuggestion.rationale suggestionResult) then
    match LlmSuggestion.rationale suggestionResult with
    | Some r => Some ("Rationale: " ++ r)
    | None => None
    end
  else None.

Definition processComment (comment : Comment.t)
  (prDetails : PullRequestDetails.t) : Async St Outcome :=
  match Comment.filePath comment, Comment.endLineNumber comment with
  | Some filePath, Some endLineNumber =>
      if negb (Js.truthy filePath) || (endLineNumber =? 0) then ret Skipped
      else
        (* 1. Fetch file content for context *)
        fetched <-
          try_catch
            (fileContent <-
               call
                 (CallGetFileContent filePath
                    (PullRequestDetails.headRef prDetails))
                 (getFileContent vcsService prDetails filePath
                    (PullRequestDetails.headRef prDetails)) ;;
             match fileContent with
             | Some f =>
                 ret (fileContent,
                      getCodeContext (FileContent.content f) endLineNumber
                        MAX_CONTEXT_LINES)
             | None => ret (fileContent, "")
             end)
            (fun error => readMessage error ;;; ret (None, "")) ;;
        let fileContent : option FileContent.t := fst fetched in
        let codeContext : string := snd fetched in
        if negb (Js.truthy codeContext) then ret Skipped
        else
          (* fileContent!.content, a TypeError on null *)
          content <-
            match fileContent with
            | Some f => ret (FileContent.content f)
            | None =>
                throw (Error "Cannot read properties of null (reading 'content')")
            end ;;
          let originalCode :=
            getOriginalCode
              (match Comment.startLineNumber comment with
               | Some s => s
               | None => endLineNumber
               end)
              endLineNumber content in
          (* 2. Prepare payload for LLM *)
          let llmPayload :=
            LlmPromptPayload.mk (Comment.body comment) codeContext
              (Some filePath) originalCode None None in
          (* 3. Generate suggestion from LLM *)
          suggestionResult <-
            call (CallGenerateSuggestion llmPayload)
              (generateSuggestion llmService llmPayload) ;;
          if unusable suggestionResult then ret Failed
          else
            (* 4. Post suggestion back to PR *)
            try_catch
              (call
                 (CallPostSuggestionComment (Comment.id comment)
                    (LlmSuggestion.suggestionMarkdown suggestionResult)
                    (explanationOf suggestionResult))
                 (postSuggestionComment vcsService prDetails
                    (Comment.id comment)
                    (LlmSuggestion.suggestionMarkdown suggestionResult)
                    (explanationOf suggestionResult)) ;;;
               ret Posted)
              (fun error => readMessage error ;;; ret Failed)
  | _, _ => ret Skipped
  end.

(** The loop of [main] over the comments. *)
Fixpoint processAll (comments : list Comment.t)
  (prDetails : PullRequestDetails.t) : Async St (list Outcome) :=
  match comments with
  | [] => ret []
  | comment :: rest =>
      outcome <-
        (if Js.truthy_opt (Comment.filePath comment)
            && Js.truthy_num (Comment.endLineNumber comment)
         then processComment comment prDetails
         else ret Skipped) ;;
      outcomes <- processAll rest prDetails ;;
      ret (outcome :: outcomes)
  end.

End Pipeline.

Arguments mkSt {W} _ _.
Arguments world {W} _.
Arguments calls {W} _.
Arguments call {W R} _ _ _.
Arguments processComment {W} _ _ _ _ _.
Arguments processAll {W} _ _ _ _ _.

(** ** Words of the specification *)

(** The lines with zero-based indices [lo] through [hi] inclusive, in
    order; none when [hi < lo]. *)
Definition linesBetween (lines : list string) (lo hi : Z) : list string :=
  map (fun i => nth i lines "") (seq (Z.to_nat lo) (Z.to_nat (hi - lo + 1))).

(** The number of newline-separated lines of a text. *)
Definition lineCount (text : string) : Z :=
  Z.of_nat (List.length (Js.split Js.LF text)).

(** Line [n], counted from 1, of a text. *)
Definition lineAt (text : string) (n : Z) : string :=
  nth (Z.to_nat (n - 1)) (Js.split Js.LF text) "".

(** A text holds a fenced block tagged suggestion when the pattern of the
    generator matches in it: an opening fence, a line feed, and later a
    line feed followed by a closing fence. *)
Definition hasSuggestionBlock (markdown : string) : bool :=
  match AzureOpenAiLlmService.matchSuggestion markdown with
  | Some _ => true
  | None => false
  end.

(** An error indicator is populated when it is present and not empty. *)
Definition errorPopulated (r : LlmSuggestion.t) : bool :=
  Js.truthy_opt (LlmSuggestion.error r).

(** What leaves a [catch] block that reads [error.message] and throws
    [error] again: the value itself, or the [TypeError] of the reading
    when the value is [null] or [undefined]. *)
Definition passedOn (error : JsError) : JsError :=
  match error with
  | mkError m => mkError m
  | ThrownNull => Error "Cannot read properties of null (reading 'message')"
  | ThrownUndefined =>
      Error "Cannot read properties of undefined (reading 'message')"
  end.

(** A platform's file reads, or its posts, reject with values that have a
    [message] to read: never with [null] or [undefined]. *)
Definition readsThrowErrors {W : Type} (vcsService : VersionControlService W)
  : Prop :=
  forall prDetails filePath ref w e w',
    getFileContent vcsService prDetails filePath ref w = (Rejected e, w') ->
    nullish e = false.

Definition postsThrowErrors {W : Type} (vcsService : VersionControlService W)
  : Prop :=
  forall prDetails replyToCommentId suggestion explanation w e w',
    postSuggestionComment vcsService prDetails replyToCommentId suggestion
      explanation w = (Rejected e, w') ->
    nullish e = false.

(** The generator answers a payload with a result. *)
Definition answers {W : Type} (llmService : LlmService W)
  (payload : LlmPromptPayload.t) (w : W) (r : LlmSuggestion.t) (w' : W)
  : Prop :=
  generateSuggestion llmService payload w = (Resolved r, w').

(** A generator that keeps the contract of never rejecting. *)
Definition neverRejects {W : Type} (llmService : LlmService W) : Prop :=
  forall payload w,
    exists r w', generateSuggestion llmService payload w = (Resolved r, w').

(** The comments of the notes that are resolvable diff notes, one for
    each such note, in the order of the notes. *)
Inductive ResolvableDiffNotes
  : list GitLabService.Note.t -> list Comment.t -> Prop :=
| NotesDone : ResolvableDiffNotes [] []
| NoteTaken note notes comments :
    GitLabService.Note.type note = Some "DiffNote" ->
    GitLabService.Note.resolvable note = true ->
    ResolvableDiffNotes notes comments ->
    ResolvableDiffNotes (note :: notes)
      (GitLabService.toComment note :: comments)
| NoteLeftOut note notes comments :
    GitLabService.Note.type note <> Some "DiffNote"
    \/ GitLabService.Note.resolvable note = false ->
    ResolvableDiffNotes notes comments ->
    ResolvableDiffNotes (note :: notes) comments.

(** [part] occurs in [text] as it is. *)
Definition occursIn (part text : string) : Prop :=
  exists before after, text = before ++ part ++ after.

(** The adapter calls one run of [processComment] can add to the log,
    with the way the run ends. *)
Inductive Run (comment : Comment.t)
  : list AdapterCall -> Completion Outcome -> Prop :=
| RunIneligible :
    Run comment [] (Resolved Skipped)
| RunNoContext filePath ref answer :
    Run comment [CallGetFileContent filePath ref answer] (Resolved Skipped)
| RunGeneratorThrew filePath ref answer payload e :
    Run comment
      [CallGetFileContent filePath ref answer;
       CallGenerateSuggestion payload (Rejected e)]
      (Rejected e)
| RunUnusable filePath ref answer payload r :
    unusable r = true ->
    Run comment
      [CallGetFileContent filePath ref answer;
       CallGenerateSuggestion payload (Resolved r)]
      (Resolved Failed)
| RunPosted filePath ref answer payload r :
    unusable r = false ->
    Run comment
      [CallGetFileContent filePath ref answer;
       CallGenerateSuggestion payload (Resolved r);
       CallPostSuggestionComment (Comment.id comment)
         (LlmSuggestion.suggestionMarkdown r) (explanationOf r)
         (Resolved tt)]
      (Resolved Posted)
| RunPostFailed filePath ref answer payload r e :
    unusable r = false ->
    Run comment
      [CallGetFileContent filePath ref answer;
       CallGenerateSuggestion payload (Resolved r);
       CallPostSuggestionComment (Comment.id comment)
         (LlmSuggestion.suggestionMarkdown r) (explanationOf r)
         (Rejected e)]
      (Resolved Failed)
| RunReadEscaped filePath ref e :
    nullish e = true ->
    Run comment [CallGetFileContent filePath ref (Rejected e)]
      (Rejected (passedOn e))
| RunPostEscaped filePath ref answer payload r e :
    unusable r = false ->
    nullish e = true ->
    Run comment
      [CallGetFileContent filePath ref answer;
       CallGenerateSuggestion payload (Resolved r);
       CallPostSuggestionComment (Comment.id comment)
         (LlmSuggestion.suggestionMarkdown r) (explanationOf r)
         (Rejected e)]
      (Rejected (passedOn e)).

(** ** Concrete adapters for the end-to-end scenarios *)

Module Scenario.

(** The world of the scenarios: the bodies posted so far, newest last. *)
Definition World : Type := list (CommentId * string).

Definition fiveLines : string :=
  "a" ++ Js.nl ++ "b" ++ Js.nl ++ "c" ++ Js.nl ++ "d" ++ Js.nl ++ "e".

Definition prDetails : PullRequestDetails.t :=
  PullRequestDetails.mk "octocat" "Spoon-Knife" 1 (Some "feature") (Some "main").

(** A client whose reply endpoint records the body it is given. *)
Definition createReply (owner repo : string) (pull_number : Z)
  (comment_id : CommentId) (body : string) : Async World unit :=
  fun w => (Resolved tt, (w ++ [(comment_id, body)])%list).

(** A client whose reply endpoint refuses the comment. *)
Definition rejectReply (owner repo : string) (pull_number : Z)
  (comment_id : CommentId) (body : string) : Async World unit :=
  throw (Error "Not Found").

(** A suggestion as the generator returns it. *)
Definition suggestion : string :=
  AzureOpenAiLlmService.openingFence ++ "const x = 1;"
    ++ AzureOpenAiLlmService.closingFence.

(** A platform on which [broken.ts] cannot be read and every other path
    holds the five lines. *)
Definition vcs : VersionControlService World :=
  Build_VersionControlService World
    (fun _ => ret prDetails)
    (fun _ => ret [])
    (fun _ filePath _ =>
       if String.eqb filePath "broken.ts" then throw (Error "Not Found")
       else ret (Some (FileContent.mk filePath fiveLines (Some utf8))))
    (GitHubService.postSuggestionComment World createReply).

Definition wellFormedResponse : string :=
  AzureOpenAiLlmService.openingFence ++ "const x = 1;"
    ++ AzureOpenAiLlmService.closingFence ++ Js.nl
    ++ "Rationale: Use const.".

(** A model that answers every prompt with [response]. *)
Definition answering (response : string) : LlmService World :=
  AzureOpenAiLlmService.service World (fun _ => ret response).

(** A model whose transport fails. *)
Definition unreachable : LlmService World :=
  AzureOpenAiLlmService.service World
    (fun _ => throw (Error "429 quota exceeded")).

(** A generator, other than the Azure one, whose markdown holds the
    marker in the middle of a line and no fence. *)
Definition markerOnly : LlmSuggestion.t :=
  LlmSuggestion.mk ("see " ++ AzureOpenAiLlmService.suggestionMarker) None None.

Definition markerOnlyService : LlmService World :=
  Build_LlmService World (fun _ => ret markerOnly).

(** A model whose transport rejects with [undefined]. *)
Definition rejectingWithUndefined : LlmService World :=
  AzureOpenAiLlmService.service World (fun _ => throw ThrownUndefined).

(** A generator, other than the Azure one, that rejects. *)
Definition throwingService : LlmService World :=
  Build_LlmService World (fun _ => throw (Error "boom")).

Definition commentOn (n : Z) (filePath : option string)
  (endLineNumber : option Z) : Comment.t :=
  Comment.mk (IdNumber n) "Please use const here." filePath endLineNumber None.

Definition start : St World := mkSt [] [].

(** A response whose rationale line ends in a space. *)
Definition paddedResponse : string :=
  AzureOpenAiLlmService.openingFence ++ "const x = 1;"
    ++ AzureOpenAiLlmService.closingFence ++ Js.nl
    ++ "Rationale: Use const. ".

(** A response whose rationale follows the colon without a space. *)
Definition unspacedResponse : string :=
  AzureOpenAiLlmService.openingFence ++ "const x = 1;"
    ++ AzureOpenAiLlmService.closingFence ++ Js.nl
    ++ "Rationale:Use const.".

(** A GitLab project whose discussion [7] holds one note without a
    position; created discussions are recorded. *)
Definition GitLabWorld : Type := list GitLabService.CreatedDiscussion.

Definition noteWithoutPosition : GitLabService.DiscussionNote.t :=
  GitLabService.DiscussionNote.mk 7 "please rename this variable" None.

Definition show (project : string) (mr : Z) (discussionId : string)
  : Async GitLabWorld GitLabService.Discussion :=
  ret (GitLabService.mkDiscussion (Some [noteWithoutPosition])).

Definition create (project : string) (mr : Z) (body : string)
  (position : option GitLabService.Position) : Async GitLabWorld unit :=
  fun w =>
    (Resolved tt,
     (w ++ [GitLabService.mkCreated project mr body position])%list).

(** A discussion without notes. *)
Definition showEmpty (project : string) (mr : Z) (discussionId : string)
  : Async GitLabWorld GitLabService.Discussion :=
  ret (GitLabService.mkDiscussion (Some [])).

(** A repository in which [src] is a directory and every other path a
    file of five lines, sent as they are. *)
Definition getContent (owner repo path ref : string)
  : Async World GitHubService.ContentData :=
  if String.eqb path "src" then ret GitHubService.ContentArray
  else ret (GitHubService.ContentItem "file" path fiveLines "utf-8").

(** A decoder that knows one encoding, in which a text stands for
    itself. *)
Definition decode (content encoding : string) : JsError + string :=
  if String.eqb encoding "utf-8" then inr content
  else inl (Error ("Unknown encoding: " ++ encoding)).

(** The platform of [vcs] with the file reading of [GitHubService]. *)
Definition githubVcs : VersionControlService World :=
  Build_VersionControlService World
    (fun _ => ret prDetails)
    (fun _ => ret [])
    (fun prDetails filePath ref =>
       f <- GitHubService.getFileContent World getContent decode prDetails
              filePath ref ;;
       ret (Some f))
    (GitHubService.postSuggestionComment World createReply).

(** A request whose head ref is not known. *)
Definition prWithoutHead : PullRequestDetails.t :=
  PullRequestDetails.mk "octocat" "Spoon-Knife" 1 None (Some "main").

End Scenario.

(** * Properties *)

(** ** Strings and arrays *)

(** [c] does not occur in [s]. *)
Fixpoint free (c : ascii) (s : string) : Prop :=
  match s with
  | "" => True
  | String d s' => d <> c /\ free c s'
  end.

Lemma split_not_nil (c : ascii) (s : string) : Js.split c s <> [].
Proof.
  induction s as [|d s IH]; simpl; [discriminate|].
  destruct (Ascii.eqb d c); [discriminate|].
  destruct (Js.split c s); discriminate.
Qed.

Lemma split_length_pos (c : ascii) (s : string) :
  (1 <= List.length (Js.split c s))%nat.
Proof.
  pose proof (split_not_nil c s) as H.
  destruct (Js.split c s); [contradiction|simpl; lia].
Qed.

Lemma split_pieces_free (c : ascii) (s : string) :
  Forall (free c) (Js.split c s).
Proof.
  induction s as [|d s IH]; simpl.
  - repeat constructor.
  - destruct (Ascii.eqb_spec d c) as [->|Hne].
    + constructor; [exact I|exact IH].
    + destruct (Js.split c s) as [|l ls].
      * repeat constructor; assumption.
      * inversion IH; subst. constructor; [split; assumption|assumption].
Qed.

Lemma split_free (c : ascii) (s : string) : free c s -> Js.split c s = [s].
Proof.
  induction s as [|d s IH]; simpl; [reflexivity|].
  intros [Hne Hs]. rewrite (IH Hs).
  destruct (Ascii.eqb_spec d c); [contradiction|reflexivity].
Qed.

Lemma split_app_sep (c : ascii) (x y : string) :
  free c x -> Js.split c (x ++ String c y) = x :: Js.split c y.
Proof.
  induction x as [|d x IH]; simpl.
  - intros _. rewrite Ascii.eqb_refl. reflexivity.
  - intros [Hne Hx]. rewrite (IH Hx).
    destruct (Ascii.eqb_spec d c); [contradiction|reflexivity].
Qed.

(** Splitting what was joined gives the pieces back. *)
Lemma split_join (c : ascii) (pieces : list string) :
  pieces <> [] -> Forall (free c) pieces ->
  Js.split c (Js.join (String c "") pieces) = pieces.
Proof.
  induction pieces as [|x xs IH]; [intros H; contradiction|].
  intros _ Hall. inversion Hall as [|? ? Hx Hxs]; subst.
  destruct xs as [|y ys].
  - simpl. apply split_free. exact Hx.
  - change (Js.join (String c "") (x :: y :: ys))
      with (x ++ String c (Js.join (String c "") (y :: ys))).
    rewrite split_app_sep by exact Hx.
    rewrite IH; [reflexivity|discriminate|exact Hxs].
Qed.

Lemma Forall_firstn_skipn {A : Type} (P : A -> Prop) (l : list A) (n k : nat) :
  Forall P l -> Forall P (firstn k (skipn n l)).
Proof.
  intros H.
  rewrite <- (firstn_skipn n l) in H. apply Forall_app in H as [_ H].
  rewrite <- (firstn_skipn k (skipn n l)) in H. apply Forall_app in H as [H _].
  exact H.
Qed.

(** A run of an array is the sequence of its elements by index. *)
Lemma firstn_skipn_nth {A : Type} (d : A) (l : list A) (a k : nat) :
  (a + k <= List.length l)%nat ->
  firstn k (skipn a l) = map (fun i => nth i l d) (seq a k).
Proof.
  intros Hle.
  set (f := fun i => nth i l d).
  apply (nth_ext _ _ d (f 0%nat)).
  - rewrite length_firstn, length_skipn, length_map, length_seq. lia.
  - intros i Hi.
    rewrite length_firstn, length_skipn in Hi.
    rewrite nth_firstn.
    destruct (Nat.ltb_spec i k) as [Hik|Hik]; [|lia].
    rewrite nth_skipn, map_nth, seq_nth by exact Hik.
    reflexivity.
Qed.

(** [slice] between two indices inside the array. *)
Lemma slice_inside {A : Type} (l : list A) (lo hi : Z) :
  0 <= lo -> 0 <= hi -> hi <= Z.of_nat (List.length l) ->
  Js.slice l lo hi = firstn (Z.to_nat (hi - lo)) (skipn (Z.to_nat lo) l).
Proof.
  intros Hlo Hhi Hlen. unfold Js.slice.
  destruct (Z.ltb_spec lo 0) as [?|_]; [lia|].
  destruct (Z.ltb_spec hi 0) as [?|_]; [lia|].
  rewrite (Z.min_l hi) by lia.
  destruct (Z.le_gt_cases lo (Z.of_nat (List.length l))) as [H|H].
  - rewrite Z.min_l by lia. reflexivity.
  - rewrite Z.min_r by lia.
    replace (Z.to_nat (hi - Z.of_nat (List.length l))) with 0%nat by lia.
    replace (Z.to_nat (hi - lo)) with 0%nat by lia.
    reflexivity.
Qed.

Lemma slice_linesBetween (lines : list string) (lo hi : Z) :
  0 <= lo -> -1 <= hi -> hi < Z.of_nat (List.length lines) ->
  Js.slice lines lo (hi + 1) = linesBetween lines lo hi.
Proof.
  intros Hlo Hneg Hhi. unfold linesBetween.
  destruct (Z.le_gt_cases lo (hi + 1)) as [Hle|Hgt].
  - rewrite slice_inside by lia.
    replace (hi + 1 - lo) with (hi - lo + 1) by lia.
    apply firstn_skipn_nth. lia.
  - unfold Js.slice.
    destruct (Z.ltb_spec lo 0) as [?|_]; [lia|].
    replace (Z.to_nat (hi - lo + 1)) with 0%nat by lia.
    simpl.
    match goal with |- firstn ?n _ = _ => replace n with 0%nat end.
    + reflexivity.
    + destruct (Z.ltb_spec (hi + 1) 0); lia.
Qed.

Lemma truthy_false (s : string) : Js.truthy s = false <-> s = "".
Proof. destruct s; simpl; split; intros H; congruence. Qed.

Lemma truthy_true (s : string) : Js.truthy s = true <-> s <> "".
Proof. destruct s; simpl; split; intros H; congruence. Qed.

(** ** The code context extractor *)

Lemma lineCount_pos (text : string) : 1 <= lineCount text.
Proof. unfold lineCount. pose proof (split_length_pos Js.LF text). lia. Qed.

Lemma linesBetween_empty (lines : list string) (lo hi : Z) :
  hi < lo -> linesBetween lines lo hi = [].
Proof.
  intros H. unfold linesBetween.
  replace (Z.to_nat (hi - lo + 1)) with 0%nat by lia. reflexivity.
Qed.

Lemma linesBetween_length (lines : list string) (lo hi : Z) :
  List.length (linesBetween lines lo hi) = Z.to_nat (hi - lo + 1).
Proof. unfold linesBetween. rewrite length_map, length_seq. reflexivity. Qed.

Lemma linesBetween_one (lines : list string) (i : Z) :
  linesBetween lines i i = [nth (Z.to_nat i) lines ""].
Proof.
  unfold linesBetween. replace (i - i + 1) with 1 by lia. reflexivity.
Qed.

(** Inside the file, [getCodeContext] is the join of the clamped window. *)
Lemma getCodeContext_inside (fileContent : string) (lineNumber maxLines : Z) :
  0 <= maxLines -> fileContent <> "" ->
  0 < lineNumber -> lineNumber <= lineCount fileContent ->
  getCodeContext fileContent lineNumber maxLines =
  Js.join Js.nl
    (linesBetween (Js.split Js.LF fileContent)
       (Z.max 0 (lineNumber - 1 - maxLines))
       (Z.min (lineCount fileContent - 1) (lineNumber - 1 + maxLines))).
Proof.
  intros Hw Hne Hlo Hhi. unfold getCodeContext, lineCount in *.
  destruct (Js.truthy fileContent) eqn:Ht;
    [|apply truthy_false in Ht; contradiction].
  destruct (Z.leb_spec lineNumber 0) as [?|_]; [lia|]. simpl.
  destruct (Z.ltb_spec (lineNumber - 1) 0) as [?|_]; [lia|].
  destruct (Z.geb_spec (lineNumber - 1)
              (Z.of_nat (List.length (Js.split Js.LF fileContent))))
    as [?|_]; [lia|].
  simpl. f_equal. apply slice_linesBetween; lia.
Qed.

(** C3. [getCodeContext] returns the empty string when the file text is
    empty, when the target line is not positive and when it exceeds the
    number of lines of the file; otherwise, for a window size that is not
    negative, it returns the lines with zero-based indices from
    [max 0 (targetLine - 1 - windowSize)] through
    [min (lineCount - 1) (targetLine - 1 + windowSize)], in their order and
    unchanged, joined by line feeds. On the five lines a, b, c, d, e with
    target line 3 and window 1 it returns b, c, d. *)
Theorem getCodeContext_window (fileText : string)
  (targetLine windowSize : Z) :
  (fileText = "" \/ targetLine <= 0 \/ lineCount fileText < targetLine ->
   getCodeContext fileText targetLine windowSize = "")
  /\ (0 <= windowSize ->
      fileText <> "" -> 0 < targetLine -> targetLine <= lineCount fileText ->
      getCodeContext fileText targetLine windowSize =
      Js.join Js.nl
        (linesBetween (Js.split Js.LF fileText)
           (Z.max 0 (targetLine - 1 - windowSize))
           (Z.min (lineCount fileText - 1) (targetLine - 1 + windowSize))))
  /\ getCodeContext Scenario.fiveLines 3 1
     = "b" ++ Js.nl ++ "c" ++ Js.nl ++ "d".
Proof.
  split; [|split].
  - intros H. unfold getCodeContext, lineCount in *.
    destruct (Js.truthy fileText) eqn:Ht; [|reflexivity].
    destruct (Z.leb_spec targetLine 0) as [?|Hpos]; [reflexivity|]. simpl.
    destruct H as [->|[?|Hbig]]; [discriminate|lia|].
    destruct (Z.ltb_spec (targetLine - 1) 0) as [?|_]; [reflexivity|].
    destruct (Z.geb_spec (targetLine - 1)
                (Z.of_nat (List.length (Js.split Js.LF fileText))))
      as [?|?]; [reflexivity|lia].
  - intros Hw Hne Hlo Hhi. apply getCodeContext_inside; assumption.
  - reflexivity.
Qed.

Lemma getCodeContext_window_witness :
  getCodeContext Scenario.fiveLines 5 2
  = "c" ++ Js.nl ++ "d" ++ Js.nl ++ "e"
  /\ getCodeContext Scenario.fiveLines 6 2 = "".
Proof.
  destruct (getCodeContext_window Scenario.fiveLines 5 2) as (_ & Hin & _).
  destruct (getCodeContext_window Scenario.fiveLines 6 2) as (Hout & _ & _).
  split.
  - rewrite Hin; [reflexivity|lia|discriminate|lia|vm_compute; discriminate].
  - apply Hout. right. right. vm_compute. reflexivity.
Defined.

(** C4. For a window size that is not negative and a target line between
    1 and the number of lines of the file, the text [getCodeContext]
    returns has exactly
    [min windowSize (targetLine - 1) + min windowSize (lineCount - targetLine) + 1]
    newline-separated lines. *)
Theorem getCodeContext_lineCount (fileText : string)
  (targetLine windowSize : Z) :
  0 <= windowSize -> 1 <= targetLine -> targetLine <= lineCount fileText ->
  lineCount (getCodeContext fileText targetLine windowSize)
  = Z.min windowSize (targetLine - 1)
    + Z.min windowSize (lineCount fileText - targetLine) + 1.
Proof.
  intros Hw Hlo Hhi.
  destruct fileText as [|c rest] eqn:Hfile.
  - (* the empty file has one line, the empty one *)
    assert (targetLine = 1) by (unfold lineCount in Hhi; simpl in Hhi; lia).
    subst targetLine. unfold getCodeContext. simpl. unfold lineCount. simpl.
    lia.
  - rewrite <- Hfile in *.
    rewrite getCodeContext_inside; try lia; [|subst; discriminate].
    unfold lineCount at 1. unfold Js.nl.
    rewrite split_join.
    + rewrite linesBetween_length. lia.
    + intros Hnil. apply (f_equal (@List.length string)) in Hnil.
      rewrite linesBetween_length in Hnil. simpl in Hnil. lia.
    + unfold linesBetween, lineCount in *.
      rewrite <- (firstn_skipn_nth "") by lia.
      apply Forall_firstn_skipn, split_pieces_free.
Qed.

Lemma getCodeContext_lineCount_witness :
  lineCount (getCodeContext Scenario.fiveLines 2 3) = 1 + 3 + 1.
Proof.
  apply (getCodeContext_lineCount Scenario.fiveLines 2 3);
    [lia|lia|vm_compute; discriminate].
Defined.

(** C5. For every start line and every end line that is not negative (so
    for every pair of line numbers counted from 1), [getOriginalCode]
    returns the empty string when the range leaves the file, the lines
    from [startLine] through [endLine] unchanged and joined by line feeds
    otherwise, and, when both are the number of one line of the file,
    exactly that line. *)
Theorem getOriginalCode_slice (fileText : string) (startLine endLine : Z) :
  0 <= endLine ->
  (startLine < 1 \/ lineCount fileText < endLine
   \/ lineCount fileText < startLine ->
   getOriginalCode startLine endLine fileText = "")
  /\ (1 <= startLine -> endLine <= lineCount fileText ->
      getOriginalCode startLine endLine fileText =
      Js.join Js.nl
        (linesBetween (Js.split Js.LF fileText) (startLine - 1) (endLine - 1)))
  /\ (1 <= startLine -> startLine <= lineCount fileText ->
      startLine = endLine ->
      getOriginalCode startLine endLine fileText = lineAt fileText startLine
      /\ lineCount (getOriginalCode startLine endLine fileText) = 1).
Proof.
  intros Hend.
  assert (Hin : 1 <= startLine -> endLine <= lineCount fileText ->
                getOriginalCode startLine endLine fileText =
                Js.join Js.nl
                  (linesBetween (Js.split Js.LF fileText)
                     (startLine - 1) (endLine - 1))).
  { intros Hs He. unfold getOriginalCode, lineCount in *.
    destruct (Z.ltb_spec (startLine - 1) 0) as [?|_]; [lia|].
    destruct (Z.geb_spec (endLine - 1)
                (Z.of_nat (List.length (Js.split Js.LF fileText))))
      as [?|_]; [lia|].
    simpl. f_equal.
    apply slice_linesBetween; lia. }
  split; [|split].
  - intros H.
    destruct (Z.lt_ge_cases startLine 1) as [Hs|Hs].
    { unfold getOriginalCode.
      destruct (Z.ltb_spec (startLine - 1) 0); [reflexivity|lia]. }
    destruct (Z.lt_ge_cases (lineCount fileText) endLine) as [He|He].
    { unfold getOriginalCode, lineCount in *.
      destruct (Z.geb_spec (endLine - 1)
                  (Z.of_nat (List.length (Js.split Js.LF fileText))))
        as [?|?]; [|lia].
      rewrite orb_true_r. reflexivity. }
    rewrite Hin by lia.
    rewrite linesBetween_empty by lia. reflexivity.
  - exact Hin.
  - intros Hs Hn Heq. subst endLine.
    rewrite Hin by lia. rewrite linesBetween_one. simpl.
    split; [reflexivity|].
    unfold lineCount at 1. rewrite split_free; [reflexivity|].
    pose proof (split_pieces_free Js.LF fileText) as Hall.
    rewrite Forall_forall in Hall. apply Hall.
    apply nth_In. unfold lineCount in Hn. lia.
Qed.

Lemma getOriginalCode_slice_witness :
  getOriginalCode 2 4 Scenario.fiveLines = "b" ++ Js.nl ++ "c" ++ Js.nl ++ "d"
  /\ getOriginalCode 3 3 Scenario.fiveLines = lineAt Scenario.fiveLines 3
  /\ getOriginalCode 4 6 Scenario.fiveLines = "".
Proof.
  destruct (getOriginalCode_slice Scenario.fiveLines 2 4) as (_ & Hin & _);
    [lia|].
  destruct (getOriginalCode_slice Scenario.fiveLines 3 3) as (_ & _ & Hone);
    [lia|].
  destruct (getOriginalCode_slice Scenario.fiveLines 4 6) as (Hout & _ & _);
    [lia|].
  split; [|split].
  - rewrite Hin; [reflexivity|lia|vm_compute; discriminate].
  - apply Hone; [lia|vm_compute; discriminate|reflexivity].
  - apply Hout. right. left. vm_compute. reflexivity.
Defined.

(** ** The pipeline: what one run of [processComment] does *)

Lemma app_one_two {A : Type} (l : list A) (a b : A) :
  ((l ++ [a]) ++ [b] = l ++ [a; b])%list.
Proof. rewrite <- app_assoc. reflexivity. Qed.

Lemma app_two_three {A : Type} (l : list A) (a b c : A) :
  (((l ++ [a]) ++ [b]) ++ [c] = l ++ [a; b; c])%list.
Proof. rewrite <- !app_assoc. reflexivity. Qed.

(** A [catch] block that reads [error.message] and throws [error] again
    passes a thrown value on, or throws the [TypeError] of the reading. *)
Lemma try_rethrow {S A : Type} (body : Async S A) (s : S) :
  try_catch body (fun error => readMessage error ;;; throw error) s
  = match body s with
    | (Resolved a, s') => (Resolved a, s')
    | (Rejected e, s') => (Rejected (passedOn e), s')
    end.
Proof.
  unfold try_catch, bind.
  destruct (body s) as [[a|e] s']; [reflexivity|].
  destruct e; reflexivity.
Qed.

Lemma passedOn_error (msg : string) : passedOn (Error msg) = Error msg.
Proof. reflexivity. Qed.

Lemma passedOn_not_nullish (e : JsError) : nullish (passedOn e) = false.
Proof. destruct e; reflexivity. Qed.

(** So nothing that leaves such a [catch] block is [null] or
    [undefined]. *)
Lemma rethrow_not_nullish {S A : Type} (body : Async S A) (s s' : S)
  (e : JsError) :
  try_catch body (fun error => readMessage error ;;; throw error) s
  = (Rejected e, s') ->
  nullish e = false.
Proof.
  rewrite try_rethrow.
  destruct (body s) as [[a|thrown] s1]; [discriminate|].
  intros H. injection H as <- _. apply passedOn_not_nullish.
Qed.

Create HintDb run.
#[local] Hint Constructors Run : run.

(** Every run of [processComment] extends the log by one of the shapes of
    [Run]. *)
Lemma processComment_run (W : Type) (vcsService : VersionControlService W)
  (llmService : LlmService W) (comment : Comment.t)
  (prDetails : PullRequestDetails.t) (st : St W) :
  exists added,
    calls (snd (processComment vcsService llmService comment prDetails st))
    = (calls st ++ added)%list
    /\ Run comment added
         (fst (processComment vcsService llmService comment prDetails st)).
Proof.
  unfold processComment.
  destruct (Comment.filePath comment) as [filePath|];
    [|exists []; rewrite app_nil_r; split; [reflexivity|constructor]].
  destruct (Comment.endLineNumber comment) as [endLineNumber|];
    [|exists []; rewrite app_nil_r; split; [reflexivity|constructor]].
  destruct (negb (Js.truthy filePath) || (endLineNumber =? 0));
    [exists []; rewrite app_nil_r; split; [reflexivity|constructor]|].
  unfold bind, try_catch, call, ret, throw. simpl.
  destruct (getFileContent vcsService prDetails filePath
              (PullRequestDetails.headRef prDetails) (world st))
    as [[[f|]|e] w1]; simpl;
    try (eexists; split; [reflexivity|constructor]).
  2: { destruct e as [m| |]; simpl;
         (eexists; split; [reflexivity|]);
         solve [apply RunNoContext | apply (RunReadEscaped comment); reflexivity]. }
  destruct (Js.truthy
              (getCodeContext (FileContent.content f) endLineNumber
                 MAX_CONTEXT_LINES)); simpl;
    [|eexists; split; [reflexivity|constructor]].
  match goal with
  | |- context [generateSuggestion llmService ?p w1] =>
      destruct (generateSuggestion llmService p w1) as [[r|e] w2]; simpl
  end.
  - destruct (unusable r) eqn:Hr; simpl.
    + eexists; split; [apply app_one_two|auto with run].
    + match goal with
      | |- context [postSuggestionComment vcsService ?a ?b ?c ?d w2] =>
          destruct (postSuggestionComment vcsService a b c d w2)
            as [[[]|e] w3]; simpl
      end.
      * eexists; split; [apply app_two_three|auto with run].
      * destruct e as [m| |]; simpl;
          (eexists; split; [apply app_two_three|]);
          solve [apply RunPostFailed; assumption
                | apply (RunPostEscaped comment); [assumption|reflexivity]].
  - eexists; split; [apply app_one_two|auto with run].
Qed.

(** ** The suggestion generator *)

Import AzureOpenAiLlmService.

Lemma generationFailed_populated (e : JsError) :
  errorPopulated (generationFailed e) = true.
Proof.
  unfold errorPopulated, generationFailed. simpl.
  destruct (message e) as [m|]; [|reflexivity].
  destruct m; reflexivity.
Qed.

Lemma generationFailed_unusable (e : JsError) :
  unusable (generationFailed e) = true.
Proof.
  unfold unusable.
  change (Js.truthy_opt (LlmSuggestion.error (generationFailed e)))
    with (errorPopulated (generationFailed e)).
  rewrite generationFailed_populated. reflexivity.
Qed.

Lemma parseResponse_unmatched (responseText : string) :
  hasSuggestionBlock responseText = false ->
  parseResponse responseText = parsingFailed.
Proof.
  unfold hasSuggestionBlock, parseResponse.
  destruct (matchSuggestion responseText) as [[whole code]|];
    [discriminate|reflexivity].
Qed.

Lemma parseResponse_marker (responseText : string) :
  Js.includes (LlmSuggestion.suggestionMarkdown (parseResponse responseText))
    suggestionMarker = true.
Proof.
  unfold parseResponse, matchSuggestion.
  destruct (Js.cut responseText openingFence) as [[before rest]|];
    [|reflexivity].
  destruct (Js.cut rest closingFence) as [[code after]|]; reflexivity.
Qed.

Lemma parseResponse_unusable (responseText : string) :
  unusable (parseResponse responseText)
  = errorPopulated (parseResponse responseText).
Proof.
  unfold unusable, errorPopulated.
  rewrite parseResponse_marker. apply orb_false_r.
Qed.

(** What [generateSuggestion] does, by the answer of the transport: the
    [catch] block reads [error.message] before it builds its result. *)
Lemma generateSuggestion_cases (W : Type) (invoke : string -> Async W string)
  (payload : LlmPromptPayload.t) (w : W) :
  generateSuggestion W invoke payload w =
  match invoke (fullPrompt payload) w with
  | (Resolved responseText, w') => (Resolved (parseResponse responseText), w')
  | (Rejected e, w') =>
      if nullish e then (Rejected (passedOn e), w')
      else (Resolved (generationFailed e), w')
  end.
Proof.
  unfold generateSuggestion, try_catch, bind, ret.
  destruct (invoke (fullPrompt payload) w) as [[responseText|e] w'];
    [reflexivity|].
  destruct e; reflexivity.
Qed.

(** A result of [generateSuggestion] holds the marker, and is unusable
    exactly when its error is populated. *)
Lemma generateSuggestion_result (W : Type) (invoke : string -> Async W string)
  (payload : LlmPromptPayload.t) (w : W) (r : LlmSuggestion.t) (w' : W) :
  generateSuggestion W invoke payload w = (Resolved r, w') ->
  Js.includes (LlmSuggestion.suggestionMarkdown r) suggestionMarker = true
  /\ unusable r = errorPopulated r.
Proof.
  rewrite generateSuggestion_cases.
  destruct (invoke (fullPrompt payload) w) as [[responseText|e] w1].
  - intros H. injection H as <- <-.
    split; [apply parseResponse_marker|apply parseResponse_unusable].
  - destruct (nullish e); [discriminate|].
    intros H. injection H as <- <-.
    split; [reflexivity|].
    rewrite generationFailed_unusable, generationFailed_populated.
    reflexivity.
Qed.

(** [generateSuggestion] rejects only with the [TypeError] of its [catch]
    block, when the transport rejected with [null] or [undefined]. *)
Lemma generateSuggestion_rejection (W : Type)
  (invoke : string -> Async W string) (payload : LlmPromptPayload.t) (w : W)
  (thrown : JsError) (w' : W) :
  generateSuggestion W invoke payload w = (Rejected thrown, w') ->
  exists e,
    invoke (fullPrompt payload) w = (Rejected e, w')
    /\ nullish e = true /\ thrown = passedOn e.
Proof.
  rewrite generateSuggestion_cases.
  destruct (invoke (fullPrompt payload) w) as [[responseText|e] w1];
    [discriminate|].
  destruct (nullish e) eqn:He; [|discriminate].
  intros H. injection H as <- <-. exists e. auto.
Qed.



(** C10. Every result [generateSuggestion] returns, the two error results
    included, has a markdown that contains the suggestion marker. So the
    marker test of [processComment] never rejects such a result by itself:
    a result of this generator is unusable exactly when its error is
    populated. A result is returned whenever the transport does not reject
    with [null] or [undefined]. *)
Theorem generateSuggestion_marker (W : Type)
  (invoke : string -> Async W string) (payload : LlmPromptPayload.t) (w : W) :
  (forall r w',
      generateSuggestion W invoke payload w = (Resolved r, w') ->
      Js.includes (LlmSuggestion.suggestionMarkdown r) suggestionMarker = true
      /\ unusable r = errorPopulated r)
  /\ ((forall e w',
         invoke (fullPrompt payload) w = (Rejected e, w') ->
         nullish e = false) ->
      exists r w', generateSuggestion W invoke payload w = (Resolved r, w'))
  /\ Js.includes (LlmSuggestion.suggestionMarkdown parsingFailed)
       suggestionMarker = true
  /\ (forall e,
        Js.includes (LlmSuggestion.suggestionMarkdown (generationFailed e))
          suggestionMarker = true)
  /\ unusable parsingFailed = true
  /\ (forall e, unusable (generationFailed e) = true).
Proof.
  refine (conj _ (conj _ (conj eq_refl (conj _ (conj eq_refl _))))).
  - intros r w'. apply generateSuggestion_result.
  - intros Hrej. rewrite generateSuggestion_cases.
    destruct (invoke (fullPrompt payload) w) as [[responseText|e] w'].
    + eexists; eexists; reflexivity.
    + rewrite (Hrej e w' eq_refl). eexists; eexists; reflexivity.
  - reflexivity.
  - apply generationFailed_unusable.
Qed.

Lemma generateSuggestion_marker_witness :
  Js.includes
    (LlmSuggestion.suggestionMarkdown
       (parseResponse Scenario.wellFormedResponse)) suggestionMarker = true
  /\ unusable (parseResponse Scenario.wellFormedResponse)
     = errorPopulated (parseResponse Scenario.wellFormedResponse).
Proof.
  destruct (generateSuggestion_marker Scenario.World
              (fun _ => ret Scenario.wellFormedResponse)
              (LlmPromptPayload.mk "Please use const here." "c" None "c"
                 None None) []) as (Hresult & _).
  apply (Hresult (parseResponse Scenario.wellFormedResponse) []).
  reflexivity.
Defined.

(** ** Eligibility *)

(** C6. A comment without a file path or without an end line number ends
    in [Skipped], and neither [processComment] nor the loop of [main]
    calls an adapter for it: the world and the log of adapter calls are
    left as they were, and the loop goes on with the remaining comments. *)
Theorem ineligible_comment_skipped (W : Type)
  (vcsService : VersionControlService W) (llmService : LlmService W)
  (comment : Comment.t) (prDetails : PullRequestDetails.t) (st : St W) :
  Comment.filePath comment = None \/ Comment.endLineNumber comment = None ->
  processComment vcsService llmService comment prDetails st
  = (Resolved Skipped, st)
  /\ processAll vcsService llmService [comment] prDetails st
     = (Resolved [Skipped], st)
  /\ forall rest,
       processAll vcsService llmService (comment :: rest) prDetails st
       = (outcomes <- processAll vcsService llmService rest prDetails ;;
          ret (Skipped :: outcomes)) st.
Proof.
  intros Hmissing.
  assert (Hguard : Js.truthy_opt (Comment.filePath comment)
                   && Js.truthy_num (Comment.endLineNumber comment) = false).
  { destruct Hmissing as [-> | ->]; [reflexivity|apply andb_false_r]. }
  split; [|split].
  - unfold processComment.
    destruct Hmissing as [-> | ->]; [reflexivity|].
    destruct (Comment.filePath comment); reflexivity.
  - simpl. rewrite Hguard. reflexivity.
  - intros rest. simpl. rewrite Hguard. reflexivity.
Qed.

Lemma ineligible_comment_skipped_witness :
  processAll Scenario.vcs Scenario.unreachable
    [Scenario.commentOn 1 None (Some 5)] Scenario.prDetails Scenario.start
  = (Resolved [Skipped], Scenario.start).
Proof.
  apply (ineligible_comment_skipped Scenario.World Scenario.vcs
           Scenario.unreachable (Scenario.commentOn 1 None (Some 5))
           Scenario.prDetails Scenario.start).
  left. reflexivity.
Defined.

(** ** The validation gate *)

Lemma Run_post_usable (comment : Comment.t) (added : list AdapterCall)
  (res : Completion Outcome) :
  Run comment added res ->
  forall id s e a,
    In (CallPostSuggestionComment id s e a) added ->
    exists payload r,
      In (CallGenerateSuggestion payload (Resolved r)) added
      /\ unusable r = false
      /\ id = Comment.id comment
      /\ s = LlmSuggestion.suggestionMarkdown r
      /\ e = explanationOf r.
Proof.
  intros Hrun id s e a Hin.
  inversion Hrun; subst; simpl in Hin;
    repeat (destruct Hin as [Hin|Hin]; [try discriminate|]);
    try contradiction;
    inversion Hin; subst;
    exists payload, r; simpl; intuition.
Qed.

Lemma Run_unusable_failed (comment : Comment.t) (added : list AdapterCall)
  (res : Completion Outcome) :
  Run comment added res ->
  forall payload r,
    In (CallGenerateSuggestion payload (Resolved r)) added ->
    unusable r = true ->
    res = Resolved Failed /\ forallb (fun c => negb (isPost c)) added = true.
Proof.
  intros Hrun payload r Hin Hr.
  inversion Hrun; subst; simpl in Hin;
    repeat (destruct Hin as [Hin|Hin]; [try discriminate|]);
    try contradiction;
    inversion Hin; subst; try congruence;
    split; reflexivity.
Qed.

Lemma unusable_iff (r : LlmSuggestion.t) :
  unusable r = true <->
  errorPopulated r = true
  \/ Js.includes (LlmSuggestion.suggestionMarkdown r) suggestionMarker = false.
Proof.
  unfold unusable, errorPopulated.
  rewrite orb_true_iff, negb_true_iff. reflexivity.
Qed.

Lemma append_assoc (a b c : string) : (a ++ b) ++ c = a ++ b ++ c.
Proof. induction a as [|x a IH]; simpl; [reflexivity|now rewrite IH]. Qed.

Lemma append_empty_r (a : string) : a ++ "" = a.
Proof. induction a as [|x a IH]; simpl; [reflexivity|now rewrite IH]. Qed.

Lemma startsWith_app (p s : string) : Js.startsWith (p ++ s) p = true.
Proof.
  induction p as [|c p IH]; simpl; [reflexivity|].
  rewrite Ascii.eqb_refl. exact IH.
Qed.

Lemma startsWith_drop (s p : string) :
  Js.startsWith s p = true -> s = p ++ Js.drop (String.length p) s.
Proof.
  revert s. induction p as [|c p IH]; intros s H; simpl in *; [reflexivity|].
  destruct s as [|d s]; [discriminate|].
  apply andb_true_iff in H as [Hc Hs].
  apply Ascii.eqb_eq in Hc. subst d. f_equal. apply IH. exact Hs.
Qed.

Lemma drop_app (p s : string) : Js.drop (String.length p) (p ++ s) = s.
Proof. induction p as [|c p IH]; simpl; [destruct s; reflexivity|exact IH]. Qed.

(** [cut] splits the text around an occurrence of the pattern. *)
Lemma cut_sound (s p before after : string) :
  Js.cut s p = Some (before, after) -> s = before ++ p ++ after.
Proof.
  revert before. induction s as [|c s IH]; intros before H.
  - simpl in H. destruct (Js.startsWith "" p) eqn:Hp; [|discriminate].
    inversion H; subst. apply startsWith_drop in Hp. exact Hp.
  - simpl in H.
    destruct (Js.startsWith (String c s) p) eqn:Hp.
    + inversion H; subst. apply startsWith_drop in Hp. exact Hp.
    + destruct (Js.cut s p) as [[b a]|] eqn:Hcut; [|discriminate].
      inversion H; subst. simpl. f_equal. apply IH. reflexivity.
Qed.

Lemma cut_unfold (s p : string) :
  Js.cut s p =
  if Js.startsWith s p then Some ("", Js.drop (String.length p) s)
  else
    match s with
    | "" => None
    | String c s' =>
        match Js.cut s' p with
        | Some (before, after) => Some (String c before, after)
        | None => None
        end
    end.
Proof. destruct s; reflexivity. Qed.

Lemma cut_prefix (p s : string) : Js.cut (p ++ s) p = Some ("", s).
Proof. rewrite cut_unfold, startsWith_app, drop_app. reflexivity. Qed.

(** [cut] finds the pattern wherever it occurs. *)
Lemma cut_complete (p before after : string) :
  Js.cut (before ++ p ++ after) p <> None.
Proof.
  induction before as [|c before IH].
  - simpl. rewrite cut_prefix. discriminate.
  - rewrite cut_unfold. simpl.
    destruct (Js.startsWith (String c (before ++ p ++ after)) p);
      [discriminate|].
    destruct (Js.cut (before ++ p ++ after) p) as [[b a]|];
      [discriminate|contradiction].
Qed.

Lemma cut_twice_sound (text opening closing before rest code after : string) :
  Js.cut text opening = Some (before, rest) ->
  Js.cut rest closing = Some (code, after) ->
  text = before ++ (opening ++ code ++ closing) ++ after.
Proof.
  intros Hopen Hclose.
  apply cut_sound in Hopen. apply cut_sound in Hclose. subst.
  rewrite !append_assoc. reflexivity.
Qed.

Lemma matchSuggestion_sound (responseText whole code : string) :
  matchSuggestion responseText = Some (whole, code) ->
  whole = openingFence ++ code ++ closingFence
  /\ occursIn whole responseText.
Proof.
  unfold matchSuggestion. intros H.
  destruct (Js.cut responseText openingFence) as [[before rest]|] eqn:Hopen;
    [|discriminate].
  destruct (Js.cut rest closingFence) as [[code' after]|] eqn:Hclose;
    [|discriminate].
  injection H as Hwhole Hcode. subst code' whole.
  split; [reflexivity|].
  exists before, after.
  exact (cut_twice_sound _ _ _ _ _ _ _ Hopen Hclose).
Qed.

(** What the pattern matched is itself a fenced suggestion block. *)
Lemma matched_block_matches (code : string) :
  hasSuggestionBlock (openingFence ++ code ++ closingFence) = true.
Proof.
  unfold hasSuggestionBlock, matchSuggestion.
  rewrite cut_prefix.
  pose proof (cut_complete closingFence code "") as H.
  rewrite append_empty_r in H.
  destruct (Js.cut (code ++ closingFence) closingFence) as [[c a]|];
    [reflexivity|contradiction].
Qed.

Lemma parseResponse_usable_block (responseText : string) :
  unusable (parseResponse responseText) = false ->
  hasSuggestionBlock
    (LlmSuggestion.suggestionMarkdown (parseResponse responseText)) = true.
Proof.
  rewrite parseResponse_unusable.
  unfold parseResponse.
  destruct (matchSuggestion responseText) as [[whole code]|] eqn:Hm;
    [|discriminate].
  apply matchSuggestion_sound in Hm as [-> _].
  intros _. simpl. apply matched_block_matches.
Qed.

(** C1, as the code has it. For every run of [processComment], if the
    result of the generator has a populated (present and not empty) error
    or its markdown does not contain the suggestion marker, the run ends
    in [Failed] and adds no call of [postSuggestionComment] to the log;
    every suggestion that is posted comes from a result with no populated
    error whose markdown contains the marker. With the Azure generator a
    posted suggestion is a whole fenced suggestion block, and a response
    without such a block gives a populated error. *)
Theorem unusable_result_not_posted (W : Type)
  (vcsService : VersionControlService W) (llmService : LlmService W)
  (comment : Comment.t) (prDetails : PullRequestDetails.t) (st : St W) :
  exists added,
    calls (snd (processComment vcsService llmService comment prDetails st))
    = (calls st ++ added)%list
    /\ (forall payload r,
          In (CallGenerateSuggestion payload (Resolved r)) added ->
          errorPopulated r = true
          \/ Js.includes (LlmSuggestion.suggestionMarkdown r) suggestionMarker
             = false ->
          fst (processComment vcsService llmService comment prDetails st)
          = Resolved Failed
          /\ forallb (fun c => negb (isPost c)) added = true)
    /\ (forall id s e a,
          In (CallPostSuggestionComment id s e a) added ->
          exists payload r,
            In (CallGenerateSuggestion payload (Resolved r)) added
            /\ errorPopulated r = false
            /\ Js.includes (LlmSuggestion.suggestionMarkdown r)
                 suggestionMarker = true
            /\ s = LlmSuggestion.suggestionMarkdown r)
    /\ (forall responseText,
          hasSuggestionBlock responseText = false ->
          errorPopulated (parseResponse responseText) = true
          /\ unusable (parseResponse responseText) = true)
    /\ (forall responseText,
          unusable (parseResponse responseText) = false ->
          hasSuggestionBlock
            (LlmSuggestion.suggestionMarkdown (parseResponse responseText))
          = true).
Proof.
  destruct (processComment_run W vcsService llmService comment prDetails st)
    as (added & Hcalls & Hrun).
  exists added. split; [exact Hcalls|].
  split; [|split; [|split]].
  - intros payload r Hin Hbad.
    apply (Run_unusable_failed comment added _ Hrun payload r Hin).
    apply unusable_iff. exact Hbad.
  - intros id s e a Hin.
    destruct (Run_post_usable comment added _ Hrun id s e a Hin)
      as (payload & r & Hgen & Hr & _ & Hs & _).
    exists payload, r.
    unfold unusable in Hr. apply orb_false_iff in Hr as [Herr Hmark].
    apply negb_false_iff in Hmark.
    repeat split; assumption.
  - intros responseText Hnone.
    rewrite parseResponse_unusable, parseResponse_unmatched by exact Hnone.
    split; reflexivity.
  - apply parseResponse_usable_block.
Qed.

(** Scenario C: the model answers without a fenced block. *)
Lemma unusable_result_not_posted_witness :
  fst (processComment Scenario.vcs (Scenario.answering "no suggestion here")
         (Scenario.commentOn 2 (Some "ok.ts") (Some 3)) Scenario.prDetails
         Scenario.start)
  = Resolved Failed
  /\ world (snd (processComment Scenario.vcs
                   (Scenario.answering "no suggestion here")
                   (Scenario.commentOn 2 (Some "ok.ts") (Some 3))
                   Scenario.prDetails Scenario.start))
     = [].
Proof.
  split; [|reflexivity].
  destruct (unusable_result_not_posted Scenario.World Scenario.vcs
              (Scenario.answering "no suggestion here")
              (Scenario.commentOn 2 (Some "ok.ts") (Some 3))
              Scenario.prDetails Scenario.start)
    as (added & Hcalls & Hgate & _).
  simpl in Hcalls. subst added.
  eapply Hgate.
  - right. left. reflexivity.
  - left. reflexivity.
Defined.

(** C1 as stated fails: a generator may return, without an error, a
    markdown that contains the marker in the middle of a line and no
    fenced block; [processComment] posts it. *)
Lemma marker_without_block_is_posted :
  hasSuggestionBlock (LlmSuggestion.suggestionMarkdown Scenario.markerOnly)
  = false
  /\ errorPopulated Scenario.markerOnly = false
  /\ processComment Scenario.vcs Scenario.markerOnlyService
       (Scenario.commentOn 2 (Some "ok.ts") (Some 3)) Scenario.prDetails
       Scenario.start
     = (Resolved Posted,
        mkSt [(IdNumber 2, "see " ++ suggestionMarker)]
          [CallGetFileContent "ok.ts" (Some "feature")
             (Resolved
                (Some (FileContent.mk "ok.ts" Scenario.fiveLines (Some utf8))));
           CallGenerateSuggestion
             (LlmPromptPayload.mk "Please use const here." Scenario.fiveLines
                (Some "ok.ts") "c" None None)
             (Resolved Scenario.markerOnly);
           CallPostSuggestionComment (IdNumber 2) ("see " ++ suggestionMarker)
             None (Resolved tt)]).
Proof. repeat split. Qed.

(** ** Isolation of the comments of a batch *)

Section Isolation.

Variable W : Type.
Variable vcsService : VersionControlService W.
Variable llmService : LlmService W.

Hypothesis reads : readsThrowErrors vcsService.
Hypothesis posts : postsThrowErrors vcsService.
Hypothesis generator : neverRejects llmService.

(** A run of [processComment] then always resolves. *)
Lemma processComment_resolves (comment : Comment.t)
  (prDetails : PullRequestDetails.t) (st : St W) :
  exists outcome st',
    processComment vcsService llmService comment prDetails st
    = (Resolved outcome, st').
Proof.
  unfold processComment.
  destruct (Comment.filePath comment) as [filePath|];
    [|eexists; eexists; reflexivity].
  destruct (Comment.endLineNumber comment) as [endLineNumber|];
    [|eexists; eexists; reflexivity].
  destruct (negb (Js.truthy filePath) || (endLineNumber =? 0));
    [eexists; eexists; reflexivity|].
  unfold bind, try_catch, call, ret, throw. simpl.
  destruct (getFileContent vcsService prDetails filePath
              (PullRequestDetails.headRef prDetails) (world st))
    as [[[f|]|e] w1] eqn:Hread; simpl;
    try (eexists; eexists; reflexivity).
  2: { apply reads in Hread. destruct e; [|discriminate|discriminate].
       simpl. eexists; eexists; reflexivity. }
  destruct (Js.truthy
              (getCodeContext (FileContent.content f) endLineNumber
                 MAX_CONTEXT_LINES)); simpl;
    [|eexists; eexists; reflexivity].
  match goal with
  | |- context [?generate llmService ?p w1] =>
      destruct (generator p w1) as (r & w2 & Hgen); rewrite Hgen; simpl
  end.
  destruct (unusable r); simpl; [eexists; eexists; reflexivity|].
  match goal with
  | |- context [postSuggestionComment vcsService ?a ?b ?c ?d w2] =>
      destruct (postSuggestionComment vcsService a b c d w2)
        as [[[]|e] w3] eqn:Hpost; simpl
  end; [eexists; eexists; reflexivity|].
  apply posts in Hpost. destruct e; [|discriminate|discriminate].
  simpl. eexists; eexists; reflexivity.
Qed.

Lemma processAll_resolves (comments : list Comment.t)
  (prDetails : PullRequestDetails.t) (st : St W) :
  exists outcomes st',
    processAll vcsService llmService comments prDetails st
    = (Resolved outcomes, st')
    /\ List.length outcomes = List.length comments.
Proof.
  revert st. induction comments as [|comment rest IH]; intros st.
  - exists [], st. split; reflexivity.
  - simpl. unfold bind at 1.
    assert (Hone : exists outcome st1,
               (if Js.truthy_opt (Comment.filePath comment)
                   && Js.truthy_num (Comment.endLineNumber comment)
                then processComment vcsService llmService comment prDetails
                else ret Skipped) st
               = (Resolved outcome, st1)).
    { destruct (Js.truthy_opt (Comment.filePath comment)
                && Js.truthy_num (Comment.endLineNumber comment)).
      - apply processComment_resolves.
      - exists Skipped, st. reflexivity. }
    destruct Hone as (outcome & st1 & ->).
    destruct (IH st1) as (outcomes & st' & Hrest & Hlen).
    unfold bind, ret. rewrite Hrest.
    exists (outcome :: outcomes), st'. split; [reflexivity|].
    simpl. rewrite Hlen. reflexivity.
Qed.

End Isolation.

(** The Azure generator keeps the contract over a transport that does not
    reject with [null] or [undefined]. *)
Lemma Azure_neverRejects (W : Type) (invoke : string -> Async W string) :
  (forall prompt w e w', invoke prompt w = (Rejected e, w') ->
                         nullish e = false) ->
  neverRejects (service W invoke).
Proof.
  intros Hinvoke payload w. simpl. rewrite generateSuggestion_cases.
  destruct (invoke (fullPrompt payload) w) as [[responseText|e] w'] eqn:H.
  - eexists; eexists; reflexivity.
  - rewrite (Hinvoke _ _ _ _ H). eexists; eexists; reflexivity.
Qed.

(** The loop over a batch is the loop over its first part followed by the
    loop over the rest, from the state the first part left. *)
Lemma processAll_app (W : Type)
  (vcsService : VersionControlService W) (llmService : LlmService W)
  (before after : list Comment.t) (prDetails : PullRequestDetails.t)
  (st : St W) :
  processAll vcsService llmService (before ++ after) prDetails st
  = (o1 <- processAll vcsService llmService before prDetails ;;
     o2 <- processAll vcsService llmService after prDetails ;;
     ret (o1 ++ o2)%list) st.
Proof.
  revert st. induction before as [|comment rest IH]; intros st.
  - simpl. unfold bind, ret.
    destruct (processAll vcsService llmService after prDetails st)
      as [[o2|e] st2]; reflexivity.
  - simpl. unfold bind, ret in *.
    destruct ((if Js.truthy_opt (Comment.filePath comment)
                  && Js.truthy_num (Comment.endLineNumber comment)
               then processComment vcsService llmService comment prDetails
               else fun s => (Resolved Skipped, s)) st)
      as [[outcome|e] st1]; [|reflexivity].
    rewrite IH.
    destruct (processAll vcsService llmService rest prDetails st1)
      as [[o1|e] st2]; [|reflexivity].
    destruct (processAll vcsService llmService after prDetails st2)
      as [[o2|e] st3]; reflexivity.
Qed.

(** C2, as the code has it. [processComment] guards the file read and the
    post, not the call of the generator. When the generator keeps its
    contract of never rejecting, and the file reads and the posts of the
    platform fail with values other than [null] and [undefined], the loop
    of [main] resolves with one outcome for each comment of the batch: the
    comments after any point of the batch are processed, from the state
    the earlier ones left, to the outcomes they have on their own. A
    comment whose file read fails ends in [Skipped] after that one call,
    and one whose post fails ends in [Failed]. When the file of the first of two comments cannot be read and the
    second is processed normally, the outcomes are [Skipped] and
    [Posted]. *)
Theorem batch_isolated (W : Type)
  (vcsService : VersionControlService W) (llmService : LlmService W)
  (prDetails : PullRequestDetails.t) (before after : list Comment.t)
  (st : St W) :
  readsThrowErrors vcsService ->
  postsThrowErrors vcsService ->
  neverRejects llmService ->
  (exists o1 st1 o2 st2,
      processAll vcsService llmService before prDetails st
      = (Resolved o1, st1)
      /\ List.length o1 = List.length before
      /\ processAll vcsService llmService after prDetails st1
         = (Resolved o2, st2)
      /\ List.length o2 = List.length after
      /\ processAll vcsService llmService (before ++ after) prDetails st
         = (Resolved (o1 ++ o2)%list, st2))
  /\ (forall comment filePath endLine e w1,
        Comment.filePath comment = Some filePath -> filePath <> "" ->
        Comment.endLineNumber comment = Some endLine -> endLine <> 0 ->
        getFileContent vcsService prDetails filePath
          (PullRequestDetails.headRef prDetails) (world st)
        = (Rejected e, w1) ->
        processComment vcsService llmService comment prDetails st
        = (Resolved Skipped,
           mkSt w1
             (calls st
                ++ [CallGetFileContent filePath
                      (PullRequestDetails.headRef prDetails) (Rejected e)])))
  /\ (forall comment filePath endLine file w1 r w2 e w3,
        Comment.filePath comment = Some filePath -> filePath <> "" ->
        Comment.endLineNumber comment = Some endLine -> endLine <> 0 ->
        getFileContent vcsService prDetails filePath
          (PullRequestDetails.headRef prDetails) (world st)
        = (Resolved (Some file), w1) ->
        getCodeContext (FileContent.content file) endLine MAX_CONTEXT_LINES
        <> "" ->
        answers llmService
          (LlmPromptPayload.mk (Comment.body comment)
             (getCodeContext (FileContent.content file) endLine
                MAX_CONTEXT_LINES)
             (Some filePath)
             (getOriginalCode
                (match Comment.startLineNumber comment with
                 | Some s => s
                 | None => endLine
                 end)
                endLine (FileContent.content file))
             None None) w1 r w2 ->
        unusable r = false ->
        postSuggestionComment vcsService prDetails (Comment.id comment)
          (LlmSuggestion.suggestionMarkdown r) (explanationOf r) w2
        = (Rejected e, w3) ->
        fst (processComment vcsService llmService comment prDetails st)
        = Resolved Failed
        /\ world (snd (processComment vcsService llmService comment
                         prDetails st)) = w3)
  /\ processAll Scenario.vcs (Scenario.answering Scenario.wellFormedResponse)
       [Scenario.commentOn 1 (Some "broken.ts") (Some 3);
        Scenario.commentOn 2 (Some "ok.ts") (Some 3)]
       Scenario.prDetails Scenario.start
     = (Resolved [Skipped; Posted],
        mkSt
          [(IdNumber 2,
            "Rationale: Use const." ++ Js.nl ++ Scenario.suggestion)]
          [CallGetFileContent "broken.ts" (Some "feature")
             (Rejected (Error "Not Found"));
           CallGetFileContent "ok.ts" (Some "feature")
             (Resolved
                (Some (FileContent.mk "ok.ts" Scenario.fiveLines (Some utf8))));
           CallGenerateSuggestion
             (LlmPromptPayload.mk "Please use const here." Scenario.fiveLines
                (Some "ok.ts") "c" None None)
             (Resolved
                (LlmSuggestion.mk Scenario.suggestion (Some "Use const.")
                   None));
           CallPostSuggestionComment (IdNumber 2) Scenario.suggestion
             (Some "Rationale: Use const.") (Resolved tt)]).
Proof.
  intros Hreads Hposts Hgenerator.
  refine (conj _ (conj _ (conj _ eq_refl))).
  3: { intros comment filePath endLine file w1 r w2 e w3 Hpath Hne Hline Hnz
         Hread Hctx Hgen Husable Hpost.
       apply truthy_true in Hne, Hctx. apply Z.eqb_neq in Hnz.
       destruct llmService as [generate]. unfold answers in Hgen.
       simpl in Hgen.
       unfold processComment. rewrite Hpath, Hline, Hne, Hnz. simpl.
       unfold bind, try_catch, call, ret. rewrite Hread. simpl.
       rewrite Hctx. simpl. rewrite Hgen. simpl. rewrite Husable. simpl.
       rewrite Hpost.
       apply Hposts in Hpost. destruct e; [split; reflexivity| |];
         discriminate. }
  2: { intros comment filePath endLine e w1 Hpath Hne Hline Hnz Hread.
       apply truthy_true in Hne. apply Z.eqb_neq in Hnz.
       unfold processComment. rewrite Hpath, Hline, Hne, Hnz. simpl.
       unfold bind, try_catch, call, ret. rewrite Hread.
       apply Hreads in Hread. destruct e; [reflexivity| |]; discriminate. }
  destruct (processAll_resolves W vcsService llmService Hreads Hposts
              Hgenerator before prDetails st) as (o1 & st1 & H1 & L1).
  destruct (processAll_resolves W vcsService llmService Hreads Hposts
              Hgenerator after prDetails st1) as (o2 & st2 & H2 & L2).
  exists o1, st1, o2, st2.
  repeat (split; [assumption|]).
  rewrite processAll_app. unfold bind, ret. rewrite H1, H2. reflexivity.
Qed.

Lemma Scenario_vcs_reads : readsThrowErrors Scenario.vcs.
Proof.
  intros prDetails filePath ref w e w'. simpl.
  destruct (String.eqb filePath "broken.ts"); intros H; [|discriminate].
  injection H as <- _. reflexivity.
Qed.

Lemma Scenario_vcs_posts : postsThrowErrors Scenario.vcs.
Proof.
  intros prDetails replyToCommentId suggestion explanation w e w'.
  simpl. discriminate.
Qed.

Lemma batch_isolated_witness :
  exists o1 st1 o2 st2,
    processAll Scenario.vcs (Scenario.answering Scenario.wellFormedResponse)
      [Scenario.commentOn 1 (Some "broken.ts") (Some 3)]
      Scenario.prDetails Scenario.start
    = (Resolved o1, st1)
    /\ List.length o1 = 1%nat
    /\ processAll Scenario.vcs (Scenario.answering Scenario.wellFormedResponse)
         [Scenario.commentOn 2 (Some "ok.ts") (Some 3)]
         Scenario.prDetails st1
       = (Resolved o2, st2)
    /\ List.length o2 = 1%nat
    /\ processAll Scenario.vcs (Scenario.answering Scenario.wellFormedResponse)
         [Scenario.commentOn 1 (Some "broken.ts") (Some 3);
          Scenario.commentOn 2 (Some "ok.ts") (Some 3)]
         Scenario.prDetails Scenario.start
       = (Resolved (o1 ++ o2)%list, st2).
Proof.
  apply (batch_isolated Scenario.World Scenario.vcs
           (Scenario.answering Scenario.wellFormedResponse)
           Scenario.prDetails
           [Scenario.commentOn 1 (Some "broken.ts") (Some 3)]
           [Scenario.commentOn 2 (Some "ok.ts") (Some 3)]
           Scenario.start).
  - exact Scenario_vcs_reads.
  - exact Scenario_vcs_posts.
  - apply Azure_neverRejects. intros prompt w e w' H. discriminate H.
Defined.

(** C2 as stated fails. [processComment] does not guard the call of the
    generator: a generator that rejects ends the loop. The second comment
    of the batch is never read, and the rejection leaves the loop. *)
Lemma rejecting_generator_ends_loop :
  processAll Scenario.vcs Scenario.throwingService
    [Scenario.commentOn 1 (Some "ok.ts") (Some 3);
     Scenario.commentOn 2 (Some "ok.ts") (Some 3)]
    Scenario.prDetails Scenario.start
  = (Rejected (Error "boom"),
     mkSt []
       [CallGetFileContent "ok.ts" (Some "feature")
          (Resolved
             (Some (FileContent.mk "ok.ts" Scenario.fiveLines (Some utf8))));
        CallGenerateSuggestion
          (LlmPromptPayload.mk "Please use const here." Scenario.fiveLines
             (Some "ok.ts") "c" None None)
          (Rejected (Error "boom"))])
  /\ countIf isFetch
       (calls
          (snd (processAll Scenario.vcs Scenario.throwingService
                  [Scenario.commentOn 1 (Some "ok.ts") (Some 3);
                   Scenario.commentOn 2 (Some "ok.ts") (Some 3)]
                  Scenario.prDetails Scenario.start)))
     = 1%nat.
Proof. split; reflexivity. Qed.

(** The same end comes from the [catch] blocks themselves, which read
    [error.message]: a transport of the model that rejects with
    [undefined] makes the Azure generator reject, and the loop with it. *)
Remark undefined_rejection_ends_loop :
  processAll Scenario.vcs Scenario.rejectingWithUndefined
    [Scenario.commentOn 1 (Some "ok.ts") (Some 3);
     Scenario.commentOn 2 (Some "ok.ts") (Some 3)]
    Scenario.prDetails Scenario.start
  = (Rejected
       (Error "Cannot read properties of undefined (reading 'message')"),
     mkSt []
       [CallGetFileContent "ok.ts" (Some "feature")
          (Resolved
             (Some (FileContent.mk "ok.ts" Scenario.fiveLines (Some utf8))));
        CallGenerateSuggestion
          (LlmPromptPayload.mk "Please use const here." Scenario.fiveLines
             (Some "ok.ts") "c" None None)
          (Rejected
             (Error
                "Cannot read properties of undefined (reading 'message')"))]).
Proof. reflexivity. Qed.

(** ** The reply body *)

Lemma dotStar_prefix (s : string) : exists tail, s = Js.dotStar s ++ tail.
Proof.
  induction s as [|c s [tail IH]]; simpl.
  - exists "". reflexivity.
  - destruct (Js.isLineTerminator c).
    + exists (String c s). reflexivity.
    + exists tail. simpl. f_equal. exact IH.
Qed.

Lemma matchRationale_sound (responseText group : string) :
  matchRationale responseText = Some group ->
  occursIn ("Rationale: " ++ group) responseText.
Proof.
  unfold matchRationale. intros H.
  destruct (Js.cut responseText "Rationale: ") as [[before rest]|] eqn:Hcut;
    [|discriminate].
  injection H as Hgroup. apply cut_sound in Hcut.
  destruct (dotStar_prefix rest) as [tail Htail].
  exists before, tail. rewrite Hcut. subst group.
  rewrite append_assoc, <- Htail. reflexivity.
Qed.

(** C8, as the code has it. When the response of the model holds a fenced
    suggestion block, the first such block is the suggestion, unchanged,
    and the reply body ends with it. The rationale is the text that
    follows the first [Rationale: ] up to the end of its line, with the
    white space around it removed: the body is that text after
    [Rationale: ], a line feed, and the block; when the text is empty the
    body is the block alone, and when the response has no [Rationale: ]
    the body carries the sentence that no rationale was provided. *)
Theorem reply_preserves_block (responseText whole code : string) :
  matchSuggestion responseText = Some (whole, code) ->
  occursIn whole responseText
  /\ LlmSuggestion.suggestionMarkdown (parseResponse responseText) = whole
  /\ LlmSuggestion.error (parseResponse responseText) = None
  /\ (exists lead,
        GitHubService.replyBody
          (LlmSuggestion.suggestionMarkdown (parseResponse responseText))
          (explanationOf (parseResponse responseText))
        = lead ++ whole)
  /\ (forall group,
        matchRationale responseText = Some group ->
        occursIn ("Rationale: " ++ group) responseText
        /\ LlmSuggestion.rationale (parseResponse responseText)
           = Some (Js.trim group)
        /\ (Js.trim group <> "" ->
            GitHubService.replyBody
              (LlmSuggestion.suggestionMarkdown (parseResponse responseText))
              (explanationOf (parseResponse responseText))
            = "Rationale: " ++ Js.trim group ++ Js.nl ++ whole)
        /\ (Js.trim group = "" ->
            GitHubService.replyBody
              (LlmSuggestion.suggestionMarkdown (parseResponse responseText))
              (explanationOf (parseResponse responseText))
            = whole))
  /\ (matchRationale responseText = None ->
      GitHubService.replyBody
        (LlmSuggestion.suggestionMarkdown (parseResponse responseText))
        (explanationOf (parseResponse responseText))
      = "Rationale: No rationale provided." ++ Js.nl ++ whole).
Proof.
  intros Hmatch.
  destruct (matchSuggestion_sound _ _ _ Hmatch) as [Hwhole Hoccurs].
  assert (Htruthy : Js.truthy whole = true) by (rewrite Hwhole; reflexivity).
  assert (Hparse : parseResponse responseText =
                   LlmSuggestion.mk whole
                     (match matchRationale responseText with
                      | Some group => Some (Js.trim group)
                      | None => Some "No rationale provided."
                      end) None).
  { unfold parseResponse. rewrite Hmatch, Htruthy. reflexivity. }
  rewrite Hparse. simpl.
  split; [exact Hoccurs|].
  split; [reflexivity|]. split; [reflexivity|].
  unfold explanationOf, GitHubService.replyBody. simpl.
  destruct (matchRationale responseText) as [group|] eqn:Hrat; simpl.
  - destruct (Js.truthy (Js.trim group)) eqn:Htrim; simpl.
    + split;
        [exists ("Rationale: " ++ Js.trim group ++ Js.nl); simpl;
         rewrite append_assoc; reflexivity|].
      split; [|intros; discriminate].
      intros g Hg. injection Hg as <-.
      split; [apply matchRationale_sound; exact Hrat|].
      split; [reflexivity|].
      split; [reflexivity|].
      intros Hempty. apply truthy_true in Htrim. contradiction.
    + split; [exists ""; reflexivity|].
      split; [|intros; discriminate].
      intros g Hg. injection Hg as <-.
      split; [apply matchRationale_sound; exact Hrat|].
      split; [reflexivity|].
      split; [|reflexivity].
      intros Hne. apply truthy_false in Htrim. contradiction.
  - split;
      [exists ("Rationale: No rationale provided." ++ Js.nl); reflexivity|].
    split; [intros; discriminate|reflexivity].
Qed.

Lemma reply_preserves_block_witness :
  GitHubService.replyBody
    (LlmSuggestion.suggestionMarkdown
       (parseResponse Scenario.wellFormedResponse))
    (explanationOf (parseResponse Scenario.wellFormedResponse))
  = "Rationale: Use const." ++ Js.nl ++ Scenario.suggestion.
Proof.
  destruct (reply_preserves_block Scenario.wellFormedResponse
              Scenario.suggestion "const x = 1;")
    as (_ & _ & _ & _ & Hrationale & _); [reflexivity|].
  destruct (Hrationale "Use const.") as (_ & _ & Hbody & _); [reflexivity|].
  apply Hbody. discriminate.
Defined.

(** C8 as stated fails. The rationale line of the first response ends in
    a space: the body that is posted holds the line without the space, so
    the line of the model is not in the body as it was. The rationale line
    of the second response has no space after the colon: the body holds
    the sentence that no rationale was provided, and nothing of the
    rationale of the model. *)
Lemma padded_rationale_is_trimmed :
  (hasSuggestionBlock Scenario.paddedResponse = true
   /\ lineCount Scenario.paddedResponse = 4
   /\ lineAt Scenario.paddedResponse 4 = "Rationale: Use const. "
   /\ GitHubService.replyBody
        (LlmSuggestion.suggestionMarkdown
           (parseResponse Scenario.paddedResponse))
        (explanationOf (parseResponse Scenario.paddedResponse))
      = "Rationale: Use const." ++ Js.nl ++ Scenario.suggestion
   /\ Js.includes
        (GitHubService.replyBody
           (LlmSuggestion.suggestionMarkdown
              (parseResponse Scenario.paddedResponse))
           (explanationOf (parseResponse Scenario.paddedResponse)))
        "Rationale: Use const. "
      = false
   /\ world
        (snd (processComment Scenario.vcs
                (Scenario.answering Scenario.paddedResponse)
                (Scenario.commentOn 2 (Some "ok.ts") (Some 3))
                Scenario.prDetails Scenario.start))
      = [(IdNumber 2,
          "Rationale: Use const." ++ Js.nl ++ Scenario.suggestion)])
  /\ (hasSuggestionBlock Scenario.unspacedResponse = true
      /\ lineCount Scenario.unspacedResponse = 4
      /\ lineAt Scenario.unspacedResponse 4 = "Rationale:Use const."
      /\ GitHubService.replyBody
           (LlmSuggestion.suggestionMarkdown
              (parseResponse Scenario.unspacedResponse))
           (explanationOf (parseResponse Scenario.unspacedResponse))
         = "Rationale: No rationale provided." ++ Js.nl
             ++ Scenario.suggestion
      /\ Js.includes
           (GitHubService.replyBody
              (LlmSuggestion.suggestionMarkdown
                 (parseResponse Scenario.unspacedResponse))
              (explanationOf (parseResponse Scenario.unspacedResponse)))
           "Use const."
         = false).
Proof. repeat split. Qed.

(** ** Posting without a position *)

(** Whatever the first note of the thread holds, GitLab's
    [postSuggestionComment] creates a discussion with the body and the
    position of that note: the branch that writes the reference to the
    comment id is never taken. The operation resolves when the creation
    does, and rejects when it rejects: with the value thrown, or with the
    [TypeError] of reading the message of [null] or [undefined]. *)
Lemma GitLab_posts_first_note (W : Type)
  (show : string -> Z -> string -> Async W GitLabService.Discussion)
  (create : string -> Z -> string -> option GitLabService.Position
            -> Async W unit)
  (prDetails : PullRequestDetails.t) (replyToCommentId : CommentId)
  (suggestion : string) (explanation : option string) (w w1 : W)
  (note : GitLabService.DiscussionNote.t)
  (others : list GitLabService.DiscussionNote.t) :
  show (PullRequestDetails.repo prDetails)
    (PullRequestDetails.pullNumber prDetails)
    (CommentId_toString replyToCommentId) w
  = (Resolved (GitLabService.mkDiscussion (Some (note :: others))), w1) ->
  GitLabService.postSuggestionComment W show create prDetails
    replyToCommentId suggestion explanation w
  = match
      create (PullRequestDetails.repo prDetails)
        (PullRequestDetails.pullNumber prDetails)
        (GitLabService.DiscussionNote.body note)
        (GitLabService.DiscussionNote.position note) w1
    with
    | (Resolved done, w2) => (Resolved done, w2)
    | (Rejected e, w2) => (Rejected (passedOn e), w2)
    end.
Proof.
  intros Hshow.
  unfold GitLabService.postSuggestionComment. rewrite try_rethrow.
  unfold bind. simpl. rewrite Hshow. simpl. reflexivity.
Qed.

(** C9 on the code. The first note of discussion 7 has no position.
    GitLab's [postSuggestionComment] creates a discussion whose body is
    the body of that note: it holds neither a reference to the comment id
    nor the suggestion. GitHub's [postSuggestionComment] has no second
    way to post: when the reply endpoint refuses, it rejects and nothing
    is posted. *)
Theorem no_position_fallback_missing :
  GitLabService.postSuggestionComment Scenario.GitLabWorld Scenario.show
    Scenario.create Scenario.prDetails (IdNumber 7) Scenario.suggestion
    (Some "Rationale: Use const.") []
  = (Resolved tt,
     [GitLabService.mkCreated "Spoon-Knife" 1 "please rename this variable"
        None])
  /\ Js.includes "please rename this variable" (CommentId_toString (IdNumber 7))
     = false
  /\ Js.includes "please rename this variable" Scenario.suggestion = false
  /\ GitHubService.postSuggestionComment Scenario.World Scenario.rejectReply
       Scenario.prDetails (IdNumber 7) Scenario.suggestion
       (Some "Rationale: Use const.") []
     = (Rejected (Error "Not Found"), []).
Proof. repeat split. Qed.

(** * Further properties of the code *)

(** ** The code context extractor, continued *)

(** Joining what was split gives the text back. *)
Lemma join_split (c : ascii) (s : string) :
  Js.join (String c "") (Js.split c s) = s.
Proof.
  induction s as [|d s IH]; [reflexivity|].
  simpl Js.split.
  pose proof (split_not_nil c s) as Hne.
  destruct (Ascii.eqb_spec d c) as [->|Hdc].
  - destruct (Js.split c s) as [|l ls] eqn:E; [contradiction|].
    change (Js.join (String c "") ("" :: l :: ls))
      with (String c (Js.join (String c "") (l :: ls))).
    rewrite IH. reflexivity.
  - destruct (Js.split c s) as [|l ls] eqn:E; [contradiction|].
    destruct ls as [|l' ls'].
    + simpl in *. rewrite IH. reflexivity.
    + change (Js.join (String c "") (String d l :: l' :: ls'))
        with (String d (Js.join (String c "") (l :: l' :: ls'))).
      rewrite IH. reflexivity.
Qed.

Lemma linesBetween_all (lines : list string) :
  linesBetween lines 0 (Z.of_nat (List.length lines) - 1) = lines.
Proof.
  unfold linesBetween.
  replace (Z.to_nat (Z.of_nat (List.length lines) - 1 - 0 + 1))
    with (List.length lines) by lia.
  change (Z.to_nat 0) with 0%nat.
  rewrite <- (firstn_skipn_nth "") by (simpl; lia).
  simpl. apply firstn_all.
Qed.

Lemma linesBetween_nth (lines : list string) (lo hi : Z) (k : nat) :
  0 <= lo -> Z.of_nat k <= hi - lo ->
  nth k (linesBetween lines lo hi) "" = nth (Z.to_nat lo + k) lines "".
Proof.
  intros Hlo Hk. unfold linesBetween.
  set (f := fun i => nth i lines "").
  rewrite (nth_indep _ "" (f 0%nat)) by (rewrite length_map, length_seq; lia).
  rewrite map_nth, seq_nth by lia. reflexivity.
Qed.

Lemma linesBetween_split (lines : list string) (lo mid hi : Z) :
  0 <= lo -> lo <= mid -> mid - 1 <= hi ->
  linesBetween lines lo hi
  = (linesBetween lines lo (mid - 1) ++ linesBetween lines mid hi)%list.
Proof.
  intros Hlo Hmid Hhi. unfold linesBetween.
  rewrite <- map_app. f_equal.
  replace (Z.to_nat (hi - lo + 1))
    with (Z.to_nat (mid - 1 - lo + 1) + Z.to_nat (hi - mid + 1))%nat by lia.
  rewrite seq_app. f_equal. f_equal. lia.
Qed.

(** The lines of the context are the lines of the clamped window. *)
Lemma getCodeContext_lines (fileText : string) (targetLine windowSize : Z) :
  0 <= windowSize -> 1 <= targetLine -> targetLine <= lineCount fileText ->
  Js.split Js.LF (getCodeContext fileText targetLine windowSize)
  = linesBetween (Js.split Js.LF fileText)
      (Z.max 0 (targetLine - 1 - windowSize))
      (Z.min (lineCount fileText - 1) (targetLine - 1 + windowSize)).
Proof.
  intros Hw Hlo Hhi.
  destruct fileText as [|c rest] eqn:Hfile.
  - assert (targetLine = 1) by (unfold lineCount in Hhi; simpl in Hhi; lia).
    subst targetLine. unfold getCodeContext, lineCount. simpl.
    rewrite Z.max_l, Z.min_l by lia. reflexivity.
  - rewrite <- Hfile in *.
    rewrite getCodeContext_inside; try lia; [|subst; discriminate].
    unfold Js.nl. apply split_join.
    + intros Hnil. apply (f_equal (@List.length string)) in Hnil.
      rewrite linesBetween_length in Hnil. simpl in Hnil. lia.
    + unfold linesBetween, lineCount in *.
      rewrite <- (firstn_skipn_nth "") by lia.
      apply Forall_firstn_skipn, split_pieces_free.
Qed.

Lemma getOriginalCode_inside (fileText : string) (startLine endLine : Z) :
  1 <= startLine -> 0 <= endLine -> endLine <= lineCount fileText ->
  getOriginalCode startLine endLine fileText
  = Js.join Js.nl
      (linesBetween (Js.split Js.LF fileText) (startLine - 1) (endLine - 1)).
Proof.
  intros Hs Hend He. unfold getOriginalCode, lineCount in *.
  destruct (Z.ltb_spec (startLine - 1) 0) as [?|_]; [lia|].
  destruct (Z.geb_spec (endLine - 1)
              (Z.of_nat (List.length (Js.split Js.LF fileText))))
    as [?|_]; [lia|].
  simpl. f_equal. apply slice_linesBetween; lia.
Qed.

(** When the window reaches both ends of the file, the context is the
    file text itself; and the original code from the first line to the
    last is the file text itself. *)
Theorem whole_file_is_returned (fileText : string)
  (targetLine windowSize : Z) :
  getOriginalCode 1 (lineCount fileText) fileText = fileText
  /\ (1 <= targetLine -> targetLine <= lineCount fileText ->
      targetLine - 1 <= windowSize ->
      lineCount fileText - targetLine <= windowSize ->
      getCodeContext fileText targetLine windowSize = fileText).
Proof.
  pose proof (lineCount_pos fileText) as Hpos.
  split.
  - rewrite getOriginalCode_inside by lia.
    unfold lineCount. change (1 - 1) with 0.
    rewrite linesBetween_all. apply join_split.
  - intros Hlo Hhi Hbefore Hafter.
    destruct fileText as [|c rest] eqn:Hfile; [reflexivity|].
    rewrite <- Hfile in *.
    rewrite getCodeContext_inside; try lia; [|subst; discriminate].
    rewrite Z.max_l, Z.min_l by lia.
    unfold lineCount. rewrite linesBetween_all. apply join_split.
Qed.

Lemma whole_file_is_returned_witness :
  getCodeContext Scenario.fiveLines 3 MAX_CONTEXT_LINES = Scenario.fiveLines.
Proof.
  apply (whole_file_is_returned Scenario.fiveLines 3 MAX_CONTEXT_LINES);
    vm_compute; discriminate.
Defined.

(** The commented line is part of its context: in the context, the line
    that follows [min windowSize (targetLine - 1)] lines is the target
    line of the file. *)
Theorem context_holds_target_line (fileText : string)
  (targetLine windowSize : Z) :
  0 <= windowSize -> 1 <= targetLine -> targetLine <= lineCount fileText ->
  lineAt (getCodeContext fileText targetLine windowSize)
    (Z.min windowSize (targetLine - 1) + 1)
  = lineAt fileText targetLine.
Proof.
  intros Hw Hlo Hhi. unfold lineAt.
  rewrite getCodeContext_lines by assumption.
  rewrite linesBetween_nth by lia.
  f_equal. lia.
Qed.

Lemma context_holds_target_line_witness :
  lineAt (getCodeContext Scenario.fiveLines 4 2) (2 + 1) = "d".
Proof.
  apply (context_holds_target_line Scenario.fiveLines 4 2);
    [lia|lia|vm_compute; discriminate].
Defined.

Lemma join_app (sep : string) (a b : list string) :
  a <> [] -> b <> [] ->
  Js.join sep (a ++ b) = Js.join sep a ++ sep ++ Js.join sep b.
Proof.
  intros Ha Hb. induction a as [|x xs IH]; [contradiction|].
  destruct xs as [|y ys].
  - destruct b as [|z zs]; [contradiction|]. reflexivity.
  - change (Js.join sep ((x :: y :: ys) ++ b))
      with (x ++ sep ++ Js.join sep ((y :: ys) ++ b)).
    rewrite IH by discriminate.
    change (Js.join sep (x :: y :: ys))
      with (x ++ sep ++ Js.join sep (y :: ys)).
    rewrite !append_assoc. reflexivity.
Qed.

Lemma occursIn_refl (s : string) : occursIn s s.
Proof. exists "", "". simpl. rewrite append_empty_r. reflexivity. Qed.

Lemma occursIn_app_l (part a b : string) :
  occursIn part a -> occursIn part (a ++ b).
Proof.
  intros (x & y & ->). exists x, (y ++ b).
  rewrite !append_assoc. reflexivity.
Qed.

Lemma occursIn_app_r (part a b : string) :
  occursIn part b -> occursIn part (a ++ b).
Proof.
  intros (x & y & ->). exists (a ++ x), y.
  rewrite !append_assoc. reflexivity.
Qed.

(** The join of a run of pieces occurs in the join of the whole. *)
Lemma join_occurs (sep : string) (a b c : list string) :
  b <> [] -> occursIn (Js.join sep b) (Js.join sep (a ++ b ++ c)).
Proof.
  intros Hb.
  assert (Hbc : occursIn (Js.join sep b) (Js.join sep (b ++ c))).
  { destruct c as [|z zs].
    - rewrite app_nil_r. apply occursIn_refl.
    - rewrite join_app by (assumption || discriminate).
      apply occursIn_app_l, occursIn_refl. }
  destruct a as [|x xs]; [exact Hbc|].
  rewrite join_app; [|discriminate|destruct b; [contradiction|discriminate]].
  apply occursIn_app_r, occursIn_app_r. exact Hbc.
Qed.

(** The original code of a range that ends at the target line and is not
    longer than the window is part of the context. *)
Theorem original_code_in_context (fileText : string)
  (startLine endLine windowSize : Z) :
  1 <= startLine -> startLine <= endLine -> endLine <= lineCount fileText ->
  endLine - startLine <= windowSize ->
  occursIn (getOriginalCode startLine endLine fileText)
    (getCodeContext fileText endLine windowSize).
Proof.
  intros Hs Hse He Hw.
  destruct fileText as [|c rest] eqn:Hfile.
  - assert (endLine = 1) by (unfold lineCount in He; simpl in He; lia).
    assert (startLine = 1) by lia. subst. apply occursIn_refl.
  - rewrite <- Hfile in *.
    rewrite getOriginalCode_inside by lia.
    rewrite getCodeContext_inside; try lia; [|subst; discriminate].
    set (lines := Js.split Js.LF fileText).
    set (lo := Z.max 0 (endLine - 1 - windowSize)).
    set (hi := Z.min (lineCount fileText - 1) (endLine - 1 + windowSize)).
    rewrite (linesBetween_split lines lo (startLine - 1) hi) by lia.
    rewrite (linesBetween_split lines (startLine - 1) endLine hi) by lia.
    apply join_occurs.
    intros Hnil. apply (f_equal (@List.length string)) in Hnil.
    rewrite linesBetween_length in Hnil. simpl in Hnil. lia.
Qed.

Lemma original_code_in_context_witness :
  occursIn (getOriginalCode 2 3 Scenario.fiveLines)
    (getCodeContext Scenario.fiveLines 3 1).
Proof.
  apply (original_code_in_context Scenario.fiveLines 2 3 1);
    [lia|lia|vm_compute; discriminate|lia].
Defined.

(** ** The pipeline, continued *)

Lemma countIf_app {A : Type} (f : A -> bool) (l l' : list A) :
  countIf f (l ++ l') = (countIf f l + countIf f l')%nat.
Proof. unfold countIf. rewrite filter_app, length_app. reflexivity. Qed.

Lemma Run_counts (comment : Comment.t) (added : list AdapterCall)
  (res : Completion Outcome) :
  Run comment added res ->
  (countIf isFetch added <= 1)%nat
  /\ (countIf isGenerate added <= countIf isFetch added)%nat
  /\ (countIf isPost added <= countIf isGenerate added)%nat
  /\ (forall o, res = Resolved o ->
      countIf isAcceptedPost added = if isPosted o then 1%nat else 0%nat).
Proof.
  intros Hrun. inversion Hrun; subst; unfold countIf; simpl;
    refine (conj _ (conj _ (conj _ _))); try lia;
    intros o Ho; inversion Ho; subst; reflexivity.
Qed.

Lemma processAll_cons (W : Type) (vcsService : VersionControlService W)
  (llmService : LlmService W) (prDetails : PullRequestDetails.t)
  (comment : Comment.t) (rest : list Comment.t) (st : St W) :
  processAll vcsService llmService (comment :: rest) prDetails st
  = match
      (if Js.truthy_opt (Comment.filePath comment)
          && Js.truthy_num (Comment.endLineNumber comment)
       then processComment vcsService llmService comment prDetails
       else ret Skipped) st
    with
    | (Resolved outcome, st1) =>
        match processAll vcsService llmService rest prDetails st1 with
        | (Resolved outcomes, st2) => (Resolved (outcome :: outcomes), st2)
        | (Rejected e, st2) => (Rejected e, st2)
        end
    | (Rejected e, st1) => (Rejected e, st1)
    end.
Proof. reflexivity. Qed.

(** What the loop adds to the log, counted. *)
Lemma processAll_counts (W : Type) (vcsService : VersionControlService W)
  (llmService : LlmService W) (prDetails : PullRequestDetails.t)
  (comments : list Comment.t) (st : St W) :
  exists added,
    calls (snd (processAll vcsService llmService comments prDetails st))
    = (calls st ++ added)%list
    /\ (countIf isFetch added <= List.length comments)%nat
    /\ (countIf isGenerate added <= countIf isFetch added)%nat
    /\ (countIf isPost added <= countIf isGenerate added)%nat
    /\ (forall outcomes,
          fst (processAll vcsService llmService comments prDetails st)
          = Resolved outcomes ->
          countIf isAcceptedPost added = countIf isPosted outcomes
          /\ List.length outcomes = List.length comments).
Proof.
  revert st. induction comments as [|comment rest IH]; intros st.
  - exists []. simpl. rewrite app_nil_r.
    refine (conj eq_refl (conj _ (conj _ (conj _ _))));
      try (unfold countIf; simpl; lia).
    intros outcomes H. inversion H. split; reflexivity.
  - rewrite processAll_cons.
    assert (Hone : exists added1,
               calls (snd ((if Js.truthy_opt (Comment.filePath comment)
                               && Js.truthy_num (Comment.endLineNumber comment)
                            then processComment vcsService llmService comment
                                   prDetails
                            else ret Skipped) st))
               = (calls st ++ added1)%list
               /\ Run comment added1
                    (fst ((if Js.truthy_opt (Comment.filePath comment)
                              && Js.truthy_num (Comment.endLineNumber comment)
                           then processComment vcsService llmService comment
                                  prDetails
                           else ret Skipped) st))).
    { destruct (Js.truthy_opt (Comment.filePath comment)
                && Js.truthy_num (Comment.endLineNumber comment)).
      - apply processComment_run.
      - exists []. simpl. rewrite app_nil_r. split; [reflexivity|constructor]. }
    destruct Hone as (added1 & Hcalls1 & Hrun1).
    destruct ((if Js.truthy_opt (Comment.filePath comment)
                  && Js.truthy_num (Comment.endLineNumber comment)
               then processComment vcsService llmService comment prDetails
               else ret Skipped) st) as [[outcome|e] st1];
      cbn [fst snd] in Hcalls1, Hrun1.
    + destruct (IH st1) as (added2 & Hcalls2 & Hf & Hg & Hp & Hres).
      destruct (Run_counts _ _ _ Hrun1) as (Hf1 & Hg1 & Hp1 & Hres1).
      exists (added1 ++ added2)%list.
      destruct (processAll vcsService llmService rest prDetails st1)
        as [[os|e] st2]; cbn [fst snd] in *;
        rewrite Hcalls2, Hcalls1, <- app_assoc, !countIf_app;
        refine (conj eq_refl (conj _ (conj _ (conj _ _))));
        try (cbn [List.length]; lia).
      * intros outcomes Hos. injection Hos as <-.
        destruct (Hres os eq_refl) as [Hacc Hlen].
        rewrite (Hres1 outcome eq_refl), Hacc.
        unfold countIf. simpl. destruct (isPosted outcome); simpl; lia.
      * intros outcomes Hos. discriminate.
    + destruct (Run_counts _ _ _ Hrun1) as (Hf1 & Hg1 & Hp1 & _).
      exists added1.
      refine (conj Hcalls1 (conj _ (conj _ (conj _ _))));
        try (cbn [List.length]; lia).
      intros outcomes Hos. discriminate.
Qed.

(** Whatever the adapters do, the loop of [main] reads at most one file
    for each comment, calls the generator at most once for each file it
    read and posts at most once for each call of the generator: no
    operation is tried again. When the loop resolves, the number of
    [Posted] outcomes is the number of posts the platform accepted. *)
Theorem no_retry_and_posted_count (W : Type)
  (vcsService : VersionControlService W) (llmService : LlmService W)
  (prDetails : PullRequestDetails.t) (comments : list Comment.t) (st : St W) :
  exists added,
    calls (snd (processAll vcsService llmService comments prDetails st))
    = (calls st ++ added)%list
    /\ (countIf isPost added <= countIf isGenerate added)%nat
    /\ (countIf isGenerate added <= countIf isFetch added)%nat
    /\ (countIf isFetch added <= List.length comments)%nat
    /\ (forall outcomes,
          fst (processAll vcsService llmService comments prDetails st)
          = Resolved outcomes ->
          countIf isPosted outcomes = countIf isAcceptedPost added).
Proof.
  destruct (processAll_counts W vcsService llmService prDetails comments st)
    as (added & Hcalls & Hf & Hg & Hp & Hres).
  exists added.
  refine (conj Hcalls (conj Hp (conj Hg (conj Hf _)))).
  intros outcomes Hout. destruct (Hres outcomes Hout) as [H _].
  symmetry. exact H.
Qed.

Lemma no_retry_and_posted_count_witness :
  countIf isPosted [Skipped; Posted] = 1%nat.
Proof.
  destruct (no_retry_and_posted_count Scenario.World Scenario.vcs
              (Scenario.answering Scenario.wellFormedResponse)
              Scenario.prDetails
              [Scenario.commentOn 1 (Some "broken.ts") (Some 3);
               Scenario.commentOn 2 (Some "ok.ts") (Some 3)]
              Scenario.start)
    as (added & Hcalls & _ & _ & _ & Hposted).
  simpl in Hcalls. subst added.
  rewrite (Hposted [Skipped; Posted]); reflexivity.
Defined.

(** A context that is not empty comes from a file that is not empty and a
    line of that file. *)
Lemma getCodeContext_nonempty (fileContent : string)
  (lineNumber maxLines : Z) :
  getCodeContext fileContent lineNumber maxLines <> "" ->
  fileContent <> "" /\ 1 <= lineNumber <= lineCount fileContent.
Proof.
  unfold getCodeContext, lineCount. intros H.
  destruct (Js.truthy fileContent) eqn:Ht; [|contradiction].
  destruct (Z.leb_spec lineNumber 0) as [?|Hpos]; [contradiction|].
  simpl in H.
  destruct (Z.ltb_spec (lineNumber - 1) 0) as [?|_]; [contradiction|].
  destruct (Z.geb_spec (lineNumber - 1)
              (Z.of_nat (List.length (Js.split Js.LF fileContent))))
    as [?|?]; [contradiction|].
  split; [apply truthy_true; exact Ht|lia].
Qed.

Lemma getOriginalCode_one (fileText : string) (line : Z) :
  1 <= line -> line <= lineCount fileText ->
  getOriginalCode line line fileText = lineAt fileText line.
Proof.
  intros Hlo Hhi. rewrite getOriginalCode_inside by lia.
  rewrite linesBetween_one. reflexivity.
Qed.

(** The generator is only called for a comment with a file path and an
    end line, after the file was read at the head ref of the request, with
    a context that is not empty: the end line is a line of the file, the
    payload holds the body of the comment, the context of
    [MAX_CONTEXT_LINES] lines around the end line, the path, the lines
    from the start line (the end line when there is none) to the end line,
    and neither a language nor project rules. For a comment without a
    start line the original code is the commented line itself. *)
Theorem generator_payload (W : Type)
  (vcsService : VersionControlService W) (llmService : LlmService W)
  (comment : Comment.t) (prDetails : PullRequestDetails.t) (st : St W) :
  exists added,
    calls (snd (processComment vcsService llmService comment prDetails st))
    = (calls st ++ added)%list
    /\ forall payload answer,
         In (CallGenerateSuggestion payload answer) added ->
         exists filePath endLine file,
           Comment.filePath comment = Some filePath
           /\ Comment.endLineNumber comment = Some endLine
           /\ In (CallGetFileContent filePath
                    (PullRequestDetails.headRef prDetails)
                    (Resolved (Some file))) added
           /\ payload
              = LlmPromptPayload.mk (Comment.body comment)
                  (getCodeContext (FileContent.content file) endLine
                     MAX_CONTEXT_LINES)
                  (Some filePath)
                  (getOriginalCode
                     (match Comment.startLineNumber comment with
                      | Some s => s
                      | None => endLine
                      end)
                     endLine (FileContent.content file))
                  None None
           /\ LlmPromptPayload.codeContext payload <> ""
           /\ 1 <= endLine <= lineCount (FileContent.content file)
           /\ (Comment.startLineNumber comment = None ->
               LlmPromptPayload.originalCode payload
               = lineAt (FileContent.content file) endLine).
Proof.
  destruct llmService as [generate].
  unfold processComment.
  destruct (Comment.filePath comment) as [filePath|];
    [|exists []; rewrite app_nil_r; split; [reflexivity|intros ? ? []]].
  destruct (Comment.endLineNumber comment) as [endLineNumber|];
    [|exists []; rewrite app_nil_r; split; [reflexivity|intros ? ? []]].
  destruct (negb (Js.truthy filePath) || (endLineNumber =? 0));
    [exists []; rewrite app_nil_r; split; [reflexivity|intros ? ? []]|].
  unfold bind, try_catch, call, ret, throw. simpl.
  destruct (getFileContent vcsService prDetails filePath
              (PullRequestDetails.headRef prDetails) (world st))
    as [[[f|]|e] w1]; simpl;
    [|eexists; split; [reflexivity|]; intros ? ? [Hin|[]]; discriminate
     |destruct e; simpl; (eexists; split; [reflexivity|]);
      intros ? ? [Hin|[]]; discriminate].
  destruct (Js.truthy
              (getCodeContext (FileContent.content f) endLineNumber
                 MAX_CONTEXT_LINES)) eqn:Hctx; simpl;
    [|eexists; split; [reflexivity|];
      intros ? ? [Hin|[]]; discriminate].
  assert (Hgen : forall payload answer answer0 rest,
             In (CallGenerateSuggestion payload answer)
               (CallGetFileContent filePath
                  (PullRequestDetails.headRef prDetails)
                  (Resolved (Some f))
                :: CallGenerateSuggestion
                     (LlmPromptPayload.mk (Comment.body comment)
                        (getCodeContext (FileContent.content f) endLineNumber
                           MAX_CONTEXT_LINES)
                        (Some filePath)
                        (getOriginalCode
                           (match Comment.startLineNumber comment with
                            | Some s => s
                            | None => endLineNumber
                            end)
                           endLineNumber (FileContent.content f))
                        None None)
                     answer0
                :: rest) ->
             (forall c, In c rest -> isGenerate c = false) ->
             exists filePath0 endLine file,
               Some filePath = Some filePath0
               /\ Some endLineNumber = Some endLine
               /\ In (CallGetFileContent filePath0
                        (PullRequestDetails.headRef prDetails)
                        (Resolved (Some file)))
                    (CallGetFileContent filePath
                       (PullRequestDetails.headRef prDetails)
                       (Resolved (Some f))
                     :: CallGenerateSuggestion
                          (LlmPromptPayload.mk (Comment.body comment)
                             (getCodeContext (FileContent.content f)
                                endLineNumber MAX_CONTEXT_LINES)
                             (Some filePath)
                             (getOriginalCode
                                (match Comment.startLineNumber comment with
                                 | Some s => s
                                 | None => endLineNumber
                                 end)
                                endLineNumber (FileContent.content f))
                             None None)
                          answer0
                     :: rest)
               /\ payload
                  = LlmPromptPayload.mk (Comment.body comment)
                      (getCodeContext (FileContent.content file) endLine
                         MAX_CONTEXT_LINES)
                      (Some filePath0)
                      (getOriginalCode
                         (match Comment.startLineNumber comment with
                          | Some s => s
                          | None => endLine
                          end)
                         endLine (FileContent.content file))
                      None None
               /\ LlmPromptPayload.codeContext payload <> ""
               /\ 1 <= endLine <= lineCount (FileContent.content file)
               /\ (Comment.startLineNumber comment = None ->
                   LlmPromptPayload.originalCode payload
                   = lineAt (FileContent.content file) endLine)).
  { intros payload answer answer0 rest Hin Hrest.
    assert (Hne : getCodeContext (FileContent.content f) endLineNumber
                    MAX_CONTEXT_LINES <> "")
      by (apply truthy_true; exact Hctx).
    destruct (getCodeContext_nonempty _ _ _ Hne) as [_ Hline].
    destruct Hin as [Hin|[Hin|Hin]]; [discriminate| |].
    - injection Hin as <- _.
      exists filePath, endLineNumber, f. simpl.
      repeat split; try (left; reflexivity); try assumption; try lia.
      intros ->. apply getOriginalCode_one; lia.
    - apply Hrest in Hin. discriminate. }
  match goal with
  | |- context [generate ?p w1] =>
      destruct (generate p w1) as [[r|e] w2]; simpl
  end.
  - destruct (unusable r); simpl.
    + eexists; split; [apply app_one_two|].
      intros payload answer Hin. apply (Hgen payload answer _ [] Hin).
      intros c [].
    + match goal with
      | |- context [postSuggestionComment vcsService ?a ?b ?c ?d w2] =>
          destruct (postSuggestionComment vcsService a b c d w2)
            as [[[]|e] w3]; simpl
      end;
        [|destruct e; simpl];
        (eexists; split; [apply app_two_three|];
         intros payload answer Hin; apply (Hgen payload answer _ _ Hin);
         intros c [<-|[]]; reflexivity).
  - eexists; split; [apply app_one_two|].
    intros payload answer Hin. apply (Hgen payload answer _ [] Hin).
    intros c [].
Qed.

Lemma generator_payload_witness :
  LlmPromptPayload.originalCode
    (LlmPromptPayload.mk "Please use const here." Scenario.fiveLines
       (Some "ok.ts") "c" None None)
  = lineAt Scenario.fiveLines 3.
Proof.
  destruct (generator_payload Scenario.World Scenario.vcs
              (Scenario.answering Scenario.wellFormedResponse)
              (Scenario.commentOn 2 (Some "ok.ts") (Some 3))
              Scenario.prDetails Scenario.start)
    as (added & Hcalls & Hpayload).
  simpl in Hcalls. subst added.
  edestruct Hpayload
    as (filePath & endLine & file & Hpath & Hline & Hread & _ & _ & _ & Hone).
  - right. left. reflexivity.
  - injection Hpath as <-. injection Hline as <-.
    destruct Hread as [Hread|[Hread|[Hread|[]]]]; try discriminate.
    injection Hread as <-.
    apply Hone. reflexivity.
Defined.

(** A comment is dealt with without any adapter call exactly when its
    file path or its end line number is missing, empty or zero;
    otherwise the first thing [processComment] does is to read the file
    of the comment at the head ref of the request. *)
Theorem eligibility_decides_first_call (W : Type)
  (vcsService : VersionControlService W) (llmService : LlmService W)
  (comment : Comment.t) (prDetails : PullRequestDetails.t) (st : St W) :
  (Js.truthy_opt (Comment.filePath comment)
   && Js.truthy_num (Comment.endLineNumber comment) = false ->
   processComment vcsService llmService comment prDetails st
   = (Resolved Skipped, st))
  /\ (Js.truthy_opt (Comment.filePath comment)
      && Js.truthy_num (Comment.endLineNumber comment) = true ->
      exists filePath answer rest,
        Comment.filePath comment = Some filePath
        /\ calls (snd (processComment vcsService llmService comment
                         prDetails st))
           = (calls st
                ++ CallGetFileContent filePath
                     (PullRequestDetails.headRef prDetails) answer
                   :: rest)%list).
Proof.
  split.
  - intros Hno. unfold processComment.
    destruct (Comment.filePath comment) as [filePath|]; [|reflexivity].
    destruct (Comment.endLineNumber comment) as [endLine|]; [|reflexivity].
    simpl in Hno.
    replace (negb (Js.truthy filePath) || (endLine =? 0)) with true;
      [reflexivity|].
    destruct (Js.truthy filePath); simpl in *; [|reflexivity].
    destruct (endLine =? 0); [reflexivity|discriminate].
  - intros Hyes.
    destruct (processComment_run W vcsService llmService comment prDetails st)
      as (added & Hcalls & Hrun).
    revert Hcalls Hrun. unfold processComment.
    destruct (Comment.filePath comment) as [filePath|]; [|discriminate].
    destruct (Comment.endLineNumber comment) as [endLine|];
      [|simpl in Hyes; rewrite andb_false_r in Hyes; discriminate].
    simpl in Hyes. apply andb_true_iff in Hyes as [Hp Hl].
    rewrite Hp. apply negb_true_iff in Hl. rewrite Hl. simpl.
    unfold bind, try_catch, call, ret, throw. simpl.
    destruct (getFileContent vcsService prDetails filePath
                (PullRequestDetails.headRef prDetails) (world st))
      as [answer w1].
    intros _ _.
    exists filePath, answer.
    destruct answer as [[f|]|e]; simpl;
      [|exists []; split; reflexivity
       |destruct e; simpl; exists []; split; reflexivity].
    destruct (Js.truthy
                (getCodeContext (FileContent.content f) endLine
                   MAX_CONTEXT_LINES)); simpl;
      [|exists []; split; reflexivity].
    destruct llmService as [generate]. simpl.
    match goal with
    | |- context [generate ?p w1] =>
        destruct (generate p w1) as [[r|e] w2]; simpl
    end.
    + destruct (unusable r); simpl.
      * eexists; split; [reflexivity|apply app_one_two].
      * match goal with
        | |- context [postSuggestionComment vcsService ?a ?b ?c ?d w2] =>
            destruct (postSuggestionComment vcsService a b c d w2)
              as [[[]|e] w3]; simpl
        end; [|destruct e; simpl];
          (eexists; split; [reflexivity|apply app_two_three]).
    + eexists; split; [reflexivity|apply app_one_two].
Qed.

Lemma eligibility_decides_first_call_witness :
  processComment Scenario.vcs Scenario.unreachable
    (Scenario.commentOn 1 (Some "") (Some 5)) Scenario.prDetails
    Scenario.start
  = (Resolved Skipped, Scenario.start)
  /\ processComment Scenario.vcs Scenario.unreachable
       (Scenario.commentOn 1 (Some "ok.ts") (Some 0)) Scenario.prDetails
       Scenario.start
     = (Resolved Skipped, Scenario.start)
  /\ exists answer rest,
       calls (snd (processComment Scenario.vcs Scenario.unreachable
                     (Scenario.commentOn 1 (Some "ok.ts") (Some 3))
                     Scenario.prDetails Scenario.start))
       = CallGetFileContent "ok.ts" (Some "feature") answer :: rest.
Proof.
  split; [|split].
  - apply (eligibility_decides_first_call Scenario.World Scenario.vcs
             Scenario.unreachable (Scenario.commentOn 1 (Some "") (Some 5))
             Scenario.prDetails Scenario.start).
    reflexivity.
  - apply (eligibility_decides_first_call Scenario.World Scenario.vcs
             Scenario.unreachable (Scenario.commentOn 1 (Some "ok.ts") (Some 0))
             Scenario.prDetails Scenario.start).
    reflexivity.
  - destruct (eligibility_decides_first_call Scenario.World Scenario.vcs
                Scenario.unreachable
                (Scenario.commentOn 1 (Some "ok.ts") (Some 3))
                Scenario.prDetails Scenario.start) as [_ Hyes].
    destruct Hyes as (filePath & answer & rest & Hpath & Hcalls);
      [reflexivity|].
    injection Hpath as <-. exists answer, rest. exact Hcalls.
Defined.

(** ** The suggestion generator, continued *)

Lemma startsWith_app_l (s t p : string) :
  Js.startsWith s p = true -> Js.startsWith (s ++ t) p = true.
Proof.
  revert s. induction p as [|c p IH]; intros s H; [reflexivity|].
  destruct s as [|d s]; [discriminate|].
  simpl in *. apply andb_true_iff in H as [Hc Hs].
  rewrite Hc. simpl. apply IH. exact Hs.
Qed.

Lemma occursIn_empty (p : string) : occursIn p "" -> p = "".
Proof.
  intros (a & b & H). destruct a; [|discriminate].
  destruct p; [reflexivity|discriminate].
Qed.

(** [cut] stops at the first occurrence: the pattern does not occur in
    the text before it. *)
Lemma cut_first (s p before after : string) :
  p <> "" -> Js.cut s p = Some (before, after) -> ~ occursIn p before.
Proof.
  intros Hp. revert before.
  induction s as [|c s IH]; intros before Hcut Hocc; rewrite cut_unfold in Hcut.
  - destruct (Js.startsWith "" p); [|discriminate].
    injection Hcut as <- _. apply occursIn_empty in Hocc. contradiction.
  - destruct (Js.startsWith (String c s) p) eqn:Hstart.
    + injection Hcut as <- _. apply occursIn_empty in Hocc. contradiction.
    + destruct (Js.cut s p) as [[b a]|] eqn:Hrec; [|discriminate].
      injection Hcut as <- <-.
      destruct Hocc as (x & y & Hxy).
      destruct x as [|d x].
      * simpl in Hxy.
        apply cut_sound in Hrec.
        assert (Htrue : Js.startsWith (String c s) p = true).
        { rewrite Hrec.
          change (String c (b ++ p ++ a))
            with (String c b ++ (p ++ a)).
          apply startsWith_app_l. rewrite Hxy. apply startsWith_app. }
        congruence.
      * simpl in Hxy. injection Hxy as _ Hb.
        apply (IH b); [reflexivity|]. exists x, y. exact Hb.
Qed.

(** Cutting again what was cut, up to the end of the pattern, gives the
    same text before. *)
Lemma cut_again (s p before after : string) :
  Js.cut s p = Some (before, after) ->
  Js.cut (before ++ p) p = Some (before, "").
Proof.
  revert before. induction s as [|c s IH]; intros before Hcut;
    rewrite cut_unfold in Hcut.
  - destruct (Js.startsWith "" p); [|discriminate].
    injection Hcut as <- _. simpl.
    rewrite <- (append_empty_r p) at 1. apply cut_prefix.
  - destruct (Js.startsWith (String c s) p) eqn:Hstart.
    + injection Hcut as <- _. simpl.
      rewrite <- (append_empty_r p) at 1. apply cut_prefix.
    + destruct (Js.cut s p) as [[b a]|] eqn:Hrec; [|discriminate].
      injection Hcut as <- <-.
      rewrite cut_unfold. simpl.
      destruct (Js.startsWith (String c (b ++ p)) p) eqn:Hagain.
      * apply cut_sound in Hrec.
        assert (Htrue : Js.startsWith (String c s) p = true).
        { rewrite Hrec.
          replace (String c (b ++ p ++ a))
            with (String c (b ++ p) ++ a)
            by (simpl; rewrite append_assoc; reflexivity).
          apply startsWith_app_l. exact Hagain. }
        congruence.
      * rewrite (IH b eq_refl). reflexivity.
Qed.

(** The suggestion is the first fenced block of the response and ends at
    the first closing fence: no opening fence stands before it, and the
    suggested code holds no closing fence. *)
Theorem suggestion_is_first_and_shortest (responseText whole code : string) :
  matchSuggestion responseText = Some (whole, code) ->
  exists before after,
    responseText = before ++ whole ++ after
    /\ whole = openingFence ++ code ++ closingFence
    /\ ~ occursIn openingFence before
    /\ ~ occursIn closingFence code.
Proof.
  unfold matchSuggestion. intros H.
  destruct (Js.cut responseText openingFence) as [[before rest]|] eqn:Hopen;
    [|discriminate].
  destruct (Js.cut rest closingFence) as [[code' after]|] eqn:Hclose;
    [|discriminate].
  injection H as Hwhole Hcode. subst code' whole.
  exists before, after.
  split; [exact (cut_twice_sound _ _ _ _ _ _ _ Hopen Hclose)|].
  split; [reflexivity|].
  split.
  - apply (cut_first responseText openingFence before rest);
      [discriminate|exact Hopen].
  - apply (cut_first rest closingFence code after);
      [discriminate|exact Hclose].
Qed.

Lemma suggestion_is_first_and_shortest_witness :
  ~ occursIn closingFence "const x = 1;".
Proof.
  destruct (suggestion_is_first_and_shortest Scenario.wellFormedResponse
              Scenario.suggestion "const x = 1;" eq_refl)
    as (before & after & _ & _ & _ & Hcode).
  exact Hcode.
Defined.

(** Parsing a suggestion that was parsed gives the same suggestion: the
    markdown of a result is a response whose first block is itself. *)
Theorem parse_suggestion_again (responseText whole code : string) :
  matchSuggestion responseText = Some (whole, code) ->
  matchSuggestion whole = Some (whole, code)
  /\ LlmSuggestion.suggestionMarkdown (parseResponse whole) = whole
  /\ LlmSuggestion.error (parseResponse whole) = None.
Proof.
  intros H.
  destruct (matchSuggestion_sound _ _ _ H) as [Hwhole _].
  assert (Hcode : exists rest after,
             Js.cut rest closingFence = Some (code, after)).
  { unfold matchSuggestion in H.
    destruct (Js.cut responseText openingFence) as [[before rest]|];
      [|discriminate].
    destruct (Js.cut rest closingFence) as [[code' after]|] eqn:Hclose;
      [|discriminate].
    injection H as _ Hc. subst code'. exists rest, after. exact Hclose. }
  destruct Hcode as (rest & after & Hclose).
  assert (Hagain : matchSuggestion whole = Some (whole, code)).
  { rewrite Hwhole at 1. unfold matchSuggestion.
    rewrite cut_prefix, (cut_again _ _ _ _ Hclose), <- Hwhole.
    reflexivity. }
  split; [exact Hagain|].
  unfold parseResponse. rewrite Hagain.
  replace (Js.truthy whole) with true by (rewrite Hwhole; reflexivity).
  split; reflexivity.
Qed.

Lemma parse_suggestion_again_witness :
  LlmSuggestion.suggestionMarkdown (parseResponse Scenario.suggestion)
  = Scenario.suggestion.
Proof.
  apply (parse_suggestion_again Scenario.wellFormedResponse
           Scenario.suggestion "const x = 1;").
  reflexivity.
Defined.

(** *** The rationale *)

Lemma trimEnd_idem (s : string) : Js.trimEnd (Js.trimEnd s) = Js.trimEnd s.
Proof.
  induction s as [|c s IH]; [reflexivity|].
  simpl. destruct (Js.trimEnd s) as [|d t] eqn:E.
  - destruct (Js.isWhiteSpace c) eqn:Hc; [reflexivity|].
    simpl. rewrite Hc. reflexivity.
  - change (Js.trimEnd (String c (String d t)))
      with (match Js.trimEnd (String d t) with
            | "" => if Js.isWhiteSpace c then "" else String c ""
            | String x y => String c (String x y)
            end).
    rewrite IH. reflexivity.
Qed.

Lemma trimStart_head (s : string) :
  match Js.trimStart s with
  | "" => True
  | String c _ => Js.isWhiteSpace c = false
  end.
Proof.
  induction s as [|c s IH]; simpl; [exact I|].
  destruct (Js.isWhiteSpace c) eqn:Hc; [exact IH|exact Hc].
Qed.

Lemma trimEnd_head (s : string) :
  match s with
  | "" => True
  | String c _ => Js.isWhiteSpace c = false
  end ->
  match Js.trimEnd s with
  | "" => True
  | String c _ => Js.isWhiteSpace c = false
  end.
Proof.
  destruct s as [|c s]; simpl; [trivial|].
  intros Hc. destruct (Js.trimEnd s); [rewrite Hc|]; exact Hc.
Qed.

Lemma trimStart_fixed (s : string) :
  match s with
  | "" => True
  | String c _ => Js.isWhiteSpace c = false
  end ->
  Js.trimStart s = s.
Proof. destruct s as [|c s]; simpl; [trivial|]. intros ->. reflexivity. Qed.

Lemma trim_idem (s : string) : Js.trim (Js.trim s) = Js.trim s.
Proof.
  unfold Js.trim.
  rewrite (trimStart_fixed (Js.trimEnd (Js.trimStart s))).
  - apply trimEnd_idem.
  - apply trimEnd_head, trimStart_head.
Qed.

(** A text in which neither line terminator occurs is matched whole by a
    run of dots. *)
Lemma dotStar_fixed (s : string) :
  free Js.LF s -> free "013"%char s -> Js.dotStar s = s.
Proof.
  induction s as [|c s IH]; [reflexivity|].
  intros [Hlf Hs] [Hcr Hs']. simpl.
  replace (Js.isLineTerminator c) with false.
  - rewrite IH by assumption. reflexivity.
  - symmetry. unfold Js.isLineTerminator.
    apply orb_false_iff. split; apply Nat.eqb_neq; intros Hn.
    + apply Hlf. rewrite <- (ascii_nat_embedding c), Hn. reflexivity.
    + apply Hcr. rewrite <- (ascii_nat_embedding c), Hn. reflexivity.
Qed.

Lemma dotStar_free (s : string) :
  free Js.LF (Js.dotStar s) /\ free "013"%char (Js.dotStar s).
Proof.
  induction s as [|c s [IHlf IHcr]]; simpl; [split; exact I|].
  destruct (Js.isLineTerminator c) eqn:Hc; [split; exact I|].
  unfold Js.isLineTerminator in Hc. apply orb_false_iff in Hc as [Hlf Hcr].
  apply Nat.eqb_neq in Hlf, Hcr.
  simpl. repeat split; try assumption; intros ->; [apply Hlf|apply Hcr];
    reflexivity.
Qed.

Lemma trimStart_free (c : ascii) (s : string) :
  free c s -> free c (Js.trimStart s).
Proof.
  induction s as [|d s IH]; simpl; [trivial|].
  intros [Hd Hs]. destruct (Js.isWhiteSpace d); [apply IH; exact Hs|].
  split; assumption.
Qed.

Lemma trimEnd_free (c : ascii) (s : string) :
  free c s -> free c (Js.trimEnd s).
Proof.
  induction s as [|d s IH]; simpl; [trivial|].
  intros [Hd Hs]. specialize (IH Hs).
  destruct (Js.trimEnd s) as [|e t].
  - destruct (Js.isWhiteSpace d); simpl; auto.
  - simpl in *. tauto.
Qed.

(** Every result of the generator carries a rationale of one line with no
    white space around it: [trim] leaves it as it is, and it holds no
    line terminator. The generator returns a result whenever the transport
    does not reject with [null] or [undefined]. *)
Theorem rationale_is_one_trimmed_line (W : Type)
  (invoke : string -> Async W string) (payload : LlmPromptPayload.t) (w : W) :
  (forall r w',
      AzureOpenAiLlmService.generateSuggestion W invoke payload w
      = (Resolved r, w') ->
      exists rationale,
        LlmSuggestion.rationale r = Some rationale
        /\ Js.trim rationale = rationale
        /\ Js.dotStar rationale = rationale)
  /\ ((forall e w',
         invoke (fullPrompt payload) w = (Rejected e, w') ->
         nullish e = false) ->
      exists r w',
        AzureOpenAiLlmService.generateSuggestion W invoke payload w
        = (Resolved r, w')).
Proof.
  rewrite generateSuggestion_cases.
  split.
  - intros r w' Hr.
    destruct (invoke (fullPrompt payload) w) as [[responseText|e] w1].
    + injection Hr as <- _.
      unfold parseResponse.
      destruct (matchSuggestion responseText) as [[whole code]|];
        [|eexists; repeat split; reflexivity].
      destruct (Js.truthy whole); [|eexists; repeat split; reflexivity].
      unfold matchRationale.
      destruct (Js.cut responseText "Rationale: ") as [[before rest]|];
        [|eexists; repeat split; reflexivity].
      exists (Js.trim (Js.dotStar rest)).
      split; [reflexivity|].
      split; [apply trim_idem|].
      destruct (dotStar_free rest) as [Hlf Hcr].
      apply dotStar_fixed; unfold Js.trim;
        apply trimEnd_free, trimStart_free; assumption.
    + destruct (nullish e); [discriminate|].
      injection Hr as <- _.
      eexists. repeat split; reflexivity.
  - intros Hrej.
    destruct (invoke (fullPrompt payload) w) as [[responseText|e] w1].
    + eexists; eexists; reflexivity.
    + rewrite (Hrej e w1 eq_refl). eexists; eexists; reflexivity.
Qed.

Lemma rationale_is_one_trimmed_line_witness :
  exists rationale,
    LlmSuggestion.rationale (parseResponse Scenario.paddedResponse)
    = Some rationale
    /\ Js.trim rationale = rationale
    /\ Js.dotStar rationale = rationale.
Proof.
  destruct (rationale_is_one_trimmed_line Scenario.World
              (fun _ => ret Scenario.paddedResponse)
              (LlmPromptPayload.mk "Please use const here." "c" None "c"
                 None None) []) as [Hresult _].
  apply (Hresult (parseResponse Scenario.paddedResponse) []).
  reflexivity.
Defined.

(** ** The platform adapters *)

Lemma GitLab_posts_first_note_witness :
  GitLabService.postSuggestionComment Scenario.GitLabWorld Scenario.show
    Scenario.create Scenario.prDetails (IdNumber 7) Scenario.suggestion
    (Some "Rationale: Use const.") []
  = Scenario.create "Spoon-Knife" 1 "please rename this variable" None [].
Proof.
  apply (GitLab_posts_first_note Scenario.GitLabWorld Scenario.show
           Scenario.create Scenario.prDetails (IdNumber 7)
           Scenario.suggestion (Some "Rationale: Use const.") [] []
           Scenario.noteWithoutPosition []).
  reflexivity.
Defined.

(** GitLab's [postSuggestionComment] does the same whatever suggestion
    and explanation it is given: neither reaches the platform. *)
Theorem GitLab_post_ignores_suggestion (W : Type)
  (show : string -> Z -> string -> Async W GitLabService.Discussion)
  (create : string -> Z -> string -> option GitLabService.Position
            -> Async W unit)
  (prDetails : PullRequestDetails.t) (replyToCommentId : CommentId)
  (suggestion suggestion' : string) (explanation explanation' : option string)
  (w : W) :
  GitLabService.postSuggestionComment W show create prDetails
    replyToCommentId suggestion explanation w
  = GitLabService.postSuggestionComment W show create prDetails
      replyToCommentId suggestion' explanation' w.
Proof.
  unfold GitLabService.postSuggestionComment, try_catch, bind, throw.
  simpl.
  destruct (show _ _ _ w) as [[thread|e] w1]; [|reflexivity].
  destruct (GitLabService.notes thread) as [[|note others]|]; reflexivity.
Qed.

(** When the discussion of the comment has no note, GitLab's
    [postSuggestionComment] rejects with a message that names the comment
    id, and creates nothing. *)
Theorem GitLab_post_without_thread (W : Type)
  (show : string -> Z -> string -> Async W GitLabService.Discussion)
  (create : string -> Z -> string -> option GitLabService.Position
            -> Async W unit)
  (prDetails : PullRequestDetails.t) (replyToCommentId : CommentId)
  (suggestion : string) (explanation : option string) (w w1 : W)
  (thread : GitLabService.Discussion) :
  show (PullRequestDetails.repo prDetails)
    (PullRequestDetails.pullNumber prDetails)
    (CommentId_toString replyToCommentId) w
  = (Resolved thread, w1) ->
  GitLabService.notes thread = None \/ GitLabService.notes thread = Some [] ->
  GitLabService.postSuggestionComment W show create prDetails
    replyToCommentId suggestion explanation w
  = (Rejected
       (Error
          ("No original discussion thread found for comment ID "
             ++ CommentId_toString replyToCommentId ++ ".")),
     w1).
Proof.
  intros Hshow Hnotes.
  unfold GitLabService.postSuggestionComment, try_catch, bind, throw.
  simpl. rewrite Hshow.
  destruct Hnotes as [-> | ->]; reflexivity.
Qed.

Lemma GitLab_post_without_thread_witness :
  GitLabService.postSuggestionComment Scenario.GitLabWorld Scenario.showEmpty
    Scenario.create Scenario.prDetails (IdNumber 7) Scenario.suggestion None []
  = (Rejected
       (Error "No original discussion thread found for comment ID 7."), []).
Proof.
  apply (GitLab_post_without_thread Scenario.GitLabWorld Scenario.showEmpty
           Scenario.create Scenario.prDetails (IdNumber 7)
           Scenario.suggestion None [] []
           (GitLabService.mkDiscussion (Some []))).
  - reflexivity.
  - right. reflexivity.
Defined.

(** A failure of the client of the platform leaves every adapter
    operation from the state the client left, with the value the client
    threw, or with the [TypeError] of reading its message when the value
    is [null] or [undefined]: the adapters do not try again. So nothing
    that leaves the file reading and the posting of [GitHubService] is
    [null] or [undefined], and over that platform, with a generator that
    never rejects, the loop of [main] resolves with one outcome for each
    comment whatever the client does. *)
Theorem adapter_errors_propagate (W : Type) (e : JsError) (w w1 : W)
  (prDetails : PullRequestDetails.t) :
  (forall createReply id suggestion explanation,
      createReply (PullRequestDetails.owner prDetails)
        (PullRequestDetails.repo prDetails)
        (PullRequestDetails.pullNumber prDetails) id
        (GitHubService.replyBody suggestion explanation) w
      = (Rejected e, w1) ->
      GitHubService.postSuggestionComment W createReply prDetails id
        suggestion explanation w
      = (Rejected (passedOn e), w1))
  /\ (forall listReviewComments,
        listReviewComments (PullRequestDetails.owner prDetails)
          (PullRequestDetails.repo prDetails)
          (PullRequestDetails.pullNumber prDetails) w
        = (Rejected e, w1) ->
        GitHubService.getPullRequestComments W listReviewComments prDetails w
        = (Rejected (passedOn e), w1))
  /\ (forall getContent decode filePath ref,
        getContent (PullRequestDetails.owner prDetails)
          (PullRequestDetails.repo prDetails) filePath ref w
        = (Rejected e, w1) ->
        Js.truthy ref = true ->
        GitHubService.getFileContent W getContent decode prDetails filePath
          (Some ref) w
        = (Rejected (passedOn e), w1))
  /\ (forall show create id suggestion explanation,
        show (PullRequestDetails.repo prDetails)
          (PullRequestDetails.pullNumber prDetails) (CommentId_toString id) w
        = (Rejected e, w1) ->
        GitLabService.postSuggestionComment W show create prDetails id
          suggestion explanation w
        = (Rejected (passedOn e), w1))
  /\ (forall notesAll,
        notesAll (PullRequestDetails.repo prDetails)
          (PullRequestDetails.pullNumber prDetails) w
        = (Rejected e, w1) ->
        GitLabService.getPullRequestComments W notesAll prDetails w
        = (Rejected (passedOn e), w1))
  /\ (forall filesShow decodeBase64 filePath ref,
        filesShow (PullRequestDetails.repo prDetails) filePath ref w
        = (Rejected e, w1) ->
        Js.truthy ref = true ->
        GitLabService.getFileContent W filesShow decodeBase64 prDetails
          filePath (Some ref) w
        = (Rejected (passedOn e), w1))
  /\ (forall createReply listReviewComments getContent decode getDetails,
        readsThrowErrors
          (GitHubService.service W createReply listReviewComments getContent
             decode getDetails)
        /\ postsThrowErrors
             (GitHubService.service W createReply listReviewComments
                getContent decode getDetails)
        /\ forall llmService comments st,
             neverRejects llmService ->
             exists outcomes st',
               processAll
                 (GitHubService.service W createReply listReviewComments
                    getContent decode getDetails)
                 llmService comments prDetails st
               = (Resolved outcomes, st')
               /\ List.length outcomes = List.length comments).
Proof.
  refine (conj _ (conj _ (conj _ (conj _ (conj _ (conj _ _)))))).
  - intros createReply id suggestion explanation H.
    unfold GitHubService.postSuggestionComment. rewrite try_rethrow.
    rewrite H. reflexivity.
  - intros listReviewComments H.
    unfold GitHubService.getPullRequestComments. rewrite try_rethrow.
    unfold bind. rewrite H. reflexivity.
  - intros getContent decode filePath ref H Href.
    unfold GitHubService.getFileContent. rewrite try_rethrow.
    unfold bind, throw, Js.or_string.
    simpl. rewrite Href. simpl. rewrite Href. simpl. rewrite H. reflexivity.
  - intros show create id suggestion explanation H.
    unfold GitLabService.postSuggestionComment. rewrite try_rethrow.
    unfold bind. simpl. rewrite H. reflexivity.
  - intros notesAll H.
    unfold GitLabService.getPullRequestComments. rewrite try_rethrow.
    unfold bind. rewrite H. reflexivity.
  - intros filesShow decodeBase64 filePath ref H Href.
    unfold GitLabService.getFileContent. rewrite try_rethrow.
    unfold bind, throw, Js.or_string.
    simpl. rewrite Href. simpl. rewrite Href. simpl. rewrite H. reflexivity.
  - intros createReply listReviewComments getContent decode getDetails.
    assert (Hreads : readsThrowErrors
                       (GitHubService.service W createReply listReviewComments
                          getContent decode getDetails)).
    { intros pr filePath ref w0 thrown w'. simpl. unfold bind.
      destruct (GitHubService.getFileContent W getContent decode pr filePath
                  ref w0) as [[f|thrown'] w2] eqn:Hread; [discriminate|].
      intros H. injection H as <- _.
      exact (rethrow_not_nullish _ _ _ _ Hread). }
    assert (Hposts : postsThrowErrors
                       (GitHubService.service W createReply listReviewComments
                          getContent decode getDetails)).
    { intros pr id suggestion explanation w0 thrown w'. simpl.
      apply rethrow_not_nullish. }
    refine (conj Hreads (conj Hposts _)).
    intros llmService comments st Hgenerator.
    apply processAll_resolves; assumption.
Qed.

Lemma adapter_errors_propagate_witness :
  GitHubService.postSuggestionComment Scenario.World Scenario.rejectReply
    Scenario.prDetails (IdNumber 7) Scenario.suggestion None []
  = (Rejected (Error "Not Found"), []).
Proof.
  destruct (adapter_errors_propagate Scenario.World (Error "Not Found") [] []
              Scenario.prDetails) as (Hpost & _).
  rewrite <- (passedOn_error "Not Found").
  apply Hpost. reflexivity.
Defined.

(** With the file reading of [GitHubService], a comment on a request
    whose head ref is not known, or on a path that is a directory or not
    a file, ends in [Skipped]: the one adapter call is the failed read,
    the generator is not called and nothing is posted. Without a head
    ref the content endpoint is not called either. *)
Theorem unreadable_file_is_skipped (W : Type)
  (getContent : string -> string -> string -> string
                -> Async W GitHubService.ContentData)
  (decode : string -> string -> JsError + string)
  (details : PrIdentifier -> Async W PullRequestDetails.t)
  (comments : PullRequestDetails.t -> Async W (list Comment.t))
  (post : PullRequestDetails.t -> CommentId -> string -> option string
          -> Async W unit)
  (llmService : LlmService W) (comment : Comment.t)
  (prDetails : PullRequestDetails.t) (st : St W)
  (filePath : string) (endLine : Z) :
  Comment.filePath comment = Some filePath -> filePath <> "" ->
  Comment.endLineNumber comment = Some endLine -> endLine <> 0 ->
  (Js.truthy_opt (PullRequestDetails.headRef prDetails) = false ->
   processComment
     (Build_VersionControlService W details comments
        (fun prDetails filePath ref =>
           f <- GitHubService.getFileContent W getContent decode prDetails
                  filePath ref ;;
           ret (Some f))
        post)
     llmService comment prDetails st
   = (Resolved Skipped,
      mkSt (world st)
        (calls st
           ++ [CallGetFileContent filePath
                 (PullRequestDetails.headRef prDetails)
                 (Rejected
                    (Error
                       "Cannot determine file reference (branch/commit SHA) for getFileContent."))])))
  /\ (forall ref data w1,
        PullRequestDetails.headRef prDetails = Some ref ->
        ref <> "" ->
        getContent (PullRequestDetails.owner prDetails)
          (PullRequestDetails.repo prDetails) filePath ref (world st)
        = (Resolved data, w1) ->
        match data with
        | GitHubService.ContentArray => True
        | GitHubService.ContentItem type _ _ _ => type <> "file"
        end ->
        processComment
          (Build_VersionControlService W details comments
             (fun prDetails filePath ref =>
                f <- GitHubService.getFileContent W getContent decode
                       prDetails filePath ref ;;
                ret (Some f))
             post)
          llmService comment prDetails st
        = (Resolved Skipped,
           mkSt w1
             (calls st
                ++ [CallGetFileContent filePath (Some ref)
                      (Rejected
                         (Error
                            ("Path " ++ filePath
                               ++ " is a directory or not a file type (e.g., symlink, submodule).")))]))).
Proof.
  intros Hpath Hne Hline Hnz.
  apply truthy_true in Hne. apply Z.eqb_neq in Hnz.
  split.
  - intros Hhead. unfold processComment.
    rewrite Hpath, Hline, Hne, Hnz. simpl.
    unfold bind, try_catch, call, ret, throw. simpl.
    unfold GitHubService.getFileContent, try_catch, bind, throw, Js.or_string.
    rewrite Hhead.
    destruct (PullRequestDetails.headRef prDetails) as [ref|]; simpl.
    + simpl in Hhead. rewrite Hhead. reflexivity.
    + reflexivity.
  - intros ref data w1 Hhead Hrefne Hget Hdata.
    apply truthy_true in Hrefne.
    unfold processComment.
    rewrite Hpath, Hline, Hne, Hnz. simpl.
    unfold bind, try_catch, call, ret, throw. simpl.
    unfold GitHubService.getFileContent, try_catch, bind, throw, Js.or_string.
    rewrite Hhead. simpl. rewrite Hrefne. simpl. rewrite ?Hrefne. simpl.
    rewrite Hget.
    destruct data as [|type path content encoding]; [reflexivity|].
    apply String.eqb_neq in Hdata. rewrite Hdata. reflexivity.
Qed.

Lemma unreadable_file_is_skipped_witness :
  fst (processComment Scenario.githubVcs Scenario.unreachable
         (Scenario.commentOn 1 (Some "ok.ts") (Some 3))
         Scenario.prWithoutHead Scenario.start)
  = Resolved Skipped
  /\ fst (processComment Scenario.githubVcs Scenario.unreachable
            (Scenario.commentOn 1 (Some "src") (Some 3))
            Scenario.prDetails Scenario.start)
     = Resolved Skipped.
Proof.
  split.
  - destruct (unreadable_file_is_skipped Scenario.World Scenario.getContent
                Scenario.decode (fun _ => ret Scenario.prDetails)
                (fun _ => ret [])
                (GitHubService.postSuggestionComment Scenario.World
                   Scenario.createReply)
                Scenario.unreachable
                (Scenario.commentOn 1 (Some "ok.ts") (Some 3))
                Scenario.prWithoutHead Scenario.start "ok.ts" 3)
      as [Hnohead _]; [reflexivity|discriminate|reflexivity|discriminate|].
    unfold Scenario.githubVcs. rewrite Hnohead; reflexivity.
  - destruct (unreadable_file_is_skipped Scenario.World Scenario.getContent
                Scenario.decode (fun _ => ret Scenario.prDetails)
                (fun _ => ret [])
                (GitHubService.postSuggestionComment Scenario.World
                   Scenario.createReply)
                Scenario.unreachable
                (Scenario.commentOn 1 (Some "src") (Some 3))
                Scenario.prDetails Scenario.start "src" 3)
      as [_ Hdir]; [reflexivity|discriminate|reflexivity|discriminate|].
    unfold Scenario.githubVcs.
    rewrite (Hdir "feature" GitHubService.ContentArray []);
      [reflexivity|reflexivity|discriminate|reflexivity|exact I].
Defined.

(** What GitLab's [getFileContent] makes of the file the platform
    returns: a base64 content is decoded, a content without an encoding
    is returned as it is under the path that was asked for, and a content
    that is not a string or has another encoding is refused. *)
Theorem GitLab_getFileContent_encoding (W : Type)
  (filesShow : string -> string -> string -> Async W GitLabService.FileData)
  (decodeBase64 : string -> string)
  (prDetails : PullRequestDetails.t) (filePath ref : string)
  (fileData : GitLabService.FileData) (w w1 : W) :
  ref <> "" ->
  filesShow (PullRequestDetails.repo prDetails) filePath ref w
  = (Resolved fileData, w1) ->
  (forall content,
      GitLabService.file_content fileData = Some content ->
      GitLabService.file_encoding fileData = Some "base64" ->
      GitLabService.getFileContent W filesShow decodeBase64 prDetails
        filePath (Some ref) w
      = (Resolved
           (FileContent.mk
              (match GitLabService.file_path fileData with
               | Some p => if Js.truthy p then p else filePath
               | None => filePath
               end)
              (decodeBase64 content) (Some utf8)),
         w1))
  /\ (forall content,
        GitLabService.file_content fileData = Some content ->
        Js.truthy_opt (GitLabService.file_encoding fileData) = false ->
        GitLabService.getFileContent W filesShow decodeBase64 prDetails
          filePath (Some ref) w
        = (Resolved (FileContent.mk filePath content (Some utf8)), w1))
  /\ (GitLabService.file_content fileData = None
      \/ (exists encoding,
             GitLabService.file_encoding fileData = Some encoding
             /\ encoding <> "" /\ encoding <> "base64") ->
      GitLabService.getFileContent W filesShow decodeBase64 prDetails
        filePath (Some ref) w
      = (Rejected
           (Error
              ("File content for " ++ filePath
                 ++ " is not in expected base64 format or is unavailable.")),
         w1)).
Proof.
  intros Href Hshow. apply truthy_true in Href.
  assert (Hunfold :
            GitLabService.getFileContent W filesShow decodeBase64 prDetails
              filePath (Some ref) w
            = match GitLabService.file_content fileData,
                    GitLabService.file_encoding fileData with
              | Some content, Some encoding =>
                  if String.eqb encoding "base64" then
                    (Resolved
                       (FileContent.mk
                          (match GitLabService.file_path fileData with
                           | Some p => if Js.truthy p then p else filePath
                           | None => filePath
                           end)
                          (decodeBase64 content) (Some utf8)), w1)
                  else if negb (Js.truthy encoding) then
                    (Resolved (FileContent.mk filePath content (Some utf8)),
                     w1)
                  else
                    (Rejected
                       (Error
                          ("File content for " ++ filePath
                             ++ " is not in expected base64 format or is unavailable.")),
                     w1)
              | Some content, None =>
                  (Resolved (FileContent.mk filePath content (Some utf8)), w1)
              | None, _ =>
                  (Rejected
                     (Error
                        ("File content for " ++ filePath
                           ++ " is not in expected base64 format or is unavailable.")),
                   w1)
              end).
  { unfold GitLabService.getFileContent. rewrite try_rethrow.
    unfold bind, throw, ret, Js.or_string.
    simpl. rewrite Href. simpl. rewrite Href. simpl. rewrite Hshow.
    destruct (GitLabService.file_content fileData) as [content|];
      [|reflexivity].
    destruct (GitLabService.file_encoding fileData) as [encoding|];
      [|reflexivity].
    destruct (String.eqb encoding "base64"); [reflexivity|].
    destruct (Js.truthy encoding); reflexivity. }
  rewrite Hunfold. split; [|split].
  - intros content -> ->. reflexivity.
  - intros content -> Henc.
    destruct (GitLabService.file_encoding fileData) as [encoding|];
      [|reflexivity].
    simpl in Henc. rewrite Henc.
    apply truthy_false in Henc. subst encoding. reflexivity.
  - intros [-> | (encoding & -> & Hne & Hnb)]; [reflexivity|].
    destruct (GitLabService.file_content fileData); [|reflexivity].
    apply String.eqb_neq in Hnb. rewrite Hnb.
    apply truthy_true in Hne. rewrite Hne. reflexivity.
Qed.

Lemma GitLab_getFileContent_encoding_witness :
  GitLabService.getFileContent Scenario.World
    (fun _ _ _ =>
       ret (GitLabService.mkFileData (Some Scenario.fiveLines) None None))
    (fun content => content) Scenario.prDetails "ok.ts" (Some "feature") []
  = (Resolved (FileContent.mk "ok.ts" Scenario.fiveLines (Some utf8)), [])
  /\ GitLabService.getFileContent Scenario.World
       (fun _ _ _ =>
          ret (GitLabService.mkFileData (Some Scenario.fiveLines)
                 (Some "text") None))
       (fun content => content) Scenario.prDetails "ok.ts" (Some "feature") []
     = (Rejected
          (Error
             "File content for ok.ts is not in expected base64 format or is unavailable."),
        []).
Proof.
  split.
  - destruct (GitLab_getFileContent_encoding Scenario.World
                (fun _ _ _ =>
                   ret (GitLabService.mkFileData (Some Scenario.fiveLines)
                          None None))
                (fun content => content) Scenario.prDetails "ok.ts" "feature"
                (GitLabService.mkFileData (Some Scenario.fiveLines) None None)
                [] []) as (_ & Hraw & _);
      [discriminate|reflexivity|].
    apply Hraw; reflexivity.
  - destruct (GitLab_getFileContent_encoding Scenario.World
                (fun _ _ _ =>
                   ret (GitLabService.mkFileData (Some Scenario.fiveLines)
                          (Some "text") None))
                (fun content => content) Scenario.prDetails "ok.ts" "feature"
                (GitLabService.mkFileData (Some Scenario.fiveLines)
                   (Some "text") None)
                [] []) as (_ & _ & Hother);
      [discriminate|reflexivity|].
    apply Hother. right. exists "text".
    repeat split; discriminate.
Defined.

Lemma isResolvableDiffNote_true (note : GitLabService.Note.t) :
  GitLabService.isResolvableDiffNote note = true
  <-> GitLabService.Note.type note = Some "DiffNote"
      /\ GitLabService.Note.resolvable note = true.
Proof.
  unfold GitLabService.isResolvableDiffNote. rewrite andb_true_iff.
  destruct (GitLabService.Note.type note) as [t|].
  - rewrite String.eqb_eq. split; intros [Ht Hr]; split; congruence.
  - split; intros [Ht Hr]; discriminate.
Qed.

Lemma ResolvableDiffNotes_filter (notes : list GitLabService.Note.t) :
  ResolvableDiffNotes notes
    (map GitLabService.toComment
       (filter GitLabService.isResolvableDiffNote notes)).
Proof.
  induction notes as [|note notes IH]; simpl; [constructor|].
  destruct (GitLabService.isResolvableDiffNote note) eqn:Hok.
  - apply isResolvableDiffNote_true in Hok as [Htype Hres].
    simpl. constructor; assumption.
  - apply NoteLeftOut; [|exact IH].
    destruct (GitLabService.Note.resolvable note) eqn:Hres; [|right; reflexivity].
    left. intros Htype.
    assert (Htrue : GitLabService.isResolvableDiffNote note = true)
      by (apply isResolvableDiffNote_true; split; assumption).
    congruence.
Qed.

Lemma ResolvableDiffNotes_unique (notes : list GitLabService.Note.t)
  (comments comments' : list Comment.t) :
  ResolvableDiffNotes notes comments ->
  ResolvableDiffNotes notes comments' ->
  comments = comments'.
Proof.
  intros H. revert comments'.
  induction H as [|note notes comments Htype Hres _ IH
                  |note notes comments Hout _ IH];
    intros comments' H'; inversion H' as [|? ? ? Htype' Hres' Hrest'
                                           |? ? ? Hout' Hrest']; subst.
  - reflexivity.
  - f_equal. apply IH. assumption.
  - destruct Hout' as [Hno|Hno]; congruence.
  - destruct Hout as [Hno|Hno]; congruence.
  - apply IH. assumption.
Qed.

(** GitLab's [getPullRequestComments] returns exactly the comments of the
    notes that are resolvable diff notes, one for each such note and in
    the order of the notes: every comment comes from such a note, none has
    a start line, and a note without a position gives a comment with
    neither path nor line. *)
Theorem GitLab_comments_are_resolvable_diff_notes (W : Type)
  (notesAll : string -> Z -> Async W (list GitLabService.Note.t))
  (prDetails : PullRequestDetails.t) (notes : list GitLabService.Note.t)
  (w w1 : W) :
  notesAll (PullRequestDetails.repo prDetails)
    (PullRequestDetails.pullNumber prDetails) w
  = (Resolved notes, w1) ->
  exists comments,
    GitLabService.getPullRequestComments W notesAll prDetails w
    = (Resolved comments, w1)
    /\ ResolvableDiffNotes notes comments
    /\ (forall other, ResolvableDiffNotes notes other -> other = comments)
    /\ (forall c,
          In c comments <->
          exists note,
            In note notes
            /\ GitLabService.Note.type note = Some "DiffNote"
            /\ GitLabService.Note.resolvable note = true
            /\ c = GitLabService.toComment note)
    /\ (List.length comments <= List.length notes)%nat
    /\ (forall c, In c comments -> Comment.startLineNumber c = None)
    /\ (forall note,
          GitLabService.Note.position note = None ->
          Comment.filePath (GitLabService.toComment note) = None
          /\ Comment.endLineNumber (GitLabService.toComment note) = None).
Proof.
  intros Hall.
  exists (map GitLabService.toComment
            (filter GitLabService.isResolvableDiffNote notes)).
  split.
  - unfold GitLabService.getPullRequestComments. rewrite try_rethrow.
    unfold bind, ret. rewrite Hall. reflexivity.
  - split; [apply ResolvableDiffNotes_filter|].
    split;
      [intros other Hother;
       apply (ResolvableDiffNotes_unique notes);
       [exact Hother|apply ResolvableDiffNotes_filter]|].
    split; [|split; [|split]].
    + intros c. rewrite in_map_iff. split.
      * intros (note & Hc & Hin). apply filter_In in Hin as [Hin Hok].
        exists note. apply isResolvableDiffNote_true in Hok as [Htype Hres].
        repeat split; auto.
      * intros (note & Hin & Htype & Hres & ->).
        exists note. split; [reflexivity|].
        apply filter_In. split; [exact Hin|].
        apply isResolvableDiffNote_true. split; assumption.
    + rewrite length_map. apply filter_length_le.
    + intros c Hin. apply in_map_iff in Hin as (note & <- & _). reflexivity.
    + intros note Hpos. unfold GitLabService.toComment.
      rewrite Hpos. split; reflexivity.
Qed.

Lemma GitLab_comments_are_resolvable_diff_notes_witness :
  GitLabService.getPullRequestComments Scenario.World
    (fun _ _ =>
       ret [GitLabService.Note.mk 1 "looks good" None false None;
            GitLabService.Note.mk 2 "rename this" (Some "DiffNote") true
              (Some (GitLabService.mkPosition (Some "ok.ts") None (Some 3)
                       None));
            GitLabService.Note.mk 3 "and this" (Some "DiffNote") true None])
    Scenario.prDetails []
  = (Resolved
       [Comment.mk (IdNumber 2) "rename this" (Some "ok.ts") (Some 3) None;
        Comment.mk (IdNumber 3) "and this" None None None],
     []).
Proof.
  destruct (GitLab_comments_are_resolvable_diff_notes Scenario.World
              (fun _ _ =>
                 ret [GitLabService.Note.mk 1 "looks good" None false None;
                      GitLabService.Note.mk 2 "rename this" (Some "DiffNote")
                        true
                        (Some (GitLabService.mkPosition (Some "ok.ts") None
                                 (Some 3) None));
                      GitLabService.Note.mk 3 "and this" (Some "DiffNote")
                        true None])
              Scenario.prDetails
              [GitLabService.Note.mk 1 "looks good" None false None;
               GitLabService.Note.mk 2 "rename this" (Some "DiffNote") true
                 (Some (GitLabService.mkPosition (Some "ok.ts") None (Some 3)
                          None));
               GitLabService.Note.mk 3 "and this" (Some "DiffNote") true None]
              [] [] eq_refl) as (comments & Hget & _ & Hunique & _).
  rewrite Hget. f_equal. f_equal. symmetry. apply Hunique.
  apply NoteLeftOut; [right; reflexivity|].
  apply (NoteTaken
           (GitLabService.Note.mk 2 "rename this" (Some "DiffNote") true
              (Some (GitLabService.mkPosition (Some "ok.ts") None (Some 3)
                       None)))); [reflexivity|reflexivity|].
  apply (NoteTaken
           (GitLabService.Note.mk 3 "and this" (Some "DiffNote") true None));
    [reflexivity|reflexivity|].
  apply NotesDone.
Defined.

(** *** Merge request URLs *)

Lemma indexOf_app_absent (a b : list string) (x : string) :
  ~ In x a -> 0 <= Js.indexOf b x ->
  Js.indexOf (a ++ b) x = Z.of_nat (List.length a) + Js.indexOf b x.
Proof.
  intros Hnot Hb. induction a as [|y a IH]; [simpl; lia|].
  simpl Js.indexOf.
  destruct (String.eqb_spec y x) as [->|Hyx];
    [exfalso; apply Hnot; left; reflexivity|].
  rewrite IH by (intros Hin; apply Hnot; right; exact Hin).
  destruct (Z.ltb_spec (Z.of_nat (List.length a) + Js.indexOf b x) 0);
    [lia|].
  simpl List.length. lia.
Qed.

Lemma at_app_r {A : Type} (a b : list A) (i : Z) :
  0 <= i ->
  Js.at_ (a ++ b) (Z.of_nat (List.length a) + i) = Js.at_ b i.
Proof.
  intros Hi. unfold Js.at_.
  destruct (Z.ltb_spec (Z.of_nat (List.length a) + i) 0); [lia|].
  destruct (Z.ltb_spec i 0); [lia|].
  rewrite nth_error_app2 by lia. f_equal. lia.
Qed.

Lemma filter_all {A : Type} (f : A -> bool) (l : list A) :
  Forall (fun x => f x = true) l -> filter f l = l.
Proof.
  induction 1 as [|x l Hx _ IH]; simpl; [reflexivity|].
  rewrite Hx, IH. reflexivity.
Qed.

Lemma join_nonempty (sep : string) (pieces : list string) :
  pieces <> [] -> Forall (fun s => s <> "") pieces ->
  Js.join sep pieces <> "".
Proof.
  intros Hne Hall. destruct pieces as [|x xs]; [contradiction|].
  inversion Hall as [|? ? Hx _]; subst.
  destruct xs; simpl; [exact Hx|].
  destruct x; [contradiction|discriminate].
Qed.

Lemma parseDigits_nonneg (s : string) (acc : Z) (seen : bool) (v : Z) :
  0 <= acc -> Js.parseDigits s acc seen = Some v -> 0 <= v.
Proof.
  revert acc seen. induction s as [|c s IH]; intros acc seen Hacc;
    cbn [Js.parseDigits].
  - destruct seen; [|discriminate]. intros H. injection H as <-. exact Hacc.
  - unfold Js.digitValue.
    destruct ((48 <=? nat_of_ascii c) && (nat_of_ascii c <=? 57))%nat.
    + apply IH.
      pose proof (Nat2Z.is_nonneg (nat_of_ascii c - 48)). lia.
    + destruct seen; [|discriminate]. intros H. injection H as <-. exact Hacc.
Qed.

(** A text that begins with a digit is read without a sign: its value is
    the value of its digits, as a double. *)
Lemma parseInt_digits (s : string) (v : Z) :
  Js.parseDigits s 0 false = Some v ->
  Js.parseInt s = Js.roundToDouble v.
Proof.
  destruct s as [|c s]; [discriminate|].
  intros Hsame.
  assert (Hd : ((48 <=? nat_of_ascii c) && (nat_of_ascii c <=? 57))%nat
               = true).
  { destruct ((48 <=? nat_of_ascii c) && (nat_of_ascii c <=? 57))%nat eqn:Hd;
      [reflexivity|].
    cbn [Js.parseDigits] in Hsame. unfold Js.digitValue in Hsame.
    rewrite Hd in Hsame. discriminate. }
  assert (Hw : Js.isWhiteSpace c = false).
  { unfold Js.isWhiteSpace.
    pose proof Hd as Hd'.
    apply andb_true_iff in Hd' as [Hlo Hhi].
    apply Nat.leb_le in Hlo, Hhi.
    repeat (apply orb_false_iff; split);
      [apply andb_false_iff; right; apply Nat.leb_gt; lia
      |apply Nat.eqb_neq; lia|apply Nat.eqb_neq; lia]. }
  unfold Js.parseInt. cbn [Js.trimStart]. rewrite Hw.
  destruct c as [[] [] [] [] [] [] [] []]; cbv beta iota;
    first [rewrite Hsame; reflexivity|vm_compute in Hd; discriminate Hd].
Qed.

Lemma roundToDouble_small (v : Z) :
  Z.abs v < 2 ^ 53 -> Js.roundToDouble v = Js.Finite v.
Proof.
  intros H. unfold Js.roundToDouble.
  destruct (Z.ltb_spec (Z.abs v) (2 ^ 53)); [reflexivity|lia].
Qed.

(** A merge request URL is parsed back into what it was built from: when
    the path of the URL is the project path, [/-/merge_requests/] and a
    text, the result is the project path with the number [parseInt] reads
    in the text, and nothing when it reads none. When the text begins
    with digits whose value is below 2^53, the number is that value; a
    larger value comes back as the nearest double. The segments of the
    project path are not empty, hold no slash, and none is
    [merge_requests]. *)
Theorem parseGitLabMrUrl_project_url (pathnameOf : string -> option string)
  (url : string) (segments : list string) (iidText : string) :
  pathnameOf url
  = Some ("/" ++ Js.join "/" segments ++ "/-/merge_requests/" ++ iidText) ->
  segments <> [] ->
  Forall (fun s => s <> "" /\ free GitLabService.SLASH s
                   /\ s <> "merge_requests") segments ->
  iidText <> "" -> free GitLabService.SLASH iidText ->
  GitLabService.parseGitLabMrUrl pathnameOf url
  = match Js.parseInt iidText with
    | Js.NaN => None
    | iid => Some (Js.join "/" segments, iid)
    end
  /\ (forall iid,
        Js.parseDigits iidText 0 false = Some iid ->
        (iid < 2 ^ 53 ->
         GitLabService.parseGitLabMrUrl pathnameOf url
         = Some (Js.join "/" segments, Js.Finite iid))
        /\ Js.parseInt iidText = Js.roundToDouble iid).
Proof.
  intros Hpath Hne Hsegs Htext Hfree.
  set (tail := ["-"; "merge_requests"; iidText]).
  assert (Hjoin : "/" ++ Js.join "/" segments ++ "/-/merge_requests/" ++ iidText
                  = Js.join "/" ("" :: segments ++ tail)).
  { change ("" :: segments ++ tail) with ([""] ++ (segments ++ tail))%list.
    rewrite join_app;
      [|discriminate|destruct segments; [contradiction|discriminate]].
    rewrite join_app by (assumption || discriminate).
    reflexivity. }
  assert (Hsplit : Js.split GitLabService.SLASH
                     ("/" ++ Js.join "/" segments ++ "/-/merge_requests/"
                        ++ iidText)
                   = "" :: (segments ++ tail)%list).
  { rewrite Hjoin. apply split_join; [discriminate|].
    constructor; [exact I|].
    apply Forall_app. split.
    - eapply Forall_impl; [|exact Hsegs]. intros s (_ & Hs & _). exact Hs.
    - repeat constructor; try discriminate. exact Hfree. }
  assert (Hfilter : filter (fun part => (0 <? String.length part)%nat)
                      ("" :: (segments ++ tail)%list)
                    = (segments ++ tail)%list).
  { simpl filter. apply filter_all. apply Forall_app. split.
    - eapply Forall_impl; [|exact Hsegs]. intros s (Hs & _).
      destruct s; [contradiction|reflexivity].
    - repeat constructor. destruct iidText; [contradiction|reflexivity]. }
  assert (Hindex : Js.indexOf (segments ++ tail) "merge_requests"
                   = Z.of_nat (List.length segments) + 1).
  { apply indexOf_app_absent; [|simpl; lia].
    intros Hin. rewrite Forall_forall in Hsegs.
    destruct (Hsegs _ Hin) as (_ & _ & Hno). contradiction. }
  assert (Hlen : (1 <= List.length segments)%nat)
    by (destruct segments; [contradiction|simpl; lia]).
  assert (Hmain : GitLabService.parseGitLabMrUrl pathnameOf url
                  = match Js.parseInt iidText with
                    | Js.NaN => None
                    | iid => Some (Js.join "/" segments, iid)
                    end).
  { unfold GitLabService.parseGitLabMrUrl.
    rewrite Hpath, Hsplit, Hfilter, Hindex.
    replace (Z.of_nat (List.length segments) + 1 - 1)
      with (Z.of_nat (List.length segments) + 0) by lia.
    replace (Z.of_nat (List.length segments) + 1 + 1)
      with (Z.of_nat (List.length segments) + 2) by lia.
    rewrite !at_app_r by lia.
    change (Js.at_ tail 0) with (Some "-").
    change (Js.at_ tail 2) with (Some iidText).
    cbv beta iota.
    change (("-" =? "-")%string) with true.
    destruct (Z.gtb_spec (Z.of_nat (List.length segments) + 1) 1); [|lia].
    destruct (Z.gtb_spec
                (Z.of_nat (List.length (segments ++ tail)))
                (Z.of_nat (List.length segments) + 2))
      as [_|Hbad]; [|rewrite length_app in Hbad; simpl in Hbad; lia].
    simpl andb. cbv iota.
    rewrite slice_inside by (rewrite ?length_app; simpl; lia).
    replace (Z.to_nat (Z.of_nat (List.length segments) + 0 - 0))
      with (List.length segments) by lia.
    change (Z.to_nat 0) with 0%nat. simpl skipn.
    rewrite firstn_app, firstn_all, Nat.sub_diag. simpl firstn.
    rewrite app_nil_r.
    replace (Js.truthy (Js.join "/" segments)) with true;
      [destruct (Js.parseInt iidText); reflexivity|].
    symmetry. apply truthy_true. apply join_nonempty; [exact Hne|].
    eapply Forall_impl; [|exact Hsegs]. intros s (Hs & _). exact Hs. }
  split; [exact Hmain|].
  intros iid Hdigits.
  pose proof (parseInt_digits _ _ Hdigits) as Hparse.
  split; [|exact Hparse].
  intros Hsmall.
  pose proof (parseDigits_nonneg _ _ _ _ (Z.le_refl 0) Hdigits) as Hpos.
  rewrite Hmain, Hparse, roundToDouble_small by lia.
  reflexivity.
Qed.

Lemma parseGitLabMrUrl_project_url_witness :
  GitLabService.parseGitLabMrUrl
    (fun _ => Some "/gitlab-org/gitlab/-/merge_requests/123")
    "https://gitlab.com/gitlab-org/gitlab/-/merge_requests/123"
  = Some ("gitlab-org/gitlab", Js.Finite 123)
  /\ GitLabService.parseGitLabMrUrl
       (fun _ => Some "/gitlab-org/gitlab/-/merge_requests/9007199254740993")
       "https://gitlab.com/gitlab-org/gitlab/-/merge_requests/9007199254740993"
     = Some ("gitlab-org/gitlab", Js.Finite 9007199254740992).
Proof.
  split.
  - destruct (parseGitLabMrUrl_project_url
                (fun _ => Some "/gitlab-org/gitlab/-/merge_requests/123")
                "https://gitlab.com/gitlab-org/gitlab/-/merge_requests/123"
                ["gitlab-org"; "gitlab"] "123") as [_ Hdigits].
    + reflexivity.
    + discriminate.
    + repeat constructor; try discriminate.
    + discriminate.
    + repeat constructor; discriminate.
    + destruct (Hdigits 123 eq_refl) as [Hsmall _].
      apply Hsmall. reflexivity.
  - destruct (parseGitLabMrUrl_project_url
                (fun _ =>
                   Some "/gitlab-org/gitlab/-/merge_requests/9007199254740993")
                "https://gitlab.com/gitlab-org/gitlab/-/merge_requests/9007199254740993"
                ["gitlab-org"; "gitlab"] "9007199254740993") as [Hparsed _].
    + reflexivity.
    + discriminate.
    + repeat constructor; try discriminate.
    + discriminate.
    + repeat constructor; discriminate.
    + rewrite Hparsed. reflexivity.
Defined.

(** How GitLab's [getPullRequestDetails] resolves its identifier. A bare
    number without a project path in the environment and a URL that is
    not a merge request URL are refused before the platform is asked; so
    is every identifier, of any of the three kinds, that gives an empty
    project or an id that is zero. Otherwise the platform is asked once,
    for the project and the id of the identifier, and the details are
    built from its answer: the owner is the first segment of the project
    path (the owner of a record is not used), the number is the one the
    platform returns, the head and base refs are its source and target
    branches. *)
Theorem GitLab_details_resolution (W : Type)
  (pathnameOf : string -> option string) (projectPathEnv : option string)
  (show : string -> Js.Number -> Async W GitLabService.MergeRequest) (w : W) :
  (forall n,
      Js.truthy_opt projectPathEnv = false ->
      GitLabService.getPullRequestDetails W pathnameOf projectPathEnv show
        (IdentNumber n) w
      = (Rejected
           (Error
              "GITLAB_PROJECT_PATH env must be set if only MR IID (pullNumber) is provided."),
         w))
  /\ (forall url,
        GitLabService.parseGitLabMrUrl pathnameOf url = None ->
        GitLabService.getPullRequestDetails W pathnameOf projectPathEnv show
          (IdentUrl url) w
        = (Rejected
             (Error
                "Invalid GitLab MR URL format. Expected format: https://gitlab.com/group/project/-/merge_requests/iid"),
           w))
  /\ (forall prIdentifier projectPath iid,
        match prIdentifier with
        | IdentRecord _ repo pullNumber =>
            repo = projectPath /\ Js.Finite pullNumber = iid
        | IdentNumber pullNumber =>
            projectPathEnv = Some projectPath /\ projectPath <> ""
            /\ Js.Finite pullNumber = iid
        | IdentUrl url =>
            GitLabService.parseGitLabMrUrl pathnameOf url
            = Some (projectPath, iid)
        end ->
        projectPath = "" \/ iid = Js.Finite 0 ->
        GitLabService.getPullRequestDetails W pathnameOf projectPathEnv show
          prIdentifier w
        = (Rejected
             (Error
                "Could not determine projectPath or merge_request_iid from prIdentifier."),
           w))
  /\ (forall prIdentifier projectPath iid mr w1,
        match prIdentifier with
        | IdentRecord _ repo pullNumber =>
            repo = projectPath /\ Js.Finite pullNumber = iid
        | IdentNumber pullNumber =>
            projectPathEnv = Some projectPath /\ projectPath <> ""
            /\ Js.Finite pullNumber = iid
        | IdentUrl url =>
            GitLabService.parseGitLabMrUrl pathnameOf url
            = Some (projectPath, iid)
        end ->
        projectPath <> "" -> Js.truthy_number iid = true ->
        show projectPath iid w = (Resolved mr, w1) ->
        GitLabService.getPullRequestDetails W pathnameOf projectPathEnv show
          prIdentifier w
        = (Resolved
             (PullRequestDetails.mk
                (nth 0 (Js.split GitLabService.SLASH projectPath) "")
                projectPath
                (GitLabService.iid mr)
                (Some (GitLabService.source_branch mr))
                (Some (GitLabService.target_branch mr))),
           w1)).
Proof.
  assert (Hresolved :
            forall prIdentifier projectPath iid,
              match prIdentifier with
              | IdentRecord _ repo pullNumber =>
                  repo = projectPath /\ Js.Finite pullNumber = iid
              | IdentNumber pullNumber =>
                  projectPathEnv = Some projectPath /\ projectPath <> ""
                  /\ Js.Finite pullNumber = iid
              | IdentUrl url =>
                  GitLabService.parseGitLabMrUrl pathnameOf url
                  = Some (projectPath, iid)
              end ->
              GitLabService.getPullRequestDetails W pathnameOf projectPathEnv
                show prIdentifier w
              = (if negb (Js.truthy projectPath)
                    || negb (Js.truthy_number iid)
                 then
                   throw
                     (Error
                        "Could not determine projectPath or merge_request_iid from prIdentifier.")
                 else
                   try_catch
                     (mr <- show projectPath iid ;;
                      ret
                        (PullRequestDetails.mk
                           (match Js.split GitLabService.SLASH projectPath with
                            | first :: _ => first
                            | [] => ""
                            end)
                           projectPath
                           (GitLabService.iid mr)
                           (Some (GitLabService.source_branch mr))
                           (Some (GitLabService.target_branch mr))))
                     (fun error => readMessage error ;;; throw error)) w).
  { intros prIdentifier projectPath iid Hid.
    unfold GitLabService.getPullRequestDetails.
    destruct prIdentifier as [url|pullNumber|owner repo pullNumber].
    - rewrite Hid. reflexivity.
    - destruct Hid as (-> & Hpath & <-).
      destruct projectPath as [|c p]; [exfalso; apply Hpath; reflexivity|].
      reflexivity.
    - destruct Hid as [-> <-]. reflexivity. }
  refine (conj _ (conj _ (conj _ _))).
  - intros n Henv.
    unfold GitLabService.getPullRequestDetails, bind, throw.
    destruct projectPathEnv as [p|]; simpl in *; [rewrite Henv|]; reflexivity.
  - intros url Hparse.
    unfold GitLabService.getPullRequestDetails, bind, throw.
    rewrite Hparse. reflexivity.
  - intros prIdentifier projectPath iid Hid Hbad.
    rewrite (Hresolved _ _ _ Hid).
    destruct Hbad as [-> | ->]; [reflexivity|].
    rewrite orb_true_r. reflexivity.
  - intros prIdentifier projectPath iid mr w1 Hid Hpath Hiid Hshow.
    apply truthy_true in Hpath.
    rewrite (Hresolved _ _ _ Hid), Hpath, Hiid. simpl.
    rewrite try_rethrow. unfold bind, ret. rewrite Hshow.
    destruct (Js.split GitLabService.SLASH projectPath); reflexivity.
Qed.

Lemma GitLab_details_resolution_witness :
  GitLabService.getPullRequestDetails Scenario.World
    (fun _ => Some "/gitlab-org/gitlab/-/merge_requests/123") None
    (fun _ _ => ret (GitLabService.mkMergeRequest 123 "feature" "main"))
    (IdentUrl "https://gitlab.com/gitlab-org/gitlab/-/merge_requests/123") []
  = (Resolved
       (PullRequestDetails.mk "gitlab-org" "gitlab-org/gitlab" 123
          (Some "feature") (Some "main")),
     [])
  /\ fst (GitLabService.getPullRequestDetails Scenario.World
            (fun _ => None) None
            (fun _ _ => ret (GitLabService.mkMergeRequest 123 "feature" "main"))
            (IdentNumber 123) [])
     = Rejected
         (Error
            "GITLAB_PROJECT_PATH env must be set if only MR IID (pullNumber) is provided.")
  /\ GitLabService.getPullRequestDetails Scenario.World
       (fun _ => Some "/gitlab-org/gitlab/-/merge_requests/0") None
       (fun _ _ => ret (GitLabService.mkMergeRequest 123 "feature" "main"))
       (IdentUrl "https://gitlab.com/gitlab-org/gitlab/-/merge_requests/0") []
     = (Rejected
          (Error
             "Could not determine projectPath or merge_request_iid from prIdentifier."),
        []).
Proof.
  refine (conj _ (conj _ _)).
  - destruct (GitLab_details_resolution Scenario.World
                (fun _ => Some "/gitlab-org/gitlab/-/merge_requests/123") None
                (fun _ _ =>
                   ret (GitLabService.mkMergeRequest 123 "feature" "main"))
                []) as (_ & _ & _ & Hok).
    apply (Hok (IdentUrl
                  "https://gitlab.com/gitlab-org/gitlab/-/merge_requests/123")
             "gitlab-org/gitlab" (Js.Finite 123)
             (GitLabService.mkMergeRequest 123 "feature" "main") []);
      [reflexivity|discriminate|reflexivity|reflexivity].
  - destruct (GitLab_details_resolution Scenario.World (fun _ => None) None
                (fun _ _ =>
                   ret (GitLabService.mkMergeRequest 123 "feature" "main"))
                []) as (Hnumber & _).
    rewrite Hnumber; reflexivity.
  - destruct (GitLab_details_resolution Scenario.World
                (fun _ => Some "/gitlab-org/gitlab/-/merge_requests/0") None
                (fun _ _ =>
                   ret (GitLabService.mkMergeRequest 123 "feature" "main"))
                []) as (_ & _ & Hzero & _).
    apply (Hzero (IdentUrl
                    "https://gitlab.com/gitlab-org/gitlab/-/merge_requests/0")
             "gitlab-org/gitlab" (Js.Finite 0));
      [reflexivity|right; reflexivity].
Defined.

(** ** Line numbers below the file *)

(** The extractor does not refuse negative arguments. For an end line
    below zero, [getOriginalCode] counts the end of the range from the
    end of the file: it returns the lines from [startLine] to the line
    [- endLine] lines before the last. For a negative window that is not
    larger than the target line, [getCodeContext] returns the empty
    string although the line is in the file. *)
Theorem negative_arguments (fileText : string) :
  (forall startLine endLine,
      1 <= startLine -> endLine < 0 ->
      getOriginalCode startLine endLine fileText
      = Js.join Js.nl
          (linesBetween (Js.split Js.LF fileText) (startLine - 1)
             (lineCount fileText + endLine - 1)))
  /\ (forall targetLine windowSize,
        windowSize < 0 -> 0 <= targetLine + windowSize ->
        getCodeContext fileText targetLine windowSize = "").
Proof.
  split.
  - intros startLine endLine Hs He.
    unfold getOriginalCode, lineCount.
    set (lines := Js.split Js.LF fileText).
    destruct (Z.ltb_spec (startLine - 1) 0) as [?|_]; [lia|].
    destruct (Z.geb_spec (endLine - 1) (Z.of_nat (List.length lines)))
      as [?|_]; [lia|].
    simpl. f_equal. unfold Js.slice, linesBetween.
    destruct (Z.ltb_spec (startLine - 1) 0) as [?|_]; [lia|].
    destruct (Z.ltb_spec (endLine - 1 + 1) 0) as [_|?]; [|lia].
    destruct (Z.le_gt_cases (startLine - 1) (Z.of_nat (List.length lines)))
      as [Hin|Hout].
    + rewrite (Z.min_l (startLine - 1)) by lia.
      replace (Z.to_nat
                 (Z.max (Z.of_nat (List.length lines) + (endLine - 1 + 1)) 0
                  - (startLine - 1)))
        with (Z.to_nat
                (Z.of_nat (List.length lines) + endLine - 1
                 - (startLine - 1) + 1)) by lia.
      apply firstn_skipn_nth. lia.
    + rewrite (Z.min_r (startLine - 1)) by lia.
      replace (Z.to_nat
                 (Z.max (Z.of_nat (List.length lines) + (endLine - 1 + 1)) 0
                  - Z.of_nat (List.length lines)))
        with 0%nat by lia.
      replace (Z.to_nat
                 (Z.of_nat (List.length lines) + endLine - 1
                  - (startLine - 1) + 1))
        with 0%nat by lia.
      reflexivity.
  - intros targetLine windowSize Hw Ht.
    unfold getCodeContext.
    destruct (negb (Js.truthy fileText) || (targetLine <=? 0));
      [reflexivity|].
    set (lines := Js.split Js.LF fileText).
    destruct ((targetLine - 1 <? 0)
              || (targetLine - 1 >=? Z.of_nat (List.length lines))) eqn:Hb;
      [reflexivity|].
    apply orb_false_iff in Hb as [Hlo Hhi].
    apply Z.ltb_ge in Hlo.
    destruct (Z.geb_spec (targetLine - 1) (Z.of_nat (List.length lines)))
      as [?|Hlt]; [discriminate|].
    unfold Js.slice.
    destruct (Z.ltb_spec (Z.max 0 (targetLine - 1 - windowSize)) 0);
      [lia|].
    destruct (Z.ltb_spec
                (Z.min (Z.of_nat (List.length lines) - 1)
                   (targetLine - 1 + windowSize) + 1) 0); [lia|].
    match goal with
    | |- Js.join _ (firstn ?k _) = _ => replace k with 0%nat by lia
    end.
    reflexivity.
Qed.

Lemma negative_arguments_witness :
  getOriginalCode 1 (-1) Scenario.fiveLines
  = "a" ++ Js.nl ++ "b" ++ Js.nl ++ "c" ++ Js.nl ++ "d"
  /\ getCodeContext Scenario.fiveLines 3 (-1) = "".
Proof.
  destruct (negative_arguments Scenario.fiveLines) as [Hend Hwindow].
  split.
  - rewrite Hend; [reflexivity|lia|lia].
  - apply Hwindow; lia.
Defined.

(** ** GitHub: comments and files *)

(** GitHub's [getPullRequestComments] keeps the review comments one for
    one and in order. The end line of a comment is the live line of the
    review comment when there is one, and its original line otherwise (an
    outdated comment); the path and the start line are taken as they
    are. *)
Theorem GitHub_comments_prefer_live_line (W : Type)
  (listReviewComments :
     string -> string -> Z -> Async W (list GitHubService.ReviewComment.t))
  (prDetails : PullRequestDetails.t)
  (reviewComments : list GitHubService.ReviewComment.t) (w w1 : W) :
  listReviewComments (PullRequestDetails.owner prDetails)
    (PullRequestDetails.repo prDetails)
    (PullRequestDetails.pullNumber prDetails) w
  = (Resolved reviewComments, w1) ->
  exists comments,
    GitHubService.getPullRequestComments W listReviewComments prDetails w
    = (Resolved comments, w1)
    /\ List.length comments = List.length reviewComments
    /\ forall i rc,
         nth_error reviewComments i = Some rc ->
         exists c,
           nth_error comments i = Some c
           /\ Comment.id c = IdNumber (GitHubService.ReviewComment.id rc)
           /\ Comment.body c = GitHubService.ReviewComment.body rc
           /\ Comment.filePath c = Some (GitHubService.ReviewComment.path rc)
           /\ Comment.startLineNumber c
              = GitHubService.ReviewComment.start_line rc
           /\ (forall l,
                 GitHubService.ReviewComment.line rc = Some l -> l <> 0 ->
                 Comment.endLineNumber c = Some l)
           /\ (GitHubService.ReviewComment.line rc = None
               \/ GitHubService.ReviewComment.line rc = Some 0 ->
               Comment.endLineNumber c
               = GitHubService.ReviewComment.original_line rc).
Proof.
  intros Hlist.
  exists (map GitHubService.toComment reviewComments).
  split.
  - unfold GitHubService.getPullRequestComments, try_catch, bind, ret.
    rewrite Hlist. reflexivity.
  - split; [apply length_map|].
    intros i rc Hi. exists (GitHubService.toComment rc).
    split; [rewrite nth_error_map, Hi; reflexivity|].
    unfold GitHubService.toComment, Js.or_num. simpl.
    repeat (split; [reflexivity|]).
    split.
    + intros l -> Hl. simpl. apply Z.eqb_neq in Hl. rewrite Hl. reflexivity.
    + intros [-> | ->]; reflexivity.
Qed.

Lemma GitHub_comments_prefer_live_line_witness :
  exists comments,
    GitHubService.getPullRequestComments Scenario.World
      (fun _ _ _ =>
         ret [GitHubService.ReviewComment.mk 11 "use const" "ok.ts" None
                (Some 3) None])
      Scenario.prDetails []
    = (Resolved comments, [])
    /\ List.length comments = 1%nat.
Proof.
  destruct (GitHub_comments_prefer_live_line Scenario.World
              (fun _ _ _ =>
                 ret [GitHubService.ReviewComment.mk 11 "use const" "ok.ts"
                        None (Some 3) None])
              Scenario.prDetails
              [GitHubService.ReviewComment.mk 11 "use const" "ok.ts" None
                 (Some 3) None]
              [] [] eq_refl) as (comments & Hget & Hlen & _).
  exists comments. split; [exact Hget|exact Hlen].
Defined.

(** GitHub's [getFileContent] reads the file at the ref it is given and,
    when it is given none or an empty one, at the head ref of the
    request. A file is returned under the path the platform reports, its
    content decoded from the encoding the platform names, and marked as
    utf-8. When the decoder does not know the encoding and throws, the
    operation rejects with what it threw. *)
Theorem GitHub_getFileContent_reads_ref (W : Type)
  (getContent : string -> string -> string -> string
                -> Async W GitHubService.ContentData)
  (decode : string -> string -> JsError + string)
  (prDetails : PullRequestDetails.t) (filePath : string)
  (ref : option string) (fileRef path content encoding : string) (w w1 : W) :
  (ref = Some fileRef
   \/ (Js.truthy_opt ref = false
       /\ PullRequestDetails.headRef prDetails = Some fileRef)) ->
  fileRef <> "" ->
  getContent (PullRequestDetails.owner prDetails)
    (PullRequestDetails.repo prDetails) filePath fileRef w
  = (Resolved (GitHubService.ContentItem "file" path content encoding), w1) ->
  (forall text,
      decode content encoding = inr text ->
      GitHubService.getFileContent W getContent decode prDetails filePath ref w
      = (Resolved (FileContent.mk path text (Some utf8)), w1))
  /\ (forall thrown,
        decode content encoding = inl thrown ->
        GitHubService.getFileContent W getContent decode prDetails filePath
          ref w
        = (Rejected (passedOn thrown), w1)).
Proof.
  intros Href Hne Hget. apply truthy_true in Hne.
  assert (Hunfold :
            GitHubService.getFileContent W getContent decode prDetails
              filePath ref w
            = match decode content encoding with
              | inr text =>
                  (Resolved (FileContent.mk path text (Some utf8)), w1)
              | inl thrown => (Rejected (passedOn thrown), w1)
              end).
  { unfold GitHubService.getFileContent. rewrite try_rethrow.
    unfold bind, throw, ret, Js.or_string.
    destruct Href as [-> | [Hno ->]].
    - simpl. rewrite Hne. simpl. rewrite Hne. simpl. rewrite Hget.
      simpl. destruct (decode content encoding); reflexivity.
    - rewrite Hno. rewrite Hne. simpl. rewrite Hget.
      simpl. destruct (decode content encoding); reflexivity. }
  rewrite Hunfold.
  split; [intros text ->|intros thrown ->]; reflexivity.
Qed.

Lemma GitHub_getFileContent_reads_ref_witness :
  GitHubService.getFileContent Scenario.World Scenario.getContent
    Scenario.decode Scenario.prDetails "ok.ts" None []
  = (Resolved (FileContent.mk "ok.ts" Scenario.fiveLines (Some utf8)), [])
  /\ GitHubService.getFileContent Scenario.World
       (fun _ _ path _ =>
          ret (GitHubService.ContentItem "file" path Scenario.fiveLines "none"))
       Scenario.decode Scenario.prDetails "ok.ts" None []
     = (Rejected (Error "Unknown encoding: none"), []).
Proof.
  split.
  - destruct (GitHub_getFileContent_reads_ref Scenario.World
                Scenario.getContent Scenario.decode Scenario.prDetails "ok.ts"
                None "feature" "ok.ts" Scenario.fiveLines "utf-8" [] [])
      as [Hfile _].
    + right. split; reflexivity.
    + discriminate.
    + reflexivity.
    + apply Hfile. reflexivity.
  - destruct (GitHub_getFileContent_reads_ref Scenario.World
                (fun _ _ path _ =>
                   ret (GitHubService.ContentItem "file" path
                          Scenario.fiveLines "none"))
                Scenario.decode Scenario.prDetails "ok.ts"
                None "feature" "ok.ts" Scenario.fiveLines "none" [] [])
      as [_ Hthrown].
    + right. split; reflexivity.
    + discriminate.
    + reflexivity.
    + rewrite <- (passedOn_error "Unknown encoding: none").
      apply Hthrown. reflexivity.
Defined.
